(** * Fitness Tracker API: pagination, derived metrics, statistics and
      referential checks

    A shallow embedding of the request handlers of the Fitness Tracker API
    (Express + Mongoose) and of the model code they call.

    Conventions of the embedding.
    - A JavaScript Number that the code only ever produces from [parseInt]
      or from a document count is an integer and is modelled by [Z]; the
      body metrics and the workout figures are Numbers with a fractional
      part and are modelled by exact rationals [Q].  IEEE rounding of the
      intermediate results, and the distinction between [0] and [-0], are
      not modelled.
    - [undefined]/[null] fields are [None].  The fields of a request body
      have the types of the schema (a string, a number, a boolean, an id,
      a date, a list of exercises), or are absent.
    - Strings are strings of bytes: lengths, white space and letter case
      are those of ASCII text.  A parameter of the query string is given
      at most once, so that its value is a string.
    - The MongoDB collections are lists of documents in insertion order; an
      asynchronous handler is a function from the store to a result and a
      new store.
    - Logging calls, message texts and response timestamps are left out.
    - The regular-expression engine, the Date parser and the ObjectId
      parser of the platform are taken as an interface ([Runtime]). *)

From Stdlib Require Import ZArith QArith Qround Qabs List String Ascii Bool.
From Stdlib Require Import Lia Lqa.
From Stdlib Require Import Sorting.Permutation Sorting.Sorted DecimalString.
Import ListNotations.

Local Open Scope Z_scope.

(* ===================================================================== *)
(** * JavaScript primitives used by the handlers *)
(* ===================================================================== *)

Module JS.

(** A Number with an integer value, as [parseInt] and [Math.ceil] give
    it: a finite integer, or one of the three non-finite Numbers. *)
Inductive number : Type :=
  | Fin (z : Z)
  | NaN
  | Infinity
  | NegInfinity.

(** ** Doubles *)

(** The integer [k] with [2^k <= |x| < 2^(k+1)], for [x] other than 0. *)
Definition exponent (x : Q) : Z :=
  let k := Z.log2 (Z.abs (Qnum x)) - Z.log2 (Zpos (Qden x)) in
  if Qle_bool (2 ^ k) (Qabs x) then k else k - 1.

(** The nearest integer, a half going to the even one. *)
Definition round_half_even (y : Q) : Z :=
  let f := Qfloor y in
  match Qcompare (y - inject_Z f) (1 # 2) with
  | Lt => f
  | Gt => f + 1
  | Eq => if Z.even f then f else f + 1
  end.

(** The double nearest to [x]: 53 significant bits, a tie going to the
    even one.  The exponent is not bounded here: the function is the
    rounding of the platform for [|x|] from [2^-1022] to [2^1024]. *)
Definition to_double (x : Q) : Q :=
  if Qeq_bool x 0 then 0%Q
  else
    let e := exponent x - 52 in
    (inject_Z (round_half_even (x / 2 ^ e)) * 2 ^ e)%Q.

(** The Number of a mathematical integer: the nearest double, an infinity
    from [2^1024] on. *)
Definition of_integer (z : Z) : number :=
  let r := Qfloor (to_double (inject_Z z)) in
  if 2 ^ 1024 <=? Z.abs r then
    if 0 <? z then Infinity else NegInfinity
  else Fin r.

Definition isNaN (n : number) : bool :=
  match n with NaN => true | _ => false end.

(** [n < p] for an integer [p]; every comparison with [NaN] is false. *)
Definition number_lt (n : number) (p : Z) : bool :=
  match n with
  | Fin z => z <? p
  | NaN => false
  | Infinity => false
  | NegInfinity => true
  end.

(** [Math.ceil(a / b)] for integer-valued [a] and [b]. *)
Definition Math_ceil_div (a b : Z) : number :=
  if b =? 0 then
    if a =? 0 then NaN
    else if 0 <? a then Infinity else NegInfinity
  else Fin (Qceiling (inject_Z a / inject_Z b)).

(** [p < n] for an integer [p]; every comparison with [NaN] is false. *)
Definition lt_number (p : Z) (n : number) : bool :=
  match n with
  | Fin z => p <? z
  | NaN => false
  | Infinity => true
  | NegInfinity => false
  end.

(** [Math.round]: the nearest integer, halves going up. *)
Definition Math_round (x : Q) : Z := Qfloor (x + (1 # 2)).

(** [Math.floor]. *)
Definition Math_floor (x : Q) : Z := Qfloor x.

(** Truthiness of an optional Number: [undefined], [null] and [0] are
    falsy. *)
Definition truthy_num (x : option Q) : bool :=
  match x with
  | Some q => negb (Qeq_bool q 0)
  | None => false
  end.

(** Truthiness of an optional string: [undefined], [null] and the empty
    string are falsy. *)
Definition truthy_str (x : option string) : bool :=
  match x with
  | Some EmptyString => false
  | Some _ => true
  | None => false
  end.

(** ** [parseInt] *)

Definition is_space (c : ascii) : bool :=
  let n := nat_of_ascii c in
  ((9 <=? n) && (n <=? 13))%nat || (n =? 32)%nat.

Fixpoint skip_spaces (s : string) : string :=
  match s with
  | String c r => if is_space c then skip_spaces r else s
  | EmptyString => s
  end.

(** The value of [c] as a digit, for radix up to 16. *)
Definition digit_value (c : ascii) : option Z :=
  let n := Z.of_nat (nat_of_ascii c) in
  if (48 <=? n) && (n <=? 57) then Some (n - 48)
  else if (97 <=? n) && (n <=? 102) then Some (n - 87)
  else if (65 <=? n) && (n <=? 70) then Some (n - 55)
  else None.

(** Reads the longest prefix of digits of the radix; [acc] is [None] until
    a first digit is read. *)
Fixpoint read_digits (radix : Z) (acc : option Z) (s : string) : option Z :=
  match s with
  | String c r =>
      match digit_value c with
      | Some d =>
          if d <? radix then
            read_digits radix
              (Some (match acc with Some a => a * radix + d | None => d end)) r
          else acc
      | None => acc
      end
  | EmptyString => acc
  end.

(** [parseInt(s)] with no radix argument: the Number of the integer that
    the digits write, [NaN] when there is no digit. *)
Definition parseInt (s : string) : number :=
  let s1 := skip_spaces s in
  let '(sign, s2) :=
    match s1 with
    | String "-" r => (-1, r)
    | String "+" r => (1, r)
    | _ => (1, s1)
    end in
  let '(radix, s3) :=
    match s2 with
    | String "0" (String "x" r) => (16, r)
    | String "0" (String "X" r) => (16, r)
    | _ => (10, s2)
    end in
  match read_digits radix None s3 with
  | Some m => of_integer (sign * m)
  | None => NaN
  end.

(** The first decimal digit of a positive integer, and the power of ten
    of its place. *)
Fixpoint leading (fuel : nat) (z : Z) : Z * Z :=
  match fuel with
  | O => (z, 1)
  | S f =>
      if z <? 10 then (z, 1)
      else let '(d, p) := leading f (z / 10) in (d, 10 * p)
  end.

(** [parseInt(n)] for a Number [n], which is first turned into a string.
    Below [10^21] the string is the decimal numeral of [n].  From [10^21]
    on it is in exponent notation, with the shortest digits that read back
    as [n], and [parseInt] reads the first of them: the first digit of
    [n], or the next digit when the next round number reads back as [n]
    (1e23, whose numeral starts with a 9, is written [1e+23]).  The string
    of a Number that is not finite has no digit. *)
Definition parseInt_number (n : number) : number :=
  match n with
  | Fin z =>
      let a := Z.abs z in
      if a <? 10 ^ 21 then Fin z
      else
        let '(d, p) := leading (Z.to_nat (Z.log2 a)) a in
        let first :=
          match of_integer ((d + 1) * p) with
          | Fin r =>
              if r =? a then (if d + 1 =? 10 then 1 else d + 1) else d
          | _ => d
          end in
        Fin (Z.sgn z * first)
  | _ => NaN
  end.

(** [n || d] for a parsed Number: [NaN] and [0] are falsy. *)
Definition or_default (n : number) (d : Z) : number :=
  match n with
  | Fin z => if z =? 0 then Fin d else n
  | NaN => Fin d
  | _ => n
  end.

(** [Math.max(a, b)]. *)
Definition Math_max (a b : Q) : Q := if Qle_bool a b then b else a.

End JS.

(* ===================================================================== *)
(** * Response utilities (utils/apiResponse.js) *)
(* ===================================================================== *)

Module ApiResponse.

Record Pagination : Type := mkPagination {
  currentPage : Z;
  itemsPerPage : Z;
  totalItems : Z;
  totalPages : JS.number;
  hasNextPage : bool;
  hasPrevPage : bool;
  nextPage : option Z;
  prevPage : option Z
}.

(** The metadata object built by [sendPaginated]. *)
Definition paginationMeta (page limit total : Z) : Pagination :=
  let totalPages := JS.Math_ceil_div total limit in
  let hasNextPage := JS.lt_number page totalPages in
  let hasPrevPage := 1 <? page in
  {| currentPage := page;
     itemsPerPage := limit;
     totalItems := total;
     totalPages := totalPages;
     hasNextPage := hasNextPage;
     hasPrevPage := hasPrevPage;
     nextPage := if hasNextPage then Some (page + 1) else None;
     prevPage := if hasPrevPage then Some (page - 1) else None |}.

End ApiResponse.

(* ===================================================================== *)
(** * Strings: the setters and the e-mail pattern of the schemas *)
(* ===================================================================== *)

Module Str.

Definition in_range (lo hi : nat) (c : ascii) : bool :=
  let n := nat_of_ascii c in ((lo <=? n) && (n <=? hi))%nat.

Definition is_upper : ascii -> bool := in_range 65 90.
Definition is_lower : ascii -> bool := in_range 97 122.
Definition is_digit : ascii -> bool := in_range 48 57.
Definition is_letter (c : ascii) : bool := is_upper c || is_lower c.

Definition lower_char (c : ascii) : ascii :=
  if is_upper c then ascii_of_nat (nat_of_ascii c + 32) else c.

(** [s.toLowerCase()]. *)
Fixpoint toLowerCase (s : string) : string :=
  match s with
  | String c r => String (lower_char c) (toLowerCase r)
  | EmptyString => EmptyString
  end.

Definition rev_string (s : string) : string :=
  string_of_list_ascii (rev (list_ascii_of_string s)).

(** [s.trim()]. *)
Definition trim (s : string) : string :=
  rev_string (JS.skip_spaces (rev_string (JS.skip_spaces s))).

Definition length (s : string) : Z := Z.of_nat (String.length s).

(** Splits at the first occurrence of [sep]: what is before it and what is
    after it. *)
Fixpoint split_first (sep : ascii) (l : list ascii)
  : option (list ascii * list ascii) :=
  match l with
  | [] => None
  | c :: r =>
      if Ascii.eqb c sep then Some ([], r)
      else match split_first sep r with
           | Some (a, b) => Some (c :: a, b)
           | None => None
           end
  end.

Definition nonempty_all (p : ascii -> bool) (l : list ascii) : bool :=
  match l with
  | [] => false
  | _ => forallb p l
  end.

(** The class [[a-zA-Z0-9._%+-]]. *)
Definition local_char (c : ascii) : bool :=
  is_letter c || is_digit c
  || existsb (Ascii.eqb c) ["."; "_"; "%"; "+"; "-"]%char.

(** The class [[a-zA-Z0-9.-]]. *)
Definition domain_char (c : ascii) : bool :=
  is_letter c || is_digit c || existsb (Ascii.eqb c) ["."; "-"]%char.

(** [/^[a-zA-Z0-9._%+-]+@[a-zA-Z0-9.-]+\.[a-zA-Z]{2,}$/.test(s)].  No class
    of the pattern contains [@], so the local part ends at the first [@];
    the last class contains no dot, so the top-level part starts after the
    last dot. *)
Definition email_match (s : string) : bool :=
  match split_first "@" (list_ascii_of_string s) with
  | Some (loc, rest) =>
      nonempty_all local_char loc &&
      match split_first "." (rev rest) with
      | Some (tld_rev, dom_rev) =>
          nonempty_all domain_char dom_rev &&
          forallb is_letter tld_rev && (2 <=? List.length tld_rev)%nat
      | None => false
      end
  | None => false
  end.

Definition mem (s : string) (l : list string) : bool :=
  existsb (String.eqb s) l.

Definition opt_eqb (a b : option string) : bool :=
  match a, b with
  | Some x, Some y => String.eqb x y
  | None, None => true
  | _, _ => false
  end.

End Str.

(* ===================================================================== *)
(** * The platform interface and the values shared by both collections *)
(* ===================================================================== *)

Definition ObjectId : Type := nat.

(** A [Date], in milliseconds since the epoch. *)
Definition Date : Type := Z.

Class Runtime : Type := {
  (** [new RegExp(source, 'i')]: [None] when the constructor throws a
      SyntaxError, else the test of a subject string. *)
  RegExp_compile : string -> option (string -> bool);
  (** [new Date(s)]: [None] for an Invalid Date. *)
  Date_parse : string -> option Date;
  (** The cast of a query string to an ObjectId: [None] when it fails. *)
  ObjectId_cast : string -> option ObjectId;
  (** Whether [mongoose.Types.ObjectId] can be called without [new]: it is a
      function in Mongoose 6 and a class, which throws a TypeError when it
      is called, from Mongoose 7 on.  The repository fixes no version. *)
  ObjectId_callable : bool
}.

(** What a handler can throw, as the error handler tells them apart. *)
Inductive Thrown : Type :=
  | AppError (statusCode : Z)
  | ValidationError
  | DuplicateKey
  | CastError
  | OtherError.

(** Values of document fields, for sorting on a field chosen by name. *)
Inductive value : Type :=
  | VNull
  | VNum (q : Q)
  | VStr (s : string)
  | VId (i : ObjectId)
  | VBool (b : bool)
  | VDate (d : Date).

Definition of_opt {A} (f : A -> value) (x : option A) : value :=
  match x with Some a => f a | None => VNull end.

(** The rank of a type in the comparison order of the store. *)
Definition type_rank (v : value) : Z :=
  match v with
  | VNull => 1 | VNum _ => 2 | VStr _ => 3
  | VId _ => 4 | VBool _ => 5 | VDate _ => 6
  end.

Definition value_leb (a b : value) : bool :=
  match a, b with
  | VNum x, VNum y => Qle_bool x y
  | VStr x, VStr y => String.leb x y
  | VId x, VId y => (x <=? y)%nat
  | VBool x, VBool y => implb x y
  | VDate x, VDate y => x <=? y
  | _, _ => type_rank a <=? type_rank b
  end.

(** ** Cursor operations *)

Section Cursor.
Context {A : Type}.

Fixpoint insert_sorted (le : A -> A -> bool) (x : A) (l : list A) : list A :=
  match l with
  | [] => [x]
  | y :: r => if le x y then x :: l else y :: insert_sorted le x r
  end.

(** A sort that keeps every document; documents that compare equal keep
    their relative order. *)
Definition sort_by (le : A -> A -> bool) (l : list A) : list A :=
  fold_right (insert_sorted le) [] l.

(** [.sort({ field: 1 })] and [.sort({ field: -1 })] for a key [k]. *)
Definition sort_on (k : A -> value) (order : Z) (l : list A) : list A :=
  if order <? 0
  then sort_by (fun a b => value_leb (k b) (k a)) l
  else sort_by (fun a b => value_leb (k a) (k b)) l.

(** [.limit(n)]: no limit for [0], the absolute value for a negative
    [n]. *)
Definition apply_limit (n : Z) (l : list A) : list A :=
  if n =? 0 then l else firstn (Z.to_nat (Z.abs n)) l.

(** [.skip(k).limit(n)] on the sorted matches; the store refuses a
    negative skip. *)
Definition skip_limit (k n : Z) (l : list A) : Thrown + list A :=
  if k <? 0 then inl OtherError
  else inr (apply_limit n (skipn (Z.to_nat k) l)).
End Cursor.

(* ===================================================================== *)
(** * The User model (models/User.js) *)
(* ===================================================================== *)

Module User.

Record doc : Type := mkDoc {
  _id : ObjectId;
  name : option string;
  email : option string;
  age : option Q;
  weight : option Q;
  height : option Q;
  fitnessGoal : option string;
  activityLevel : option string;
  isActive : bool;
  profileCompletion : Q;
  createdAt : Date;
  updatedAt : Date
}.

(** The fields a request body can give; [None] is a field that is not in
    the body. *)
Record fields : Type := mkFields {
  f_name : option string;
  f_email : option string;
  f_age : option Q;
  f_weight : option Q;
  f_height : option Q;
  f_fitnessGoal : option string;
  f_activityLevel : option string;
  f_isActive : option bool;
  f_profileCompletion : option Q
}.

Definition fitnessGoals : list string :=
  ["weight_loss"; "muscle_gain"; "endurance"; "flexibility";
   "general_fitness"]%string.

Definition activityLevels : list string :=
  ["sedentary"; "lightly_active"; "moderately_active"; "very_active";
   "extra_active"]%string.

(** ** Schema validators *)

Definition in_bounds (lo hi : Q) (x : option Q) : bool :=
  match x with
  | Some q => Qle_bool lo q && Qle_bool q hi
  | None => true
  end.

Arguments in_bounds (lo hi)%_Q x.

Definition in_enum (l : list string) (x : option string) : bool :=
  match x with
  | Some s => Str.mem s l
  | None => true
  end.

Definition valid_name (x : option string) : bool :=
  match x with
  | Some s =>
      negb (String.eqb s EmptyString)
      && (2 <=? Str.length s) && (Str.length s <=? 50)
  | None => true
  end.

Definition valid_email (x : option string) : bool :=
  match x with
  | Some s => negb (String.eqb s EmptyString) && Str.email_match s
  | None => true
  end.

(** The validation run before a document is saved. *)
Definition validate (d : doc) : bool :=
  JS.truthy_str (name d) && valid_name (name d)
  && JS.truthy_str (email d) && valid_email (email d)
  && in_bounds 13 120 (age d)
  && in_bounds 20 500 (weight d)
  && in_bounds 50 300 (height d)
  && in_enum fitnessGoals (fitnessGoal d)
  && in_enum activityLevels (activityLevel d)
  && in_bounds 0 100 (Some (profileCompletion d)).

(** The validators of an update run on the paths that the update sets. *)
Definition validate_update (f : fields) : bool :=
  valid_name (f_name f) && valid_email (f_email f)
  && in_bounds 13 120 (f_age f)
  && in_bounds 20 500 (f_weight f)
  && in_bounds 50 300 (f_height f)
  && in_enum fitnessGoals (f_fitnessGoal f)
  && in_enum activityLevels (f_activityLevel f)
  && in_bounds 0 100 (f_profileCompletion f).

(** ** Virtuals *)

(** [bmi]. *)
Definition bmi (d : doc) : option Q :=
  if JS.truthy_num (weight d) && JS.truthy_num (height d) then
    match weight d, height d with
    | Some w, Some h =>
        let heightInMeters := (h / 100)%Q in
        let bmi := (w / (heightInMeters * heightInMeters))%Q in
        Some (inject_Z (JS.Math_round (bmi * 10)) / 10)%Q
    | _, _ => None
    end
  else None.

(** [bmiCategory]. *)
Definition bmiCategory (d : doc) : option string :=
  let bmi := bmi d in
  if negb (JS.truthy_num bmi) then None
  else match bmi with
       | Some b =>
           if Qlt_le_dec b (37 # 2) then Some "Underweight"%string
           else if Qlt_le_dec b 25%Q then Some "Normal weight"%string
           else if Qlt_le_dec b 30%Q then Some "Overweight"%string
           else Some "Obese"%string
       | None => None
       end.

Definition activityMultipliers : list (string * Q) :=
  [("sedentary", 12 # 10); ("lightly_active", 1375 # 1000);
   ("moderately_active", 155 # 100); ("very_active", 1725 # 1000);
   ("extra_active", 19 # 10)]%string.

Fixpoint lookup (k : string) (l : list (string * Q)) : option Q :=
  match l with
  | (k', v) :: r => if String.eqb k k' then Some v else lookup k r
  | [] => None
  end.

(** [dailyCalorieNeeds]. *)
Definition dailyCalorieNeeds (d : doc) : option Z :=
  match weight d, height d, age d with
  | Some w, Some h, Some a =>
      if JS.truthy_num (weight d) && JS.truthy_num (height d)
         && JS.truthy_num (age d) then
        let bmr := ((10 * w) + ((625 # 100) * h) - (5 * a) + 5)%Q in
        let multiplier :=
          match activityLevel d with
          | Some l => match lookup l activityMultipliers with
                      | Some m => m
                      | None => 155 # 100
                      end
          | None => 155 # 100
          end in
        Some (JS.Math_round (bmr * multiplier)%Q)
      else None
  | _, _, _ => None
  end.

(** ** The pre-save middleware *)

Definition count_if (b : bool) : Z := if b then 1 else 0.

Definition completedFields (d : doc) : Z :=
  count_if (JS.truthy_str (name d))
  + count_if (JS.truthy_str (email d))
  + count_if (JS.truthy_num (age d))
  + count_if (JS.truthy_num (weight d))
  + count_if (JS.truthy_num (height d))
  + count_if (JS.truthy_str (fitnessGoal d))
  + count_if (JS.truthy_str (activityLevel d)).

Definition totalFields : Z := 7.

Definition set_profileCompletion (p : Q) (d : doc) : doc :=
  {| _id := _id d; name := name d; email := email d; age := age d;
     weight := weight d; height := height d; fitnessGoal := fitnessGoal d;
     activityLevel := activityLevel d; isActive := isActive d;
     profileCompletion := p;
     createdAt := createdAt d; updatedAt := updatedAt d |}.

(** [userSchema.pre('save', ...)]. *)
Definition preSave (d : doc) : doc :=
  set_profileCompletion
    (inject_Z (JS.Math_round
       ((inject_Z (completedFields d) / inject_Z totalFields) * 100)%Q)) d.

(** ** Statics on the collection *)

Definition findById (users : list doc) (id : ObjectId) : option doc :=
  find (fun u => (_id u =? id)%nat) users.

(** [findOne({ email })]. *)
Definition findOneByEmail (users : list doc) (e : string) : option doc :=
  find (fun u => Str.opt_eqb (email u) (Some e)) users.

Definition or_else {A} (x : option A) (d : A) : A :=
  match x with Some a => a | None => d end.

(** The document built by [new User(fields)]: schema defaults and
    setters. *)
Definition new (id : ObjectId) (now : Date) (f : fields) : doc :=
  {| _id := id;
     name := option_map Str.trim (f_name f);
     email := option_map (fun e => Str.trim (Str.toLowerCase e)) (f_email f);
     age := f_age f;
     weight := f_weight f;
     height := f_height f;
     fitnessGoal := f_fitnessGoal f;
     activityLevel :=
       Some (or_else (f_activityLevel f) "moderately_active"%string);
     isActive := or_else (f_isActive f) true;
     profileCompletion := or_else (f_profileCompletion f) 0%Q;
     createdAt := now;
     updatedAt := now |}.

(** The unique index on [email]. *)
Definition email_taken (users : list doc) (self : ObjectId) (e : option string)
  : bool :=
  match e with
  | Some s =>
      existsb (fun u => negb (_id u =? self)%nat
                        && Str.opt_eqb (email u) (Some s)) users
  | None => false
  end.

(** [User.create(fields)]: validation, then the pre-save middleware, then
    the insertion. *)
Definition create (id : ObjectId) (now : Date) (f : fields) (users : list doc)
  : Thrown + (doc * list doc) :=
  let d := new id now f in
  if negb (validate d) then inl ValidationError
  else
    let d' := preSave d in
    if email_taken users id (email d') then inl DuplicateKey
    else inr (d', users ++ [d']).

(** The [$set] of an update, with the setters of the schema. *)
Definition apply_update (now : Date) (f : fields) (d : doc) : doc :=
  {| _id := _id d;
     name := match f_name f with
             | Some s => Some (Str.trim s) | None => name d end;
     email := match f_email f with
              | Some s => Some (Str.trim (Str.toLowerCase s))
              | None => email d end;
     age := match f_age f with Some x => Some x | None => age d end;
     weight := match f_weight f with Some x => Some x | None => weight d end;
     height := match f_height f with Some x => Some x | None => height d end;
     fitnessGoal := match f_fitnessGoal f with
                    | Some x => Some x | None => fitnessGoal d end;
     activityLevel := match f_activityLevel f with
                      | Some x => Some x | None => activityLevel d end;
     isActive := or_else (f_isActive f) (isActive d);
     profileCompletion := or_else (f_profileCompletion f) (profileCompletion d);
     createdAt := createdAt d;
     updatedAt := now |}.

Definition replace (d' : doc) (users : list doc) : list doc :=
  map (fun u => if (_id u =? _id d')%nat then d' else u) users.

(** [User.findByIdAndUpdate(id, f, { new: true, runValidators: true })]:
    the update validators and the write; the save middleware is not part
    of this operation. *)
Definition findByIdAndUpdate (now : Date) (id : ObjectId) (f : fields)
    (users : list doc) : Thrown + (option doc * list doc) :=
  if negb (validate_update
             (mkFields (option_map Str.trim (f_name f))
                (option_map (fun e => Str.trim (Str.toLowerCase e)) (f_email f))
                (f_age f) (f_weight f) (f_height f) (f_fitnessGoal f)
                (f_activityLevel f) (f_isActive f) (f_profileCompletion f)))
  then inl ValidationError
  else
    match findById users id with
    | None => inr (None, users)
    | Some d =>
        let d' := apply_update now f d in
        if email_taken users id
             (option_map (fun e => Str.trim (Str.toLowerCase e)) (f_email f))
        then inl DuplicateKey
        else inr (Some d', replace d' users)
    end.

(** [User.findByIdAndDelete(id)]. *)
Definition findByIdAndDelete (id : ObjectId) (users : list doc) : list doc :=
  filter (fun u => negb (_id u =? id)%nat) users.

(** The value of a field chosen by name, for [.sort()]. *)
Definition field (k : string) (d : doc) : value :=
  if String.eqb k "_id" then VId (_id d)
  else if String.eqb k "name" then of_opt VStr (name d)
  else if String.eqb k "email" then of_opt VStr (email d)
  else if String.eqb k "age" then of_opt VNum (age d)
  else if String.eqb k "weight" then of_opt VNum (weight d)
  else if String.eqb k "height" then of_opt VNum (height d)
  else if String.eqb k "fitnessGoal" then of_opt VStr (fitnessGoal d)
  else if String.eqb k "activityLevel" then of_opt VStr (activityLevel d)
  else if String.eqb k "isActive" then VBool (isActive d)
  else if String.eqb k "profileCompletion" then VNum (profileCompletion d)
  else if String.eqb k "createdAt" then VDate (createdAt d)
  else if String.eqb k "updatedAt" then VDate (updatedAt d)
  else VNull.

(** ** Instance method *)

Record Recommendation : Type := mkRecommendation {
  maintenance : Z;
  weightLoss : Q;
  targetDeficit : Q
}.

(** [getRecommendedCalories(targetWeightLoss)]; the default of the
    argument is 0. *)
Definition getRecommendedCalories (d : doc) (targetWeightLoss : Q)
  : option Recommendation :=
  match dailyCalorieNeeds d with
  | Some dailyNeeds =>
      if dailyNeeds =? 0 then None
      else
        let calorieDeficit := (targetWeightLoss * 7700 / 7)%Q in
        Some {| maintenance := dailyNeeds;
                weightLoss :=
                  JS.Math_max (inject_Z dailyNeeds - calorieDeficit) 1200;
                targetDeficit := calorieDeficit |}
  | None => None
  end.

End User.

(* ===================================================================== *)
(** * The Workout model (models/workout.js) *)
(* ===================================================================== *)

Module Workout.

Record exercise : Type := mkExercise {
  ex_name : option string;
  ex_sets : option Q;
  ex_reps : option Q;
  ex_weight : option Q
}.

Record doc : Type := mkDoc {
  _id : ObjectId;
  userId : option ObjectId;
  title : option string;
  exerciseType : option string;
  duration : option Q;
  caloriesBurned : option Q;
  intensity : option string;
  notes : option string;
  workoutDate : option Date;
  completed : bool;
  exercises : list exercise;
  createdAt : Date;
  updatedAt : Date
}.

(** A date as a request body gives it: a number, of milliseconds since
    the epoch, or a text that [new Date] reads as a date.  The second form
    also stands for a [Date] object, which is what [new Date()] of a
    handler is. *)
Inductive dateInput : Type :=
  | DateNumber (ms : Z)
  | DateText (d : Date).

(** The [Date] to which the schema casts the input. *)
Definition date_of (x : dateInput) : Date :=
  match x with
  | DateNumber ms => ms
  | DateText d => d
  end.

(** Truthiness of the input: the number [0] is falsy, a date text and a
    [Date] object are not. *)
Definition truthy_date (x : option dateInput) : bool :=
  match x with
  | Some (DateNumber ms) => negb (ms =? 0)
  | Some (DateText _) => true
  | None => false
  end.

(** [workoutDate || new Date()]. *)
Definition or_now (x : option dateInput) (now : Date) : dateInput :=
  match x with
  | Some v => if truthy_date x then v else DateText now
  | None => DateText now
  end.

(** The object given to [Workout.create]; [None] is [undefined]. *)
Record fields : Type := mkFields {
  f_userId : option ObjectId;
  f_title : option string;
  f_exerciseType : option string;
  f_duration : option Q;
  f_caloriesBurned : option Q;
  f_intensity : option string;
  f_notes : option string;
  f_workoutDate : option dateInput;
  f_completed : option bool;
  f_exercises : option (list exercise)
}.

Definition exerciseTypes : list string :=
  ["cardio"; "strength"; "flexibility"; "sports"; "yoga"; "pilates"; "hiit";
   "crossfit"; "swimming"; "cycling"; "running"; "walking"; "other"]%string.

Definition intensities : list string :=
  ["low"; "moderate"; "high"; "extreme"]%string.

(** ** Schema validators *)

Definition required {A} (x : option A) : bool :=
  match x with Some _ => true | None => false end.

Definition at_least (lo : Q) (x : option Q) : bool :=
  match x with
  | Some q => Qle_bool lo q
  | None => true
  end.

Arguments at_least lo%_Q x.

Definition valid_title (x : option string) : bool :=
  match x with
  | Some s =>
      negb (String.eqb s EmptyString)
      && (3 <=? Str.length s) && (Str.length s <=? 100)
  | None => false
  end.

Definition valid_notes (x : option string) : bool :=
  match x with
  | Some s => Str.length s <=? 500
  | None => true
  end.

Definition valid_date (now : Date) (x : option Date) : bool :=
  match x with
  | Some d => d <=? now
  | None => false
  end.

Definition valid_exercise (e : exercise) : bool :=
  JS.truthy_str (ex_name e)
  && at_least 1 (ex_sets e) && at_least 1 (ex_reps e)
  && at_least 0 (ex_weight e).

(** The validation run before a document is saved. *)
Definition validate (now : Date) (d : doc) : bool :=
  required (userId d)
  && valid_title (title d)
  && JS.truthy_str (exerciseType d)
  && User.in_enum exerciseTypes (exerciseType d)
  && required (duration d) && User.in_bounds 1 600 (duration d)
  && required (caloriesBurned d) && User.in_bounds 1 5000 (caloriesBurned d)
  && JS.truthy_str (intensity d) && User.in_enum intensities (intensity d)
  && valid_notes (notes d)
  && valid_date now (workoutDate d)
  && forallb valid_exercise (exercises d).

(** ** Virtual *)

(** [caloriesPerMinute]. *)
Definition caloriesPerMinute (d : doc) : Q :=
  if JS.truthy_num (duration d) && JS.truthy_num (caloriesBurned d) then
    match caloriesBurned d, duration d with
    | Some c, Some m => (inject_Z (JS.Math_round ((c / m) * 10)) / 10)%Q
    | _, _ => 0%Q
    end
  else 0%Q.

(** ** The pre-save middleware *)

Definition set_workoutDate (x : option Date) (d : doc) : doc :=
  {| _id := _id d; userId := userId d; title := title d;
     exerciseType := exerciseType d; duration := duration d;
     caloriesBurned := caloriesBurned d; intensity := intensity d;
     notes := notes d; workoutDate := x; completed := completed d;
     exercises := exercises d; createdAt := createdAt d;
     updatedAt := updatedAt d |}.

(** [workoutSchema.pre('save', ...)]. *)
Definition preSave (now : Date) (d : doc) : doc :=
  match workoutDate d with
  | None => set_workoutDate (Some now) d
  | Some _ => d
  end.

(** ** Statics on the collection *)

Definition trim_exercise (e : exercise) : exercise :=
  {| ex_name := option_map Str.trim (ex_name e); ex_sets := ex_sets e;
     ex_reps := ex_reps e; ex_weight := ex_weight e |}.

(** The document built by [new Workout(fields)]: schema defaults and
    setters. *)
Definition new (id : ObjectId) (now : Date) (f : fields) : doc :=
  {| _id := id;
     userId := f_userId f;
     title := option_map Str.trim (f_title f);
     exerciseType := f_exerciseType f;
     duration := f_duration f;
     caloriesBurned := f_caloriesBurned f;
     intensity := Some (User.or_else (f_intensity f) "moderate"%string);
     notes := option_map Str.trim (f_notes f);
     workoutDate := option_map date_of (f_workoutDate f);
     completed := User.or_else (f_completed f) true;
     exercises := map trim_exercise (User.or_else (f_exercises f) []);
     createdAt := now;
     updatedAt := now |}.

(** [Workout.create(fields)]: validation, then the pre-save middleware,
    then the insertion. *)
Definition create (id : ObjectId) (now : Date) (f : fields)
    (workouts : list doc) : Thrown + (doc * list doc) :=
  let d := new id now f in
  if negb (validate now d) then inl ValidationError
  else
    let d' := preSave now d in
    inr (d', workouts ++ [d']).

(** The filter [{ userId: id }]. *)
Definition of_user (id : ObjectId) (w : doc) : bool :=
  match userId w with
  | Some u => (u =? id)%nat
  | None => false
  end.

(** [countDocuments] for a filter given as a predicate. *)
Definition countDocuments (p : doc -> bool) (workouts : list doc) : Z :=
  Z.of_nat (List.length (filter p workouts)).

Record totals : Type := mkTotals {
  totalCalories : Q;
  totalWorkouts : Z;
  totalDuration : Q
}.

(** [{ $sum: '$field' }]: a missing field adds nothing. *)
Definition sum_of (f : doc -> option Q) (l : list doc) : Q :=
  fold_left (fun acc w => (acc + User.or_else (f w) 0)%Q) l 0%Q.

(** The pipeline of [getTotalCaloriesByUser]: a [$match] on the user and on
    [completed: true], then one [$group] over all matches.  A [$group] over
    no document gives no result. *)
Definition aggregateTotals (userId : ObjectId) (workouts : list doc)
  : list totals :=
  match filter (fun w => of_user userId w && completed w) workouts with
  | [] => []
  | m => [ {| totalCalories := sum_of caloriesBurned m;
              totalWorkouts := Z.of_nat (List.length m);
              totalDuration := sum_of duration m |} ]
  end.

(** [result[0] || { totalCalories: 0, totalWorkouts: 0, totalDuration: 0 }]
    for the result of the pipeline. *)
Definition totalsByUser (userId : ObjectId) (workouts : list doc) : totals :=
  match aggregateTotals userId workouts with
  | r :: _ => r
  | [] => {| totalCalories := 0; totalWorkouts := 0; totalDuration := 0 |}
  end.

(** [Workout.getTotalCaloriesByUser(userId)].  The pipeline is built with
    [mongoose.Types.ObjectId(userId)], a call without [new]: where the
    platform refuses it the TypeError is logged and thrown again, and no
    aggregation is run. *)
Definition getTotalCaloriesByUser `{Runtime} (userId : ObjectId)
    (workouts : list doc) : Thrown + totals :=
  if ObjectId_callable then inr (totalsByUser userId workouts)
  else inl OtherError.

(** The sort key of [.sort({ workoutDate: -1 })]. *)
Definition date_key (w : doc) : value := of_opt VDate (workoutDate w).

(** [Workout.findByUser(userId)]. *)
Definition findByUser (userId : ObjectId) (workouts : list doc) : list doc :=
  sort_on date_key (-1) (filter (of_user userId) workouts).

Definition findById (workouts : list doc) (id : ObjectId) : option doc :=
  find (fun w => (_id w =? id)%nat) workouts.

(** [Workout.findByIdAndDelete(id)]. *)
Definition findByIdAndDelete (id : ObjectId) (workouts : list doc) : list doc :=
  filter (fun w => negb (_id w =? id)%nat) workouts.

Definition replace (d' : doc) (workouts : list doc) : list doc :=
  map (fun w => if (_id w =? _id d')%nat then d' else w) workouts.

(** The assignments of [updateWorkout] on the document, with the setters
    of the schema. *)
Definition assign (f : fields) (d : doc) : doc :=
  {| _id := _id d;
     userId := match f_userId f with Some x => Some x | None => userId d end;
     title := match f_title f with
              | Some x => Some (Str.trim x) | None => title d end;
     exerciseType := match f_exerciseType f with
                     | Some x => Some x | None => exerciseType d end;
     duration := match f_duration f with
                 | Some x => Some x | None => duration d end;
     caloriesBurned := match f_caloriesBurned f with
                       | Some x => Some x | None => caloriesBurned d end;
     intensity := match f_intensity f with
                  | Some x => Some x | None => intensity d end;
     notes := match f_notes f with
              | Some x => Some (Str.trim x) | None => notes d end;
     workoutDate := match f_workoutDate f with
                    | Some x => Some (date_of x) | None => workoutDate d end;
     completed := User.or_else (f_completed f) (completed d);
     exercises := match f_exercises f with
                  | Some x => map trim_exercise x | None => exercises d end;
     createdAt := createdAt d;
     updatedAt := updatedAt d |}.

Definition set_updatedAt (now : Date) (d : doc) : doc :=
  {| _id := _id d; userId := userId d; title := title d;
     exerciseType := exerciseType d; duration := duration d;
     caloriesBurned := caloriesBurned d; intensity := intensity d;
     notes := notes d; workoutDate := workoutDate d; completed := completed d;
     exercises := exercises d; createdAt := createdAt d;
     updatedAt := now |}.

(** [workout.save()] of a stored document: validation, then the pre-save
    middleware, then the write.  The whole document is validated; the
    paths that the schema requires are validated on every save, and the
    other paths were validated when they were last written.  [updatedAt]
    is set when the document is [modified]. *)
Definition save (now : Date) (modified : bool) (d : doc) (workouts : list doc)
  : Thrown + (doc * list doc) :=
  if negb (validate now d) then inl ValidationError
  else
    let d' := if modified then set_updatedAt now (preSave now d)
              else preSave now d in
    inr (d', replace d' workouts).

End Workout.

(* ===================================================================== *)
(** * The store, thrown errors and responses *)
(* ===================================================================== *)

Record Store : Type := mkStore {
  users : list User.doc;
  workouts : list Workout.doc;
  (** The next ObjectId that a creation takes. *)
  nextId : ObjectId
}.

(** An asynchronous function body: it returns or throws, and leaves a
    store. *)
Definition Async (A : Type) : Type := Store -> (Thrown + A) * Store.

Definition ret {A} (a : A) : Async A := fun s => (inr a, s).

Definition throw {A} (e : Thrown) : Async A := fun s => (inl e, s).

Definition bind {A B} (m : Async A) (k : A -> Async B) : Async B :=
  fun s =>
    match m s with
    | (inr a, s') => k a s'
    | (inl e, s') => (inl e, s')
    end.

Declare Scope async_scope.
Delimit Scope async_scope with async.

Notation "'await' x <- m ;; k" := (bind m (fun x => k))
  (at level 61, x name, m at next level, right associativity) : async_scope.

(** A read of the store. *)
Definition query {A} (f : Store -> A) : Async A := fun s => (inr (f s), s).

(** A store operation that can be refused. *)
Definition attempt {A} (f : Store -> Thrown + (A * Store)) : Async A :=
  fun s =>
    match f s with
    | inr (a, s') => (inr a, s')
    | inl e => (inl e, s)
    end.

Definition lift {A} (r : Thrown + A) : Async A := fun s => (r, s).

(** ** Responses *)

Record UserSummary : Type := mkUserSummary {
  su_id : ObjectId;
  su_name : option string;
  su_email : option string;
  su_profileCompletion : Q;
  su_bmi : option Q;
  su_bmiCategory : option string;
  su_dailyCalorieNeeds : option Z;
  su_fitnessGoal : option string;
  su_activityLevel : option string
}.

Record WorkoutSummary : Type := mkWorkoutSummary {
  ws_id : ObjectId;
  ws_title : option string;
  ws_exerciseType : option string;
  ws_duration : option Q;
  ws_caloriesBurned : option Q;
  ws_workoutDate : option Date
}.

(** The statistics object of [getUserStats], one field per leaf. *)
Record Stats : Type := mkStats {
  st_user : UserSummary;
  workouts_total : Z;
  workouts_thisWeek : Z;
  workouts_thisMonth : Z;
  workouts_avgPerWeek : Q;
  calories_totalBurned : Q;
  calories_avgPerWorkout : Z;
  time_totalMinutes : Q;
  time_totalHours : Q;
  time_avgPerWorkout : Z;
  recent_lastWorkouts : list WorkoutSummary;
  achievements_consistency : string;
  achievements_totalCaloriesMilestone : Z;
  achievements_totalWorkoutsMilestone : Z
}.

(** A workout with its [userId] populated with the name and the e-mail of
    the user, [None] when there is no such user. *)
Definition Populated : Type :=
  (Workout.doc * option (option string * option string))%type.

Inductive Payload : Type :=
  | NoData
  | UserData (u : User.doc)
  | UserList (l : list User.doc)
  | WorkoutData (w : Workout.doc)
  | WorkoutList (l : list Populated)
  | StatsData (s : Stats)
  | DeleteBlocked (workoutCount : Z).

Inductive Body : Type :=
  | NoBody
  | Json (success : bool) (data : Payload)
         (meta : option ApiResponse.Pagination) (errors : list string).

Record Response : Type := mkResponse {
  status : Z;
  body : Body
}.

Definition sendSuccess (statusCode : Z) (data : Payload)
    (meta : option ApiResponse.Pagination) : Response :=
  {| status := statusCode; body := Json true data meta [] |}.

(** The [errors] array is kept as the list of its field names. *)
Definition sendError (statusCode : Z) (errors : list string) : Response :=
  {| status := statusCode; body := Json false NoData None errors |}.

Definition sendPaginated (data : Payload) (page limit total : Z) : Response :=
  sendSuccess 200 data (Some (ApiResponse.paginationMeta page limit total)).

Definition sendValidationError (errors : list string) : Response :=
  sendError 400 errors.

Definition sendNotFound : Response := sendError 404 [].

Definition sendCreated (data : Payload) : Response := sendSuccess 201 data None.

Definition sendNoContent : Response := {| status := 204; body := NoBody |}.

Definition sendConflict (field : string) : Response := sendError 409 [field].

(** ** Error handling (middleware/errorHandler.js) *)

(** The status that [errorHandler] answers with. *)
Definition errorStatus (e : Thrown) : Z :=
  match e with
  | ValidationError => 400
  | DuplicateKey => 409
  | CastError => 400
  | AppError statusCode => if statusCode =? 0 then 500 else statusCode
  | OtherError => 500
  end.

Definition errorHandler (e : Thrown) : Response := sendError (errorStatus e) [].

(** A request handler: the response and the store that it leaves. *)
Definition Handler : Type := Store -> Response * Store.

(** [asyncHandler(fn)] followed by the error handler of the application. *)
Definition asyncHandler (fn : Async Response) : Handler :=
  fun s =>
    match fn s with
    | (inr r, s') => (r, s')
    | (inl e, s') => (errorHandler e, s')
    end.

(* ===================================================================== *)
(** * Query validation (middleware/validator.js) *)
(* ===================================================================== *)

(** A value of [req.query]: a string of the URL, or the number that
    [validateQueryParams] has put in its place. *)
Inductive qvalue : Type :=
  | QStr (s : string)
  | QNum (n : JS.number).

Record Query : Type := mkQuery {
  q_page : option qvalue;
  q_limit : option qvalue;
  q_sort : option string;
  q_order : option string;
  q_fitnessGoal : option string;
  q_activityLevel : option string;
  q_isActive : option string;
  q_search : option string;
  q_userId : option string;
  q_exerciseType : option string;
  q_intensity : option string;
  q_completed : option string;
  q_startDate : option string;
  q_endDate : option string
}.

(** [parseInt] of a value of [req.query]; [parseInt(undefined)] is
    [NaN]. *)
Definition parseInt (v : option qvalue) : JS.number :=
  match v with
  | Some (QStr s) => JS.parseInt s
  | Some (QNum n) => JS.parseInt_number n
  | None => JS.NaN
  end.

Definition set_page (v : qvalue) (q : Query) : Query :=
  mkQuery (Some v) (q_limit q) (q_sort q) (q_order q) (q_fitnessGoal q)
    (q_activityLevel q) (q_isActive q) (q_search q) (q_userId q)
    (q_exerciseType q) (q_intensity q) (q_completed q) (q_startDate q)
    (q_endDate q).

Definition set_limit (v : qvalue) (q : Query) : Query :=
  mkQuery (q_page q) (Some v) (q_sort q) (q_order q) (q_fitnessGoal q)
    (q_activityLevel q) (q_isActive q) (q_search q) (q_userId q)
    (q_exerciseType q) (q_intensity q) (q_completed q) (q_startDate q)
    (q_endDate q).

(** The three checks of [validateQueryParams]: the errors pushed and the
    query as the checks leave it. *)
Definition check_page (acc : list string * Query) : list string * Query :=
  let '(errors, q) := acc in
  match q_page q with
  | Some _ =>
      let pageNum := parseInt (q_page q) in
      if JS.isNaN pageNum || JS.number_lt pageNum 1
      then (errors ++ ["page"%string], q)
      else (errors, set_page (QNum pageNum) q)
  | None => acc
  end.

Definition check_limit (acc : list string * Query) : list string * Query :=
  let '(errors, q) := acc in
  match q_limit q with
  | Some _ =>
      let limitNum := parseInt (q_limit q) in
      if JS.isNaN limitNum || JS.number_lt limitNum 1
         || JS.lt_number 100 limitNum
      then (errors ++ ["limit"%string], q)
      else (errors, set_limit (QNum limitNum) q)
  | None => acc
  end.

Definition check_order (acc : list string * Query) : list string * Query :=
  let '(errors, q) := acc in
  match q_order q with
  | Some order =>
      if negb (Str.mem order ["asc"; "desc"; "1"; "-1"]%string)
      then (errors ++ ["order"%string], q)
      else acc
  | None => acc
  end.

(** [validateQueryParams]: the response that ends the request, or the
    query handed to the next handler. *)
Definition validateQueryParams (q : Query) : Response + Query :=
  let '(errors, q') := check_order (check_limit (check_page ([], q))) in
  match errors with
  | [] => inr q'
  | _ => inl (sendValidationError errors)
  end.

(* ===================================================================== *)
(** * The controllers *)
(* ===================================================================== *)

Section Controllers.
Context `{Runtime}.

Local Open Scope async_scope.

Definition put_users (l : list User.doc) : Async unit :=
  fun s => (inr tt, mkStore l (workouts s) (nextId s)).

(** [User.create] and [Workout.create] on the store: the document takes the
    next ObjectId. *)
Definition User_create (now : Date) (f : User.fields) : Async User.doc :=
  attempt (fun s =>
    match User.create (nextId s) now f (users s) with
    | inr (d, us) => inr (d, mkStore us (workouts s) (S (nextId s)))
    | inl e => inl e
    end).

Definition Workout_create (now : Date) (f : Workout.fields)
  : Async Workout.doc :=
  attempt (fun s =>
    match Workout.create (nextId s) now f (workouts s) with
    | inr (d, ws) => inr (d, mkStore (users s) ws (S (nextId s)))
    | inl e => inl e
    end).

(** ** controllers/userController.js *)

(** [createUser]; a method call on a missing [email] or [name] throws a
    TypeError. *)
Definition createUser (now : Date) (body : User.fields) : Async Response :=
  match User.f_email body with
  | None => throw OtherError
  | Some email =>
      await existingUser <-
        query (fun s =>
          User.findOneByEmail (users s) (Str.toLowerCase email)) ;;
      match existingUser with
      | Some _ => ret (sendConflict "email")
      | None =>
          match User.f_name body with
          | None => throw OtherError
          | Some name =>
              await user <- User_create now
                (User.mkFields (Some (Str.trim name))
                   (Some (Str.trim (Str.toLowerCase email)))
                   (User.f_age body) (User.f_weight body)
                   (User.f_height body) (User.f_fitnessGoal body)
                   (User.f_activityLevel body) None None) ;;
              ret (sendCreated (UserData user))
          end
      end
  end.

Record UserFilter : Type := mkUserFilter {
  uf_fitnessGoal : option string;
  uf_activityLevel : option string;
  uf_isActive : option bool;
  uf_or : option (string -> bool)
}.

Definition test_opt (re : string -> bool) (x : option string) : bool :=
  match x with Some s => re s | None => false end.

Definition on_opt {A} (x : option A) (p : A -> bool) : bool :=
  match x with Some a => p a | None => true end.

(** Whether a user matches the filter. *)
Definition user_matches (f : UserFilter) (u : User.doc) : bool :=
  on_opt (uf_fitnessGoal f) (fun g => Str.opt_eqb (User.fitnessGoal u) (Some g))
  && on_opt (uf_activityLevel f)
       (fun a => Str.opt_eqb (User.activityLevel u) (Some a))
  && on_opt (uf_isActive f) (fun b => Bool.eqb (User.isActive u) b)
  && on_opt (uf_or f)
       (fun re => test_opt re (User.name u) || test_opt re (User.email u)).

(** [if (x)] on a query string: the value when it is truthy. *)
Definition if_truthy (x : option string) : option string :=
  if JS.truthy_str x then x else None.

(** The filter object that [getAllUsers] builds from the query. *)
Definition userFilter (q : Query) : Thrown + UserFilter :=
  let fitnessGoal := if_truthy (q_fitnessGoal q) in
  let activityLevel := if_truthy (q_activityLevel q) in
  let isActive := option_map (fun v => String.eqb v "true") (q_isActive q) in
  match if_truthy (q_search q) with
  | Some search =>
      match RegExp_compile search with
      | Some searchRegex =>
          inr (mkUserFilter fitnessGoal activityLevel isActive
                 (Some searchRegex))
      | None => inl OtherError
      end
  | None => inr (mkUserFilter fitnessGoal activityLevel isActive None)
  end.

(** The sort options of [getAllUsers]: a field and a direction. *)
Definition userSort (q : Query) : string * Z :=
  match if_truthy (q_sort q) with
  | Some sortField =>
      let sortOrder :=
        if Str.opt_eqb (q_order q) (Some "desc"%string)
           || Str.opt_eqb (q_order q) (Some "-1"%string)
        then -1 else 1 in
      (sortField, sortOrder)
  | None => ("createdAt"%string, -1)
  end.

(** [getAllUsers]. *)
Definition getAllUsers (q : Query) : Async Response :=
  await filter <- lift (userFilter q) ;;
  match JS.or_default (parseInt (q_page q)) 1,
        JS.or_default (parseInt (q_limit q)) 10 with
  | JS.Fin page, JS.Fin limit =>
      let skip := (page - 1) * limit in
      let sortOptions := userSort q in
      await matches <-
        query (fun s => List.filter (user_matches filter) (users s)) ;;
      await found <- lift (skip_limit skip limit
        (sort_on (User.field (fst sortOptions)) (snd sortOptions) matches)) ;;
      let total := Z.of_nat (List.length matches) in
      ret (sendPaginated (UserList found) page limit total)
  | _, _ => throw OtherError
  end.

(** [updateUser]. *)
Definition updateUser (now : Date) (id : ObjectId) (updateData : User.fields)
  : Async Response :=
  await existingUser <- query (fun s => User.findById (users s) id) ;;
  match existingUser with
  | None => ret sendNotFound
  | Some existing =>
      await emailExists <- query (fun s =>
        match User.f_email updateData with
        | Some email =>
            if JS.truthy_str (Some email)
               && negb (Str.opt_eqb (Some email) (User.email existing))
            then User.findOneByEmail (users s) (Str.toLowerCase email)
            else None
        | None => None
        end) ;;
      match emailExists with
      | Some _ => ret (sendConflict "email")
      | None =>
          let cleanUpdateData :=
            User.mkFields
              (if JS.truthy_str (User.f_name updateData)
               then option_map Str.trim (User.f_name updateData)
               else User.f_name updateData)
              (if JS.truthy_str (User.f_email updateData)
               then option_map (fun e => Str.trim (Str.toLowerCase e))
                      (User.f_email updateData)
               else User.f_email updateData)
              (User.f_age updateData) (User.f_weight updateData)
              (User.f_height updateData) (User.f_fitnessGoal updateData)
              (User.f_activityLevel updateData) (User.f_isActive updateData)
              (User.f_profileCompletion updateData) in
          await us <- query users ;;
          await r <- lift (User.findByIdAndUpdate now id cleanUpdateData us) ;;
          await _ <- put_users (snd r) ;;
          match fst r with
          | Some updatedUser =>
              ret (sendSuccess 200 (UserData updatedUser) None)
          | None => throw OtherError
          end
      end
  end.

(** [deleteUser]. *)
Definition deleteUser (id : ObjectId) : Async Response :=
  await user <- query (fun s => User.findById (users s) id) ;;
  match user with
  | None => ret sendNotFound
  | Some _ =>
      await workoutCount <-
        query (fun s =>
          Workout.countDocuments (Workout.of_user id) (workouts s)) ;;
      if 0 <? workoutCount then
        ret {| status := 409;
               body := Json false (DeleteBlocked workoutCount) None [] |}
      else
        await us <- query users ;;
        await _ <- put_users (User.findByIdAndDelete id us) ;;
        ret sendNoContent
  end.

Definition since (t : Date) (w : Workout.doc) : bool :=
  match Workout.workoutDate w with
  | Some d => t <=? d
  | None => false
  end.

Definition summary (workout : Workout.doc) : WorkoutSummary :=
  {| ws_id := Workout._id workout;
     ws_title := Workout.title workout;
     ws_exerciseType := Workout.exerciseType workout;
     ws_duration := Workout.duration workout;
     ws_caloriesBurned := Workout.caloriesBurned workout;
     ws_workoutDate := Workout.workoutDate workout |}.

(** The statistics object that [getUserStats] builds for an existing
    user, at the time [now], from the totals of the aggregation. *)
Definition statsFrom (now : Date) (id : ObjectId) (user : User.doc)
    (workoutStats : Workout.totals) (ws : list Workout.doc) : Stats :=
  let thirtyDaysAgo := now - 30 * 24 * 60 * 60 * 1000 in
  let sevenDaysAgo := now - 7 * 24 * 60 * 60 * 1000 in
  let recentWorkouts :=
    apply_limit 5
      (sort_on Workout.date_key (-1) (List.filter (Workout.of_user id) ws)) in
  let weeklyWorkouts :=
    Workout.countDocuments
      (fun w => Workout.of_user id w && since sevenDaysAgo w
                && Workout.completed w) ws in
  let monthlyWorkouts :=
    Workout.countDocuments
      (fun w => Workout.of_user id w && since thirtyDaysAgo w
                && Workout.completed w) ws in
  let avgWorkoutsPerWeek := (inject_Z monthlyWorkouts / 4)%Q in
  let totalWorkouts := Workout.totalWorkouts workoutStats in
  let totalCalories := Workout.totalCalories workoutStats in
  let totalDuration := Workout.totalDuration workoutStats in
  {| st_user :=
       {| su_id := User._id user;
          su_name := User.name user;
          su_email := User.email user;
          su_profileCompletion := User.profileCompletion user;
          su_bmi := User.bmi user;
          su_bmiCategory := User.bmiCategory user;
          su_dailyCalorieNeeds := User.dailyCalorieNeeds user;
          su_fitnessGoal := User.fitnessGoal user;
          su_activityLevel := User.activityLevel user |};
     workouts_total := totalWorkouts;
     workouts_thisWeek := weeklyWorkouts;
     workouts_thisMonth := monthlyWorkouts;
     workouts_avgPerWeek :=
       (inject_Z (JS.Math_round (avgWorkoutsPerWeek * 10)) / 10)%Q;
     calories_totalBurned := totalCalories;
     calories_avgPerWorkout :=
       if 0 <? totalWorkouts
       then JS.Math_round (totalCalories / inject_Z totalWorkouts)%Q
       else 0;
     time_totalMinutes := totalDuration;
     time_totalHours :=
       (inject_Z (JS.Math_round ((totalDuration / 60) * 10)) / 10)%Q;
     time_avgPerWorkout :=
       if 0 <? totalWorkouts
       then JS.Math_round (totalDuration / inject_Z totalWorkouts)%Q
       else 0;
     recent_lastWorkouts := map summary recentWorkouts;
     achievements_consistency :=
       if 3 <=? weeklyWorkouts then "High"%string
       else if 1 <=? weeklyWorkouts then "Moderate"%string
       else "Low"%string;
     achievements_totalCaloriesMilestone :=
       JS.Math_floor (totalCalories / 1000)%Q * 1000;
     achievements_totalWorkoutsMilestone :=
       JS.Math_floor (inject_Z totalWorkouts / 10)%Q * 10 |}.

(** The statistics object of a user, when the aggregation of the totals
    is run. *)
Definition userStats (now : Date) (id : ObjectId) (user : User.doc)
    (ws : list Workout.doc) : Stats :=
  statsFrom now id user (Workout.totalsByUser id ws) ws.

(** [getUserStats]; what [Workout.getTotalCaloriesByUser] throws goes to
    the error handler. *)
Definition getUserStats (now : Date) (id : ObjectId) : Async Response :=
  await user <- query (fun s => User.findById (users s) id) ;;
  match user with
  | None => ret sendNotFound
  | Some u =>
      await ws <- query workouts ;;
      await workoutStats <- lift (Workout.getTotalCaloriesByUser id ws) ;;
      await stats <- query (fun s =>
        statsFrom now id u workoutStats (workouts s)) ;;
      ret (sendSuccess 200 (StatsData stats) None)
  end.

(** ** controllers/workoutController.js *)

(** [createWorkout]; [User.findById(undefined)] finds nothing. *)
Definition createWorkout (now : Date) (body : Workout.fields)
  : Async Response :=
  await userExists <- query (fun s =>
    match Workout.f_userId body with
    | Some userId => User.findById (users s) userId
    | None => None
    end) ;;
  match userExists with
  | None => throw (AppError 404)
  | Some _ =>
      await workout <- Workout_create now
        (Workout.mkFields
           (Workout.f_userId body) (Workout.f_title body)
           (Workout.f_exerciseType body) (Workout.f_duration body)
           (Workout.f_caloriesBurned body) (Workout.f_intensity body)
           (Workout.f_notes body)
           (Some (Workout.or_now (Workout.f_workoutDate body) now))
           (Some (User.or_else (Workout.f_completed body) true))
           (Some (User.or_else (Workout.f_exercises body) []))) ;;
      ret (sendSuccess 201 (WorkoutData workout) None)
  end.

Record WorkoutFilter : Type := mkWorkoutFilter {
  wf_userId : option ObjectId;
  wf_exerciseType : option string;
  wf_intensity : option string;
  wf_completed : option bool;
  wf_gte : option Date;
  wf_lte : option Date
}.

(** Whether a workout matches the filter. *)
Definition workout_matches (f : WorkoutFilter) (w : Workout.doc) : bool :=
  on_opt (wf_userId f) (fun id => Workout.of_user id w)
  && on_opt (wf_exerciseType f)
       (fun t => Str.opt_eqb (Workout.exerciseType w) (Some t))
  && on_opt (wf_intensity f)
       (fun i => Str.opt_eqb (Workout.intensity w) (Some i))
  && on_opt (wf_completed f) (fun b => Bool.eqb (Workout.completed w) b)
  && on_opt (wf_gte f) (fun t => since t w)
  && on_opt (wf_lte f)
       (fun t => match Workout.workoutDate w with
                 | Some d => d <=? t
                 | None => false
                 end).

(** Casts an optional query string; a string that does not cast is a
    CastError of the query. *)
Definition cast_opt {A} (cast : string -> option A) (x : option string)
  : Thrown + option A :=
  match x with
  | Some s => match cast s with
              | Some a => inr (Some a)
              | None => inl CastError
              end
  | None => inr None
  end.

(** The filter object that [getAllWorkouts] builds from the query, as the
    query casts it. *)
Definition workoutFilter (q : Query) : Thrown + WorkoutFilter :=
  match cast_opt ObjectId_cast (if_truthy (q_userId q)) with
  | inl e => inl e
  | inr userId =>
      match cast_opt Date_parse (if_truthy (q_startDate q)) with
      | inl e => inl e
      | inr startDate =>
          match cast_opt Date_parse (if_truthy (q_endDate q)) with
          | inl e => inl e
          | inr endDate =>
              inr (mkWorkoutFilter userId
                     (if_truthy (q_exerciseType q))
                     (if_truthy (q_intensity q))
                     (option_map (fun v => String.eqb v "true")
                        (q_completed q))
                     startDate endDate)
          end
      end
  end.

(** [.populate('userId', 'name email')]. *)
Definition populate (us : list User.doc) (w : Workout.doc) : Populated :=
  (w, match Workout.userId w with
      | Some id => option_map (fun u => (User.name u, User.email u))
                     (User.findById us id)
      | None => None
      end).

(** [getAllWorkouts]. *)
Definition getAllWorkouts (q : Query) : Async Response :=
  await filter <- lift (workoutFilter q) ;;
  match JS.or_default (parseInt (q_page q)) 1,
        JS.or_default (parseInt (q_limit q)) 10 with
  | JS.Fin page, JS.Fin limit =>
      let skip := (page - 1) * limit in
      await matches <-
        query (fun s => List.filter (workout_matches filter) (workouts s)) ;;
      await found <- lift (skip_limit skip limit
        (sort_on Workout.date_key (-1) matches)) ;;
      await us <- query users ;;
      let totalWorkouts := Z.of_nat (List.length matches) in
      ret (sendPaginated (WorkoutList (map (populate us) found))
             page limit totalWorkouts)
  | _, _ => throw OtherError
  end.

(** ** The two list routes (routes/userRoutes.js, routes/workoutRoutes.js) *)

(** [router.get('/', getAllUsers)]. *)
Definition listUsersRoute (q : Query) : Handler :=
  asyncHandler (getAllUsers q).

(** [router.get('/', validateQueryParams, getAllWorkouts)]. *)
Definition listWorkoutsRoute (q : Query) : Handler :=
  fun s =>
    match validateQueryParams q with
    | inl response => (response, s)
    | inr q' => asyncHandler (getAllWorkouts q') s
    end.

End Controllers.

(** ** Projections of a response, and queries that differ in one field *)

Definition pagination_of (r : Response) : option ApiResponse.Pagination :=
  match body r with
  | Json _ _ meta _ => meta
  | NoBody => None
  end.

Definition data_of (r : Response) : Payload :=
  match body r with
  | Json _ data _ _ => data
  | NoBody => NoData
  end.

Definition errors_of (r : Response) : list string :=
  match body r with
  | Json _ _ _ errors => errors
  | NoBody => []
  end.

Definition with_isActive (x : option string) (q : Query) : Query :=
  mkQuery (q_page q) (q_limit q) (q_sort q) (q_order q) (q_fitnessGoal q)
    (q_activityLevel q) x (q_search q) (q_userId q)
    (q_exerciseType q) (q_intensity q) (q_completed q) (q_startDate q)
    (q_endDate q).

Definition with_completed (x : option string) (q : Query) : Query :=
  mkQuery (q_page q) (q_limit q) (q_sort q) (q_order q) (q_fitnessGoal q)
    (q_activityLevel q) (q_isActive q) (q_search q) (q_userId q)
    (q_exerciseType q) (q_intensity q) x (q_startDate q)
    (q_endDate q).

(** The query with no parameter, and the queries with only [page] or only
    [limit]. *)
Definition noQuery : Query :=
  mkQuery None None None None None None None None None None None None None
    None.

Definition pageQuery (v : string) : Query := set_page (QStr v) noQuery.

Definition limitQuery (v : string) : Query := set_limit (QStr v) noQuery.

(* ===================================================================== *)
(** * The handlers of single entities and of the global statistics *)
(* ===================================================================== *)

(** ** Answers *)

Record UserRef : Type := mkUserRef {
  ur_id : ObjectId;
  ur_name : option string;
  ur_email : option string
}.

(** The user that [.populate('userId', 'name email age weight height')]
    puts in a workout. *)
Record PopulatedUser : Type := mkPopulatedUser {
  pu_id : ObjectId;
  pu_name : option string;
  pu_email : option string;
  pu_age : option Q;
  pu_weight : option Q;
  pu_height : option Q
}.

Record DeletedRef : Type := mkDeletedRef {
  dr_id : ObjectId;
  dr_title : option string;
  dr_userId : option ObjectId
}.

Record TypeStats : Type := mkTypeStats {
  ts_type : option string;
  ts_count : Z;
  ts_totalCalories : Q;
  ts_avgCalories : option Q;
  ts_avgDuration : option Q
}.

Record IntensityStats : Type := mkIntensityStats {
  is_intensity : option string;
  is_count : Z;
  is_avgCalories : option Q;
  is_avgDuration : option Q
}.

Record ActiveUser : Type := mkActiveUser {
  au_userId : ObjectId;
  au_name : option string;
  au_email : option string;
  au_workoutCount : Z;
  au_totalCalories : Q;
  au_totalDuration : Q
}.

Record Overall : Type := mkOverall {
  ov_totalWorkouts : Z;
  ov_completedWorkouts : Z;
  ov_totalUsers : Z;
  ov_totalCalories : Q;
  ov_totalDuration : Q;
  ov_avgDuration : Z;
  ov_avgCalories : Z;
  ov_completionRate : Z
}.

Record GlobalStats : Type := mkGlobalStats {
  overall : Overall;
  byExerciseType : list TypeStats;
  byIntensity : list IntensityStats;
  mostActiveUsers : list ActiveUser
}.

(** The data of the answers that the lists and the user handlers do not
    have. *)
Inductive Detail : Type :=
  | WorkoutDetail (w : Workout.doc) (user : PopulatedUser)
  | DeletedWorkout (ref : DeletedRef)
  | UserWorkouts (user : UserRef) (count : Z) (ws : list Workout.doc)
  | GlobalStatsData (stats : GlobalStats).

Record Reply : Type := mkReply {
  r_status : Z;
  r_data : option Detail
}.

(** [asyncHandler(fn)] followed by the error handler, for these answers. *)
Definition replyHandler (fn : Async Reply) : Store -> Reply * Store :=
  fun s =>
    match fn s with
    | (inr r, s') => (r, s')
    | (inl e, s') => ({| r_status := errorStatus e; r_data := None |}, s')
    end.

(** ** Aggregation stages *)

Section Grouping.
Context {K : Type} (eqb : K -> K -> bool).

Fixpoint add_to_group (k : K) (x : Workout.doc)
    (groups : list (K * list Workout.doc)) : list (K * list Workout.doc) :=
  match groups with
  | [] => [(k, [x])]
  | (k', xs) :: r =>
      if eqb k k' then (k', xs ++ [x]) :: r
      else (k', xs) :: add_to_group k x r
  end.

(** [{ $group: { _id: key, ... } }]: the documents of each value of the
    key, the groups in the order of their first document. *)
Definition group_by (key : Workout.doc -> K) (l : list Workout.doc)
  : list (K * list Workout.doc) :=
  fold_left (fun groups x => add_to_group (key x) x groups) l [].
End Grouping.

Definition opt_id_eqb (a b : option ObjectId) : bool :=
  match a, b with
  | Some x, Some y => (x =? y)%nat
  | None, None => true
  | _, _ => false
  end.

Definition has_field (f : Workout.doc -> option Q) (w : Workout.doc) : bool :=
  match f w with Some _ => true | None => false end.

(** [{ $avg: '$field' }]: the mean of the documents that have the field,
    null when none has it. *)
Definition avg_of (f : Workout.doc -> option Q) (l : list Workout.doc)
  : option Q :=
  let n := List.length (filter (has_field f) l) in
  match n with
  | O => None
  | _ => Some (Workout.sum_of f l / inject_Z (Z.of_nat n))%Q
  end.

Definition count_of {A} (l : list A) : Z := Z.of_nat (List.length l).

(** The first pipeline of [getWorkoutStats]: one group over all the
    workouts, no group when there is no workout. *)
Definition overallStats (ws : list Workout.doc)
  : option (Z * Z * Q * Q * option Q * option Q) :=
  match ws with
  | [] => None
  | _ => Some (count_of ws, count_of (filter Workout.completed ws),
               Workout.sum_of Workout.caloriesBurned ws,
               Workout.sum_of Workout.duration ws,
               avg_of Workout.duration ws,
               avg_of Workout.caloriesBurned ws)
  end.

(** The second pipeline: the completed workouts by exercise type, the
    groups of most workouts first. *)
Definition statsByType (ws : list Workout.doc) : list TypeStats :=
  sort_by (fun a b => ts_count b <=? ts_count a)
    (map (fun g =>
            {| ts_type := fst g;
               ts_count := count_of (snd g);
               ts_totalCalories := Workout.sum_of Workout.caloriesBurned (snd g);
               ts_avgCalories := avg_of Workout.caloriesBurned (snd g);
               ts_avgDuration := avg_of Workout.duration (snd g) |})
       (group_by Str.opt_eqb Workout.exerciseType
          (filter Workout.completed ws))).

(** The third pipeline: the completed workouts by intensity. *)
Definition statsByIntensity (ws : list Workout.doc) : list IntensityStats :=
  sort_by (fun a b => is_count b <=? is_count a)
    (map (fun g =>
            {| is_intensity := fst g;
               is_count := count_of (snd g);
               is_avgCalories := avg_of Workout.caloriesBurned (snd g);
               is_avgDuration := avg_of Workout.duration (snd g) |})
       (group_by Str.opt_eqb Workout.intensity
          (filter Workout.completed ws))).

(** [$lookup] of the user of a group and [$unwind]: one row for each user
    with the id of the group, none for a group without user. *)
Definition lookup_unwind (us : list User.doc)
    (g : option ObjectId * list Workout.doc) : list ActiveUser :=
  match fst g with
  | Some id =>
      map (fun u =>
             {| au_userId := id;
                au_name := User.name u;
                au_email := User.email u;
                au_workoutCount := count_of (snd g);
                au_totalCalories :=
                  Workout.sum_of Workout.caloriesBurned (snd g);
                au_totalDuration := Workout.sum_of Workout.duration (snd g) |})
        (filter (fun u => (User._id u =? id)%nat) us)
  | None => []
  end.

(** The last pipeline: the five users of most completed workouts. *)
Definition activeUsers (us : list User.doc) (ws : list Workout.doc)
  : list ActiveUser :=
  flat_map (lookup_unwind us)
    (firstn 5
       (sort_by (fun a b => count_of (snd b) <=? count_of (snd a))
          (group_by opt_id_eqb Workout.userId
             (filter Workout.completed ws)))).

(** The statistics object of [getWorkoutStats]. *)
Definition globalStats (us : list User.doc) (ws : list Workout.doc)
  : GlobalStats :=
  let userCount := count_of (filter User.isActive us) in
  let stats0 := overallStats ws in
  let totalWorkouts :=
    match stats0 with Some (t, _, _, _, _, _) => t | None => 0 end in
  let completedWorkouts :=
    match stats0 with Some (_, c, _, _, _, _) => c | None => 0 end in
  {| overall :=
       {| ov_totalWorkouts := totalWorkouts;
          ov_completedWorkouts := completedWorkouts;
          ov_totalUsers := userCount;
          ov_totalCalories :=
            match stats0 with Some (_, _, c, _, _, _) => c | None => 0%Q end;
          ov_totalDuration :=
            match stats0 with Some (_, _, _, d, _, _) => d | None => 0%Q end;
          ov_avgDuration :=
            JS.Math_round
              (match stats0 with
               | Some (_, _, _, _, Some a, _) => a
               | _ => 0%Q
               end);
          ov_avgCalories :=
            JS.Math_round
              (match stats0 with
               | Some (_, _, _, _, _, Some a) => a
               | _ => 0%Q
               end);
          ov_completionRate :=
            if 0 <? totalWorkouts
            then JS.Math_round
                   ((inject_Z completedWorkouts / inject_Z totalWorkouts)
                    * 100)%Q
            else 0 |};
     byExerciseType := statsByType ws;
     byIntensity := statsByIntensity ws;
     mostActiveUsers := activeUsers us ws |}.

(** ** The handlers *)

(** The change tracking of the document library: whether the assignments
    that turn the stored document into the second one modify it. *)
Class ChangeTracking : Type := {
  isModified : Workout.doc -> Workout.doc -> bool
}.

Section Handlers.
Context `{ChangeTracking}.
Local Open Scope async_scope.

(** [getUserById]. *)
Definition getUserById (id : ObjectId) : Async Response :=
  await user <- query (fun s => User.findById (users s) id) ;;
  match user with
  | None => ret sendNotFound
  | Some u => ret (sendSuccess 200 (UserData u) None)
  end.

(** [getWorkoutById]; the log of the success reads [workout.userId._id],
    which throws a TypeError when the workout has no user. *)
Definition getWorkoutById (workoutId : ObjectId) : Async Reply :=
  await workout <- query (fun s => Workout.findById (workouts s) workoutId) ;;
  match workout with
  | None => throw (AppError 404)
  | Some w =>
      await user <- query (fun s =>
        match Workout.userId w with
        | Some id => User.findById (users s) id
        | None => None
        end) ;;
      match user with
      | None => throw OtherError
      | Some u =>
          ret {| r_status := 200;
                 r_data := Some (WorkoutDetail w
                   {| pu_id := User._id u; pu_name := User.name u;
                      pu_email := User.email u; pu_age := User.age u;
                      pu_weight := User.weight u;
                      pu_height := User.height u |}) |}
      end
  end.

(** [Object.keys(req.body).length === 0], for a body given by its ten
    known fields and by whether it has another key. *)
Definition no_key (body : Workout.fields) (otherKeys : bool) : bool :=
  negb otherKeys
  && negb (Workout.required (Workout.f_userId body))
  && negb (Workout.required (Workout.f_title body))
  && negb (Workout.required (Workout.f_exerciseType body))
  && negb (Workout.required (Workout.f_duration body))
  && negb (Workout.required (Workout.f_caloriesBurned body))
  && negb (Workout.required (Workout.f_intensity body))
  && negb (Workout.required (Workout.f_notes body))
  && negb (Workout.required (Workout.f_workoutDate body))
  && negb (Workout.required (Workout.f_completed body))
  && negb (Workout.required (Workout.f_exercises body)).

(** [workout.save()] on the store. *)
Definition Workout_save (now : Date) (modified : bool) (d : Workout.doc)
  : Async Workout.doc :=
  attempt (fun s =>
    match Workout.save now modified d (workouts s) with
    | inr (d', ws) => inr (d', mkStore (users s) ws (nextId s))
    | inl e => inl e
    end).

(** [updateWorkout]; [workout.userId.toString()] throws a TypeError when
    the stored workout has no user. *)
Definition updateWorkout (now : Date) (workoutId : ObjectId)
    (body : Workout.fields) (otherKeys : bool) : Async Response :=
  if no_key body otherKeys then throw (AppError 400)
  else
    await workout <- query (fun s => Workout.findById (workouts s) workoutId) ;;
    match workout with
    | None => throw (AppError 404)
    | Some w =>
        await checked <-
          match Workout.f_userId body with
          | Some newUserId =>
              match Workout.userId w with
              | None => throw OtherError
              | Some oldUserId =>
                  if negb (newUserId =? oldUserId)%nat then
                    await userExists <-
                      query (fun s => User.findById (users s) newUserId) ;;
                    match userExists with
                    | None => throw (AppError 404)
                    | Some _ => ret tt
                    end
                  else ret tt
              end
          | None => ret tt
          end ;;
        await saved <-
          Workout_save now (isModified w (Workout.assign body w))
            (Workout.assign body w) ;;
        ret (sendSuccess 200 (WorkoutData saved) None)
    end.

(** [deleteWorkout]. *)
Definition deleteWorkout (workoutId : ObjectId) : Async Reply :=
  await workout <- query (fun s => Workout.findById (workouts s) workoutId) ;;
  match workout with
  | None => throw (AppError 404)
  | Some w =>
      await ws <- query workouts ;;
      await _ <- (fun s =>
        (inr tt, mkStore (users s) (Workout.findByIdAndDelete workoutId ws)
                   (nextId s))) ;;
      ret {| r_status := 200;
             r_data := Some (DeletedWorkout
               {| dr_id := Workout._id w; dr_title := Workout.title w;
                  dr_userId := Workout.userId w |}) |}
  end.

(** [getWorkoutsByUser]. *)
Definition getWorkoutsByUser (userId : ObjectId) : Async Reply :=
  await user <- query (fun s => User.findById (users s) userId) ;;
  match user with
  | None => throw (AppError 404)
  | Some u =>
      await ws <- query (fun s => Workout.findByUser userId (workouts s)) ;;
      ret {| r_status := 200;
             r_data := Some (UserWorkouts
               {| ur_id := User._id u; ur_name := User.name u;
                  ur_email := User.email u |}
               (count_of ws) ws) |}
  end.

(** [getWorkoutStats]. *)
Definition getWorkoutStats : Async Reply :=
  await stats <- query (fun s => globalStats (users s) (workouts s)) ;;
  ret {| r_status := 200; r_data := Some (GlobalStatsData stats) |}.

End Handlers.

(* ===================================================================== *)
(** * Validation of a user body (middleware/validator.js) *)
(* ===================================================================== *)

(** [Number.isInteger]. *)
Definition Number_isInteger (q : Q) : bool := Pos.eqb (Qden (Qred q)) 1.

(** [a < b] on numbers. *)
Definition Number_lt (a b : Q) : bool := negb (Qle_bool b a).

(** The checks of [validateUser(isUpdate)], each with the fields of the
    errors that it pushes.  The fields of the body have the types of the
    schema, so that the tests of [typeof] hold. *)
Definition check_user_name (isUpdate : bool) (name : option string)
  : list string :=
  if negb isUpdate && negb (JS.truthy_str name) then ["name"%string]
  else
    match name with
    | Some n =>
        if JS.truthy_str name then
          if Str.length (Str.trim n) <? 2 then ["name"%string]
          else if 50 <? Str.length (Str.trim n) then ["name"%string]
          else []
        else []
    | None => []
    end.

Definition check_user_email (isUpdate : bool) (email : option string)
  : list string :=
  if negb isUpdate && negb (JS.truthy_str email) then ["email"%string]
  else
    match email with
    | Some e =>
        if JS.truthy_str email then
          if negb (Str.email_match (Str.trim e)) then ["email"%string]
          else []
        else []
    | None => []
    end.

Definition check_user_age (age : option Q) : list string :=
  match age with
  | Some a =>
      if negb (Number_isInteger a) || Number_lt a 13 || Number_lt 120 a
      then ["age"%string] else []
  | None => []
  end.

Definition check_user_number (field : string) (lo hi : Q) (x : option Q)
  : list string :=
  match x with
  | Some v => if Number_lt v lo || Number_lt hi v then [field] else []
  | None => []
  end.

Definition check_enum (field : string) (valid : list string)
    (x : option string) : list string :=
  match x with
  | Some v => if negb (Str.mem v valid) then [field] else []
  | None => []
  end.

(** The errors that [validateUser(isUpdate)] collects. *)
Definition validateUser_errors (isUpdate : bool) (body : User.fields)
  : list string :=
  check_user_name isUpdate (User.f_name body)
  ++ check_user_email isUpdate (User.f_email body)
  ++ check_user_age (User.f_age body)
  ++ check_user_number "weight" 20 500 (User.f_weight body)
  ++ check_user_number "height" 50 300 (User.f_height body)
  ++ check_enum "fitnessGoal" User.fitnessGoals (User.f_fitnessGoal body)
  ++ check_enum "activityLevel" User.activityLevels
       (User.f_activityLevel body).

(** [validateUser(isUpdate)]: the answer that ends the request, or [None]
    for [next()]. *)
Definition validateUser (isUpdate : bool) (body : User.fields)
  : option Response :=
  match validateUser_errors isUpdate body with
  | [] => None
  | errors => Some (sendValidationError errors)
  end.

(** [router.post('/', validateUser(false), createUser)]. *)
Definition createUserRoute (now : Date) (body : User.fields) : Handler :=
  fun s =>
    match validateUser false body with
    | Some response => (response, s)
    | None => asyncHandler (createUser now body) s
    end.

(* ===================================================================== *)
(** * Authentication and validation of a workout body
      (middleware/auth.js, middleware/validator.js) *)
(* ===================================================================== *)
















(* ===================================================================== *)
(** * Vocabulary of the statements, and sample data *)
(* ===================================================================== *)

(** A boolean order, as a relation. *)
Definition holds {A : Type} (le : A -> A -> bool) (a b : A) : Prop :=
  le a b = true.

(** [a] is at least as late as [b]; a missing date is before every date. *)
Definition later_or_equal (a b : Workout.doc) : bool :=
  value_leb (Workout.date_key b) (Workout.date_key a).





(** The rounded percentages of 0 to 7 fields out of 7. *)
Definition completionTable : list Z := [0; 14; 29; 43; 57; 71; 86; 100].

(** A change of the query under the errors collected so far. *)
Definition on_query (g : Query -> Query) (acc : list string * Query)
  : list string * Query := (fst acc, g (snd acc)).

(** A platform whose regular expressions are plain texts, searched without
    regard to case, and which parses no date and no ObjectId. *)
Definition plainRuntime : Runtime :=
  {| RegExp_compile := fun source =>
       Some (fun subject =>
               match index 0 (Str.toLowerCase source) (Str.toLowerCase subject)
               with Some _ => true | None => false end);
     Date_parse := fun _ => None;
     ObjectId_cast := fun _ => None;
     ObjectId_callable := false |}.


Definition emptyStore : Store := mkStore [] [] 0%nat.

(** The body [{ name: 'Al', email: 'al@x.io' }]. *)
Definition bodyAl : User.fields :=
  User.mkFields (Some "Al"%string) (Some "al@x.io"%string)
    None None None None None None None.

(** The body [{ age: 30 }]. *)
Definition bodyAge30 : User.fields :=
  User.mkFields None None (Some 30%Q) None None None None None None.

(** The body of a complete workout for the user [7]. *)
Definition bodyRun : Workout.fields :=
  Workout.mkFields (Some 7%nat) (Some "Morning Run"%string)
    (Some "running"%string) (Some 30%Q) (Some 300%Q) (Some "moderate"%string)
    None None None None.

(** A user of 70 kg and 175 cm, with five of the seven profile fields. *)
Definition userJane : User.doc :=
  {| User._id := 0%nat;
     User.name := Some "Jane Smith"%string;
     User.email := Some "jane@x.io"%string;
     User.age := None;
     User.weight := Some 70%Q;
     User.height := Some 175%Q;
     User.fitnessGoal := None;
     User.activityLevel := Some "moderately_active"%string;
     User.isActive := true;
     User.profileCompletion := inject_Z 71;
     User.createdAt := 1000;
     User.updatedAt := 1000 |}.

(** A workout of the user [0] that is not completed. *)
Definition plannedRun : Workout.doc :=
  {| Workout._id := 1%nat;
     Workout.userId := Some 0%nat;
     Workout.title := Some "Evening Run"%string;
     Workout.exerciseType := Some "running"%string;
     Workout.duration := Some 45%Q;
     Workout.caloriesBurned := Some 250%Q;
     Workout.intensity := Some "high"%string;
     Workout.notes := None;
     Workout.workoutDate := Some 5000;
     Workout.completed := false;
     Workout.exercises := [];
     Workout.createdAt := 5000;
     Workout.updatedAt := 5000 |}.

(** The store with that user and that workout. *)
Definition janeStore : Store := mkStore [userJane] [plannedRun] 2%nat.

(** The query [?isActive=1&completed=1]. *)
Definition flagQuery : Query :=
  with_completed (Some "1"%string) (with_isActive (Some "1"%string) noQuery).


(** The page and the limit that a list handler reads in a query. *)
Definition pageOf (q : Query) : JS.number :=
  JS.or_default (parseInt (q_page q)) 1.

Definition limitOf (q : Query) : JS.number :=
  JS.or_default (parseInt (q_limit q)) 10.

(** Every stored workout names a stored user. *)
Definition refs_ok (s : Store) : Prop :=
  forall w, In w (workouts s) ->
            exists u, In u (users s) /\ Workout.userId w = Some (User._id u).

(** The ids of the stored documents are below the next id, and no two
    users, and no two workouts, have the same id. *)
Definition ids_ok (s : Store) : Prop :=
  (forall u, In u (users s) -> (User._id u < nextId s)%nat)
  /\ (forall w, In w (workouts s) -> (Workout._id w < nextId s)%nat)
  /\ NoDup (map User._id (users s))
  /\ NoDup (map Workout._id (workouts s)).

(** No two stored users have the same e-mail. *)
Definition emails_ok (s : Store) : Prop :=
  NoDup (map User.email (users s)).

(** The fields that [createUser] hands to [User.create]. *)
Definition createFields (name email : string) (body : User.fields)
  : User.fields :=
  User.mkFields (Some (Str.trim name))
    (Some (Str.trim (Str.toLowerCase email)))
    (User.f_age body) (User.f_weight body) (User.f_height body)
    (User.f_fitnessGoal body) (User.f_activityLevel body) None None.

(** The update that [updateUser] hands to [User.findByIdAndUpdate]. *)
Definition cleanUpdateData (updateData : User.fields) : User.fields :=
  User.mkFields
    (if JS.truthy_str (User.f_name updateData)
     then option_map Str.trim (User.f_name updateData)
     else User.f_name updateData)
    (if JS.truthy_str (User.f_email updateData)
     then option_map (fun e => Str.trim (Str.toLowerCase e))
            (User.f_email updateData)
     else User.f_email updateData)
    (User.f_age updateData) (User.f_weight updateData)
    (User.f_height updateData) (User.f_fitnessGoal updateData)
    (User.f_activityLevel updateData) (User.f_isActive updateData)
    (User.f_profileCompletion updateData).

(** The user that [updateUser] finds under the new e-mail, when the body
    has an e-mail other than the stored one. *)
Definition emailExists (updateData : User.fields) (existing : User.doc)
    (us : list User.doc) : option User.doc :=
  match User.f_email updateData with
  | Some email =>
      if JS.truthy_str (Some email)
         && negb (Str.opt_eqb (Some email) (User.email existing))
      then User.findOneByEmail us (Str.toLowerCase email)
      else None
  | None => None
  end.

(** The fields that [createWorkout] hands to [Workout.create]. *)
Definition workoutFields (now : Date) (body : Workout.fields)
  : Workout.fields :=
  Workout.mkFields
    (Workout.f_userId body) (Workout.f_title body)
    (Workout.f_exerciseType body) (Workout.f_duration body)
    (Workout.f_caloriesBurned body) (Workout.f_intensity body)
    (Workout.f_notes body)
    (Some (Workout.or_now (Workout.f_workoutDate body) now))
    (Some (User.or_else (Workout.f_completed body) true))
    (Some (User.or_else (Workout.f_exercises body) [])).

(** The user that [createWorkout] looks for. *)
Definition ownerOf (body : Workout.fields) (us : list User.doc)
  : option User.doc :=
  match Workout.f_userId body with
  | Some userId => User.findById us userId
  | None => None
  end.

(** The check of [updateWorkout] on a [userId] of the body: what it
    throws, if it throws. *)
Definition reassignCheck (body : Workout.fields) (w : Workout.doc)
    (us : list User.doc) : option Thrown :=
  match Workout.f_userId body with
  | Some newUserId =>
      match Workout.userId w with
      | None => Some OtherError
      | Some oldUserId =>
          if negb (newUserId =? oldUserId)%nat then
            match User.findById us newUserId with
            | None => Some (AppError 404)
            | Some _ => None
            end
          else None
      end
  | None => None
  end.

(** A change tracking for which every save modifies the document. *)
(** A store without duplicate ids or e-mails. *)
Definition unique (s : Store) : Prop := ids_ok s /\ emails_ok s.

(** A stored user with an age: 30 years, 70 kg, 175 cm. *)
Definition userAda : User.doc :=
  {| User._id := 2%nat;
     User.name := Some "Ada Young"%string;
     User.email := Some "ada@x.io"%string;
     User.age := Some 30%Q;
     User.weight := Some 70%Q;
     User.height := Some 175%Q;
     User.fitnessGoal := Some "weight_loss"%string;
     User.activityLevel := Some "sedentary"%string;
     User.isActive := true;
     User.profileCompletion := inject_Z 100;
     User.createdAt := 1000;
     User.updatedAt := 1000 |}.

(** Completed workouts: two of Jane, one of Ada. *)
Definition doneRun (id : ObjectId) (owner : ObjectId) (date : Date)
  : Workout.doc :=
  {| Workout._id := id;
     Workout.userId := Some owner;
     Workout.title := Some "Morning Run"%string;
     Workout.exerciseType := Some "running"%string;
     Workout.duration := Some 30%Q;
     Workout.caloriesBurned := Some 300%Q;
     Workout.intensity := Some "moderate"%string;
     Workout.notes := None;
     Workout.workoutDate := Some date;
     Workout.completed := true;
     Workout.exercises := [];
     Workout.createdAt := date;
     Workout.updatedAt := date |}.

Definition gymUsers : list User.doc := [userJane; userAda].



Definition gymWorkouts : list Workout.doc :=
  [plannedRun; doneRun 3%nat 0%nat 5100; doneRun 4%nat 2%nat 5200;
   doneRun 5%nat 0%nat 5300].

(** A character test that holds. *)
Definition holds1 (p : ascii -> bool) (c : ascii) : Prop := p c = true.

Definition plainTracking : ChangeTracking :=
  {| isModified := fun _ _ => true |}.

(* ===================================================================== *)
(** * Pagination metadata *)
(* ===================================================================== *)

Section PaginationFacts.
Import ApiResponse.

(** [Math.ceil(a / b)] is the least integer [t] with [a <= t * b], for a
    positive [b]. *)
Lemma Qceiling_div_spec (a b : Z) :
  0 < b ->
  (Qceiling (inject_Z a / inject_Z b) - 1) * b < a
  <= Qceiling (inject_Z a / inject_Z b) * b.
Proof.
  intros Hb.
  destruct b as [|p|p]; try lia.
  unfold Qceiling, Qfloor, Qdiv, Qinv, Qmult, Qopp, inject_Z. simpl.
  rewrite Z.mul_1_r.
  pose proof (Z.div_mod (- a) (Z.pos p) ltac:(lia)) as E.
  pose proof (Z.mod_pos_bound (- a) (Z.pos p) ltac:(lia)) as B.
  nia.
Qed.

Lemma Math_ceil_div_pos (a b : Z) :
  0 < b ->
  exists t, JS.Math_ceil_div a b = JS.Fin t /\ (t - 1) * b < a <= t * b.
Proof.
  intros Hb. unfold JS.Math_ceil_div.
  destruct (Z.eqb_spec b 0) as [E | _]; [lia |].
  eexists; split; [reflexivity |].
  now apply Qceiling_div_spec.
Qed.

Lemma Math_ceil_div_zero (b : Z) :
  b <> 0 -> JS.Math_ceil_div 0 b = JS.Fin 0.
Proof.
  intros Hb. unfold JS.Math_ceil_div.
  destruct (Z.eqb_spec b 0) as [E | _]; [contradiction |].
  destruct b; [contradiction | reflexivity | reflexivity].
Qed.

(** C1. A paginated response for a page [page >= 1], a limit between 1
    and 100 and [total] items answers 200 with the given page, limit and
    total, and with [totalPages = ceil(total / limit)], that is the
    integer [t] with [(t - 1) * limit < total <= t * limit];
    [hasNextPage] is [page < totalPages], [hasPrevPage] is [page > 1],
    [nextPage] is [page + 1] when there is a next page and null
    otherwise, [prevPage] is [page - 1] when there is a previous page
    and null otherwise. *)
Theorem sendPaginated_metadata (data : Payload) (page limit total : Z) :
  1 <= limit <= 100 ->
  1 <= page ->
  exists p t,
    sendPaginated data page limit total
      = {| status := 200; body := Json true data (Some p) [] |}
    /\ currentPage p = page
    /\ itemsPerPage p = limit
    /\ totalItems p = total
    /\ totalPages p = JS.Fin t
    /\ (t - 1) * limit < total <= t * limit
    /\ hasNextPage p = (page <? t)
    /\ hasPrevPage p = (1 <? page)
    /\ nextPage p = (if page <? t then Some (page + 1) else None)
    /\ prevPage p = (if 1 <? page then Some (page - 1) else None).
Proof.
  intros Hl Hp.
  destruct (Math_ceil_div_pos total limit ltac:(lia)) as (t & Et & Ht).
  exists (paginationMeta page limit total), t.
  unfold sendPaginated, sendSuccess, paginationMeta; simpl.
  rewrite Et; simpl.
  repeat split; try reflexivity; lia.
Qed.

Lemma sendPaginated_metadata_witness :
  exists p t,
    sendPaginated NoData 2 10 25
      = {| status := 200; body := Json true NoData (Some p) [] |}
    /\ currentPage p = 2
    /\ itemsPerPage p = 10
    /\ totalItems p = 25
    /\ totalPages p = JS.Fin t
    /\ (t - 1) * 10 < 25 <= t * 10
    /\ hasNextPage p = (2 <? t)
    /\ hasPrevPage p = (1 <? 2)
    /\ nextPage p = (if 2 <? t then Some (2 + 1) else None)
    /\ prevPage p = (if 1 <? 2 then Some (2 - 1) else None).
Proof.
  apply (sendPaginated_metadata NoData 2 10 25); lia.
Defined.

(** C2, as stated, fails on the second page of an empty collection:
    [hasPrevPage] is true there. *)
Lemma empty_page2_has_prev :
  ~ (let p := paginationMeta 2 10 0 in
     totalPages p = JS.Fin 0
     /\ hasNextPage p = false
     /\ hasPrevPage p = false).
Proof.
  cbv. intros (_ & _ & E). discriminate E.
Qed.

(** C2, amended. With no item, whatever the page and for every limit
    other than 0, [totalPages] is 0 and the response is a 200;
    [hasNextPage] is [page < 0], so false from page 0 on, and
    [hasPrevPage] is [page > 1], so false up to page 1 and true from
    page 2 on. *)
Theorem sendPaginated_empty (data : Payload) (page limit : Z) :
  limit <> 0 ->
  exists p,
    sendPaginated data page limit 0
      = {| status := 200; body := Json true data (Some p) [] |}
    /\ totalPages p = JS.Fin 0
    /\ hasNextPage p = (page <? 0)
    /\ hasPrevPage p = (1 <? page)
    /\ (0 <= page -> hasNextPage p = false)
    /\ (page <= 1 -> hasPrevPage p = false)
    /\ (2 <= page -> hasPrevPage p = true).
Proof.
  intros Hl.
  exists (paginationMeta page limit 0).
  unfold sendPaginated, sendSuccess, paginationMeta; simpl.
  rewrite (Math_ceil_div_zero limit Hl); simpl.
  repeat split; try reflexivity; intros; lia.
Qed.

Lemma sendPaginated_empty_witness :
  exists p,
    sendPaginated NoData 1 10 0
      = {| status := 200; body := Json true NoData (Some p) [] |}
    /\ totalPages p = JS.Fin 0
    /\ hasNextPage p = (1 <? 0)
    /\ hasPrevPage p = (1 <? 1)
    /\ (0 <= 1 -> hasNextPage p = false)
    /\ (1 <= 1 -> hasPrevPage p = false)
    /\ (2 <= 1 -> hasPrevPage p = true).
Proof.
  apply (sendPaginated_empty NoData 1 10); lia.
Defined.

End PaginationFacts.

(* ===================================================================== *)
(** * Validation of the pagination parameters *)
(* ===================================================================== *)

Section QueryValidationFacts.
Context `{Runtime}.

Lemma check_limit_keeps (acc : list string * Query) (e : string) :
  In e (fst acc) -> In e (fst (check_limit acc)).
Proof.
  destruct acc as [errors q]; unfold check_limit; simpl; intros Hin.
  destruct (q_limit q); [| exact Hin].
  destruct (_ || _); simpl; auto using in_or_app.
Qed.

Lemma check_order_keeps (acc : list string * Query) (e : string) :
  In e (fst acc) -> In e (fst (check_order acc)).
Proof.
  destruct acc as [errors q]; unfold check_order; simpl; intros Hin.
  destruct (q_order q); [| exact Hin].
  destruct (negb _); simpl; auto using in_or_app.
Qed.

Lemma validateQueryParams_error (q : Query) (e : string) :
  In e (fst (check_order (check_limit (check_page ([], q))))) ->
  exists r, validateQueryParams q = inl r
            /\ status r = 400 /\ In e (errors_of r).
Proof.
  unfold validateQueryParams.
  destruct (check_order _) as [errors q']; simpl; intros Hin.
  destruct errors as [| e0 errors]; [contradiction |].
  eexists; split; [reflexivity |]. split; [reflexivity | exact Hin].
Qed.

Lemma check_page_q_limit (acc : list string * Query) :
  q_limit (snd (check_page acc)) = q_limit (snd acc).
Proof.
  destruct acc as [errors q]; unfold check_page.
  destruct (q_page q); [| reflexivity].
  destruct (_ || _); reflexivity.
Qed.

(** The Workouts list refuses a page that does not parse or is below 1. *)
Lemma validateQueryParams_bad_page (q : Query) (v : qvalue) :
  q_page q = Some v ->
  JS.isNaN (parseInt (Some v)) || JS.number_lt (parseInt (Some v)) 1 = true ->
  exists r, validateQueryParams q = inl r
            /\ status r = 400 /\ In "page"%string (errors_of r).
Proof.
  intros Hv Hbad. apply validateQueryParams_error.
  apply check_order_keeps, check_limit_keeps.
  unfold check_page; rewrite Hv, Hbad. now left.
Qed.

(** The Workouts list refuses a limit that does not parse or is outside
    of 1..100. *)
Lemma validateQueryParams_bad_limit (q : Query) (v : qvalue) :
  q_limit q = Some v ->
  (forall n, parseInt (Some v) = JS.Fin n -> n < 1 \/ 100 < n) ->
  exists r, validateQueryParams q = inl r
            /\ status r = 400 /\ In "limit"%string (errors_of r).
Proof.
  intros Hv Hbad. apply validateQueryParams_error.
  apply check_order_keeps.
  pose proof (check_page_q_limit ([], q)) as Hq1.
  destruct (check_page ([], q)) as [errors q1].
  simpl in Hq1. rewrite Hv in Hq1.
  unfold check_limit; rewrite Hq1.
  assert (E : JS.isNaN (parseInt (Some v))
              || JS.number_lt (parseInt (Some v)) 1
              || JS.lt_number 100 (parseInt (Some v)) = true).
  { destruct (parseInt (Some v)) as [n | | |]; try reflexivity.
    simpl. destruct (Hbad n eq_refl) as [Hn | Hn].
    - destruct (Z.ltb_spec n 1); [reflexivity | lia].
    - destruct (Z.ltb_spec 100 n); [apply orb_true_r | lia]. }
  rewrite E. simpl. apply in_or_app; right; now left.
Qed.

(** A page of at least 1 and a limit within 1..100 pass the validation,
    which leaves their numbers in the query. *)
Lemma validateQueryParams_accepts (q : Query) (vp vl : qvalue) (p l : Z) :
  q_page q = Some vp -> parseInt (Some vp) = JS.Fin p -> 1 <= p ->
  q_limit q = Some vl -> parseInt (Some vl) = JS.Fin l -> 1 <= l <= 100 ->
  q_order q = None ->
  validateQueryParams q
  = inr (set_limit (QNum (JS.Fin l)) (set_page (QNum (JS.Fin p)) q)).
Proof.
  intros Hp Ep Bp Hl El Bl Ho.
  unfold validateQueryParams, check_page. rewrite Hp, Ep. simpl.
  destruct (Z.ltb_spec p 1); [lia |].
  unfold check_limit. simpl q_limit. rewrite Hl, El. simpl.
  destruct (Z.ltb_spec l 1); [lia |].
  destruct (Z.ltb_spec 100 l); [lia |]. simpl.
  rewrite Ho. reflexivity.
Qed.

Lemma filter_all {A} (p : A -> bool) (l : list A) :
  (forall x, p x = true) -> filter p l = l.
Proof.
  intros Hp. induction l as [| a l IH]; simpl; [reflexivity |].
  now rewrite Hp, IH.
Qed.

(** C3: the Users list does not reject [page=0] nor [limit=101]: it
    answers 200, with page 1 in place of 0 and with 101 items per page;
    the Workouts list answers 400 to the same two queries, and accepts
    the limits 1 and 100. *)
Theorem listUsersRoute_accepts_invalid_pagination (s : Store) :
  (exists l,
     listUsersRoute (pageQuery "0") s
     = (sendPaginated (UserList l) 1 10 (Z.of_nat (List.length (users s))), s))
  /\ (exists l,
     listUsersRoute (limitQuery "101") s
     = (sendPaginated (UserList l) 1 101 (Z.of_nat (List.length (users s))), s))
  /\ listWorkoutsRoute (pageQuery "0") s
     = (sendValidationError ["page"%string], s)
  /\ listWorkoutsRoute (limitQuery "101") s
     = (sendValidationError ["limit"%string], s)
  /\ status (fst (listWorkoutsRoute (limitQuery "1") s)) = 200
  /\ status (fst (listWorkoutsRoute (limitQuery "100") s)) = 200.
Proof.
  repeat split.
  - eexists. unfold listUsersRoute, asyncHandler, getAllUsers, bind, lift,
      query, ret; simpl.
    rewrite filter_all by reflexivity. reflexivity.
  - eexists. unfold listUsersRoute, asyncHandler, getAllUsers, bind, lift,
      query, ret; simpl.
    rewrite filter_all by reflexivity. reflexivity.
Qed.

End QueryValidationFacts.

(* ===================================================================== *)
(** * Profile completion *)
(* ===================================================================== *)

Section ProfileCompletionFacts.

Lemma completedFields_bounds (d : User.doc) :
  0 <= User.completedFields d <= 7.
Proof.
  unfold User.completedFields, User.count_if.
  repeat match goal with |- context [if ?b then _ else _] => destruct b end;
    lia.
Qed.

(** The pre-save middleware stores the rounded percentage of the seven
    fields that are present: 0, 14, 29, 43, 57, 71, 86 or 100. *)
Lemma preSave_profileCompletion (d : User.doc) :
  User.profileCompletion (User.preSave d)
  = inject_Z (nth (Z.to_nat (User.completedFields d)) completionTable 0).
Proof.
  pose proof (completedFields_bounds d) as B.
  unfold User.preSave, User.set_profileCompletion; simpl.
  assert (E : User.completedFields d = 0 \/ User.completedFields d = 1
              \/ User.completedFields d = 2 \/ User.completedFields d = 3
              \/ User.completedFields d = 4 \/ User.completedFields d = 5
              \/ User.completedFields d = 6 \/ User.completedFields d = 7)
    by lia.
  destruct E as [E | [E | [E | [E | [E | [E | [E | E]]]]]]];
    rewrite E; reflexivity.
Qed.

(** A user with exactly five of the seven fields is saved with a profile
    completion of 71. *)
Lemma preSave_five_of_seven (d : User.doc) :
  User.completedFields d = 5 ->
  User.profileCompletion (User.preSave d) = inject_Z 71.
Proof.
  intros E. rewrite preSave_profileCompletion, E. reflexivity.
Qed.

Lemma preSave_completedFields (d : User.doc) :
  User.completedFields (User.preSave d) = User.completedFields d.
Proof. reflexivity. Qed.

(** A creation stores the percentage of the fields of the stored user. *)
Lemma create_profileCompletion (id : ObjectId) (now : Date)
    (f : User.fields) (us us' : list User.doc) (d : User.doc) :
  User.create id now f us = inr (d, us') ->
  In d us'
  /\ User.profileCompletion d
     = inject_Z (nth (Z.to_nat (User.completedFields d)) completionTable 0).
Proof.
  unfold User.create.
  destruct (negb _); [discriminate |].
  destruct (User.email_taken _ _ _); [discriminate |].
  intros E; inversion E; subst; clear E. split.
  - apply in_or_app; right; now left.
  - rewrite preSave_completedFields. apply preSave_profileCompletion.
Qed.

(** An update that does not name [profileCompletion] leaves the stored
    value as it was. *)
Lemma findByIdAndUpdate_keeps_profileCompletion (now : Date)
    (id : ObjectId) (f : User.fields) (us us' : list User.doc)
    (d d' : User.doc) :
  User.f_profileCompletion f = None ->
  User.findById us id = Some d ->
  User.findByIdAndUpdate now id f us = inr (Some d', us') ->
  User.profileCompletion d' = User.profileCompletion d.
Proof.
  intros Hf Hd. unfold User.findByIdAndUpdate. rewrite Hd.
  destruct (negb _); [discriminate |].
  destruct (User.email_taken _ _ _); [discriminate |].
  intros E; inversion E; subst; clear E.
  unfold User.apply_update; simpl. now rewrite Hf.
Qed.

(** C4: after the creation of a user from [{ name, email }] and the
    update [{ age: 30 }], both answered with success, the stored user
    has four of the seven fields and still the profile completion 43 of
    its creation, where the formula gives 57. *)
Theorem updateUser_stale_profileCompletion :
  let (r1, s1) := asyncHandler (createUser 1000 bodyAl) emptyStore in
  let (r2, s2) := asyncHandler (updateUser 2000 0%nat bodyAge30) s1 in
  status r1 = 201 /\ status r2 = 200
  /\ exists u,
       users s2 = [u] /\ data_of r2 = UserData u
       /\ User.age u = Some 30%Q
       /\ User.completedFields u = 4
       /\ User.profileCompletion u = inject_Z 43
       /\ User.profileCompletion (User.preSave u) = inject_Z 57.
Proof.
  vm_compute. repeat split. eexists. repeat split.
Qed.

End ProfileCompletionFacts.

(* ===================================================================== *)
(** * Referential checks *)
(* ===================================================================== *)

Section ReferentialFacts.

Lemma find_absent {A} (p : A -> bool) (l : list A) :
  (forall x, In x l -> p x = false) -> find p l = None.
Proof.
  induction l as [| a l IH]; simpl; intros Hp; [reflexivity |].
  rewrite (Hp a (or_introl eq_refl)). apply IH. auto.
Qed.

Lemma find_present {A} (p : A -> bool) (l : list A) (x : A) :
  In x l -> p x = true -> exists y, find p l = Some y /\ p y = true.
Proof.
  intros Hin Hp. destruct (find p l) as [y |] eqn:E.
  - exists y. split; [reflexivity |]. now apply find_some in E.
  - rewrite (find_none _ _ E x Hin) in Hp. discriminate.
Qed.

Lemma findById_absent (us : list User.doc) (id : ObjectId) :
  (forall u, In u us -> User._id u <> id) -> User.findById us id = None.
Proof.
  intros Hno. apply find_absent. intros u Hu.
  apply Nat.eqb_neq. now apply Hno.
Qed.

(** C5: the creation of a workout whose [userId] is the id of no stored
    user is answered with 404, and the store is left as it was. *)
Theorem createWorkout_unknown_user (now : Date) (body : Workout.fields)
    (s : Store) :
  (forall u, In u (users s) -> Workout.f_userId body <> Some (User._id u)) ->
  asyncHandler (createWorkout now body) s = (sendError 404 [], s).
Proof.
  intros Hno.
  unfold asyncHandler, createWorkout, bind, query.
  assert (E : match Workout.f_userId body with
              | Some userId => User.findById (users s) userId
              | None => None
              end = None).
  { destruct (Workout.f_userId body) as [id |]; [| reflexivity].
    apply findById_absent. intros u Hu Eid. apply (Hno u Hu). now subst. }
  rewrite E. reflexivity.
Qed.

Lemma createWorkout_unknown_user_witness :
  asyncHandler (createWorkout 1000 bodyRun) emptyStore
  = (sendError 404 [], emptyStore).
Proof.
  apply (createWorkout_unknown_user 1000 bodyRun emptyStore).
  simpl. intros u [].
Defined.

(** C6: the deletion of a stored user who owns a stored workout is
    answered with 409 and the number of their workouts, and the store,
    users and workouts, is left as it was. *)
Theorem deleteUser_with_workouts (id : ObjectId) (s : Store)
    (u : User.doc) (w : Workout.doc) :
  In u (users s) -> User._id u = id ->
  In w (workouts s) -> Workout.userId w = Some id ->
  exists n,
    0 < n
    /\ n = Workout.countDocuments (Workout.of_user id) (workouts s)
    /\ asyncHandler (deleteUser id) s
       = ({| status := 409;
             body := Json false (DeleteBlocked n) None [] |}, s).
Proof.
  intros Hu Eu Hw Ew.
  destruct (find_present (fun x => (User._id x =? id)%nat) (users s) u Hu)
    as (u' & Eu' & _); [now apply Nat.eqb_eq |].
  assert (Hpos : 0 < Workout.countDocuments (Workout.of_user id) (workouts s)).
  { unfold Workout.countDocuments.
    assert (Hin : In w (filter (Workout.of_user id) (workouts s))).
    { apply filter_In. split; [exact Hw |].
      unfold Workout.of_user. rewrite Ew. apply Nat.eqb_refl. }
    destruct (filter _ _); [contradiction | simpl; lia]. }
  eexists. split; [exact Hpos |]. split; [reflexivity |].
  unfold asyncHandler, deleteUser, bind, query, ret, User.findById.
  rewrite Eu'.
  destruct (Z.ltb_spec 0 (Workout.countDocuments (Workout.of_user id)
                            (workouts s)));
    [reflexivity | lia].
Qed.

End ReferentialFacts.

(* ===================================================================== *)
(** * Body mass index *)
(* ===================================================================== *)

Section BmiFacts.

(** [Math.round x] is the integer [n] with [n - 1/2 <= x < n + 1/2]. *)
Lemma Math_round_spec (x : Q) :
  (inject_Z (JS.Math_round x) - (1 # 2) <= x
   /\ x < inject_Z (JS.Math_round x) + (1 # 2))%Q.
Proof.
  unfold JS.Math_round.
  pose proof (Qfloor_le (x + (1 # 2))) as L.
  pose proof (Qlt_floor (x + (1 # 2))) as U.
  rewrite inject_Z_plus in U. change (inject_Z 1) with 1%Q in U.
  split; lra.
Qed.

Lemma truthy_num_Some (q : Q) :
  ~ (q == 0)%Q -> JS.truthy_num (Some q) = true.
Proof.
  intros Hq. unfold JS.truthy_num.
  destruct (Qeq_bool q 0) eqn:E; [| reflexivity].
  apply Qeq_bool_eq in E. contradiction.
Qed.




Lemma bmi_lower (w h : Q) :
  (20 <= w)%Q -> (0 < h)%Q -> (h <= 300)%Q ->
  (20 # 9 <= w / ((h / 100) * (h / 100)))%Q.
Proof.
  intros Hw Hh0 Hh.
  assert (H0 : (0 < h / 100)%Q) by (apply Qlt_shift_div_l; lra).
  assert (H3 : (h / 100 <= 3)%Q) by (apply Qle_shift_div_r; lra).
  set (m := (h / 100)%Q) in *.
  assert (Hm : (0 < m * m)%Q) by nra.
  apply Qle_shift_div_l; [exact Hm |].
  nra.
Qed.

(** Within the bounds of the schema (weight 20..500, height 50..300) the
    bmi is at least 2.2, so the category is never null. *)
Lemma bmi_within_schema_bounds (d : User.doc) (w h : Q) :
  User.weight d = Some w -> User.height d = Some h ->
  User.in_bounds 20 500 (Some w) = true ->
  User.in_bounds 50 300 (Some h) = true ->
  exists b, User.bmi d = Some b /\ (22 # 10 <= b)%Q
            /\ User.bmiCategory d <> None.
Proof.
  intros Hw Hh Bw Bh. simpl in Bw, Bh.
  apply andb_prop in Bw as [Bw1 _]. apply andb_prop in Bh as [Bh1 Bh2].
  apply Qle_bool_imp_le in Bw1, Bh1, Bh2.
  pose proof (bmi_lower w h Bw1 ltac:(lra) Bh2) as Hx.
  set (x := (w / ((h / 100) * (h / 100)))%Q) in *.
  pose proof (Math_round_spec (x * 10)%Q) as [_ Hn].
  set (n := JS.Math_round (x * 10)%Q) in *.
  assert (Hn22 : 22 <= n).
  { assert (Hlt : (217 # 10 < inject_Z n)%Q) by lra.
    unfold Qlt in Hlt; simpl in Hlt. lia. }
  assert (Hb : (22 # 10 <= inject_Z n / 10)%Q).
  { apply Qle_shift_div_l; [lra |].
    assert (Hq : (inject_Z 22 <= inject_Z n)%Q) by (rewrite <- Zle_Qle; lia).
    change (inject_Z 22) with 22%Q in Hq. lra. }
  assert (Ebmi : User.bmi d = Some (inject_Z n / 10)%Q).
  { unfold User.bmi. rewrite Hw, Hh.
    rewrite !truthy_num_Some by lra. reflexivity. }
  exists (inject_Z n / 10)%Q. split; [exact Ebmi |]. split; [exact Hb |].
  unfold User.bmiCategory. rewrite Ebmi.
  rewrite truthy_num_Some by lra. simpl.
  repeat match goal with
         | |- context [Qlt_le_dec ?a ?b] => destruct (Qlt_le_dec a b)
         end; discriminate.
Qed.

End BmiFacts.

(* ===================================================================== *)
(** * User statistics *)
(* ===================================================================== *)

Section SortFacts.
Context {A : Type} (le : A -> A -> bool).

Lemma insert_sorted_perm (x : A) (l : list A) :
  Permutation (insert_sorted le x l) (x :: l).
Proof.
  induction l as [| y l IH]; simpl; [reflexivity |].
  destruct (le x y); [reflexivity |].
  rewrite IH. apply perm_swap.
Qed.

Lemma sort_by_perm (l : list A) : Permutation (sort_by le l) l.
Proof.
  unfold sort_by. induction l as [| x l IH]; simpl; [reflexivity |].
  rewrite insert_sorted_perm. now constructor.
Qed.

Hypothesis le_total : forall a b, le a b = true \/ le b a = true.
Hypothesis le_trans :
  forall a b c, le a b = true -> le b c = true -> le a c = true.

Lemma insert_sorted_sorted (x : A) (l : list A) :
  StronglySorted (holds le) l ->
  StronglySorted (holds le) (insert_sorted le x l).
Proof.
  induction 1 as [| y l Hs IH Hy]; simpl.
  - repeat constructor.
  - destruct (le x y) eqn:E.
    + constructor; [now constructor |].
      constructor; [exact E |].
      eapply Forall_impl; [| exact Hy].
      intros z Hz. now apply le_trans with y.
    + constructor; [exact IH |].
      apply (Permutation_Forall (x := x :: l)).
      * symmetry. apply insert_sorted_perm.
      * constructor; [| exact Hy].
        destruct (le_total x y) as [C | C]; [congruence | exact C].
Qed.

Lemma sort_by_sorted (l : list A) : StronglySorted (holds le) (sort_by le l).
Proof.
  unfold sort_by. induction l as [| x l IH]; simpl.
  - constructor.
  - now apply insert_sorted_sorted.
Qed.

Lemma sorted_firstn (n : nat) (l : list A) :
  StronglySorted (holds le) l -> StronglySorted (holds le) (firstn n l).
Proof.
  intros Hs. revert n. induction Hs as [| y l Hs IH Hy]; intros [| n]; simpl;
    try constructor.
  - apply IH.
  - rewrite Forall_forall in *. intros z Hz. apply Hy.
    rewrite <- (firstn_skipn n l). apply in_or_app. now left.
Qed.

End SortFacts.

Section StatsFacts.

Lemma later_or_equal_total (a b : Workout.doc) :
  later_or_equal a b = true \/ later_or_equal b a = true.
Proof.
  unfold later_or_equal, Workout.date_key.
  destruct (Workout.workoutDate a), (Workout.workoutDate b); simpl; auto.
  rewrite !Z.leb_le. lia.
Qed.

Lemma later_or_equal_trans (a b c : Workout.doc) :
  later_or_equal a b = true -> later_or_equal b c = true ->
  later_or_equal a c = true.
Proof.
  unfold later_or_equal, Workout.date_key.
  destruct (Workout.workoutDate a), (Workout.workoutDate b),
    (Workout.workoutDate c); simpl; auto; try discriminate.
  rewrite !Z.leb_le. lia.
Qed.

Lemma filter_none {A} (p : A -> bool) (l : list A) :
  (forall x, In x l -> p x = false) -> filter p l = [].
Proof.
  induction l as [| a l IH]; simpl; intros Hp; [reflexivity |].
  rewrite (Hp a (or_introl eq_refl)). apply IH. auto.
Qed.





(** The two ways in which [getUserStats] ends for a stored user. *)
Lemma getUserStats_cases `{Runtime} (now : Date) (id : ObjectId)
    (s : Store) :
  asyncHandler (getUserStats now id) s
  = match User.findById (users s) id with
    | None => (sendNotFound, s)
    | Some u =>
        if ObjectId_callable
        then (sendSuccess 200 (StatsData (userStats now id u (workouts s)))
                None, s)
        else (errorHandler OtherError, s)
    end.
Proof.
  unfold asyncHandler, getUserStats, bind, query, ret, lift,
    Workout.getTotalCaloriesByUser, userStats.
  destruct (User.findById (users s) id) as [u |]; [| reflexivity].
  destruct ObjectId_callable; reflexivity.
Qed.


End StatsFacts.

Section RecentFacts.



(** The only workout of a user, not completed, is in the last workouts
    and in no total. *)
Lemma userStats_planned_only :
  let st := userStats 6000 0%nat userJane [plannedRun] in
  recent_lastWorkouts st = [summary plannedRun]
  /\ workouts_total st = 0
  /\ workouts_thisWeek st = 0.
Proof. repeat split. Qed.

End RecentFacts.

(* ===================================================================== *)
(** * Boolean filters of the list operations *)
(* ===================================================================== *)

Section BooleanFilterFacts.
Context `{Runtime}.

Lemma firstn_incl {A} (n : nat) (l : list A) (x : A) :
  In x (firstn n l) -> In x l.
Proof.
  intros Hx. rewrite <- (firstn_skipn n l). apply in_or_app. now left.
Qed.

Lemma skipn_incl {A} (n : nat) (l : list A) (x : A) :
  In x (skipn n l) -> In x l.
Proof.
  intros Hx. rewrite <- (firstn_skipn n l). apply in_or_app. now right.
Qed.

Lemma skip_limit_incl {A} (k n : Z) (l found : list A) (x : A) :
  skip_limit k n l = inr found -> In x found -> In x l.
Proof.
  unfold skip_limit, apply_limit.
  destruct (k <? 0); [discriminate |].
  intros E; inversion E; subst; clear E.
  destruct (n =? 0); intros Hx.
  - now apply skipn_incl in Hx.
  - now apply firstn_incl, skipn_incl in Hx.
Qed.

Lemma sort_on_incl {A} (k : A -> value) (order : Z) (l : list A) (x : A) :
  In x (sort_on k order l) -> In x l.
Proof.
  unfold sort_on. destruct (order <? 0);
    apply Permutation_in, sort_by_perm.
Qed.

Lemma not_true_coerced (v : string) :
  v <> "true"%string -> String.eqb v "true" = false.
Proof. intros Hv. now apply String.eqb_neq. Qed.

Lemma with_isActive_same (q : Query) (v : string) :
  q_isActive q = Some v -> with_isActive (Some v) q = q.
Proof. destruct q; simpl; intros ->; reflexivity. Qed.

Lemma with_completed_same (q : Query) (v : string) :
  q_completed q = Some v -> with_completed (Some v) q = q.
Proof. destruct q; simpl; intros ->; reflexivity. Qed.

Lemma userFilter_isActive (q : Query) (v : string) (f : UserFilter) :
  q_isActive q = Some v -> userFilter q = inr f ->
  uf_isActive f = Some (String.eqb v "true").
Proof.
  intros Hq. unfold userFilter. rewrite Hq.
  destruct (if_truthy (q_search q)) as [search |];
    [destruct (RegExp_compile search) |];
    intros E; inversion E; reflexivity.
Qed.

Lemma workoutFilter_completed (q : Query) (v : string) (f : WorkoutFilter) :
  q_completed q = Some v -> workoutFilter q = inr f ->
  wf_completed f = Some (String.eqb v "true").
Proof.
  intros Hq. unfold workoutFilter. rewrite Hq.
  repeat match goal with
         | |- context [cast_opt ?c ?x] => destruct (cast_opt c x)
         end;
    intros E; inversion E; reflexivity.
Qed.

Ltac case_checks :=
  repeat match goal with
         | |- context [match ?t with _ => _ end] =>
             destruct t; simpl; try reflexivity
         | |- context [if ?t then _ else _] =>
             destruct t; simpl; try reflexivity
         end.

Lemma check_page_with_completed (x : option string)
    (acc : list string * Query) :
  check_page (on_query (with_completed x) acc)
  = on_query (with_completed x) (check_page acc).
Proof.
  destruct acc as [errors q]; destruct q.
  unfold check_page, on_query; simpl. case_checks.
Qed.

Lemma check_limit_with_completed (x : option string)
    (acc : list string * Query) :
  check_limit (on_query (with_completed x) acc)
  = on_query (with_completed x) (check_limit acc).
Proof.
  destruct acc as [errors q]; destruct q.
  unfold check_limit, on_query; simpl. case_checks.
Qed.

Lemma check_order_with_completed (x : option string)
    (acc : list string * Query) :
  check_order (on_query (with_completed x) acc)
  = on_query (with_completed x) (check_order acc).
Proof.
  destruct acc as [errors q]; destruct q.
  unfold check_order, on_query; simpl. case_checks.
Qed.

(** The validation of the query neither reads nor changes [completed]. *)
Lemma validateQueryParams_with_completed (x : option string) (q : Query) :
  validateQueryParams (with_completed x q)
  = match validateQueryParams q with
    | inl r => inl r
    | inr q' => inr (with_completed x q')
    end.
Proof.
  unfold validateQueryParams.
  change ([], with_completed x q)
    with (on_query (with_completed x) ([] : list string, q)).
  rewrite check_page_with_completed, check_limit_with_completed,
    check_order_with_completed.
  destruct (check_order _) as [[| e errors] q1]; reflexivity.
Qed.

(** C10: a value of [isActive] other than the string [true] is the
    filter [isActive: false]: the Users list answers as it does for
    [isActive=false], and every user of the answer is a stored user
    whose flag is false.  The same holds for [completed] and the
    Workouts list. *)
Theorem boolean_filters_coerced (q : Query) (s : Store) (v : string) :
  v <> "true"%string ->
  (q_isActive q = Some v ->
     (forall f, userFilter q = inr f -> uf_isActive f = Some false)
     /\ listUsersRoute q s
        = listUsersRoute (with_isActive (Some "false"%string) q) s
     /\ (forall l u,
           data_of (fst (listUsersRoute q s)) = UserList l -> In u l ->
           In u (users s) /\ User.isActive u = false))
  /\ (q_completed q = Some v ->
     (forall q' f, validateQueryParams q = inr q' ->
                   workoutFilter q' = inr f -> wf_completed f = Some false)
     /\ listWorkoutsRoute q s
        = listWorkoutsRoute (with_completed (Some "false"%string) q) s
     /\ (forall l w,
           data_of (fst (listWorkoutsRoute q s)) = WorkoutList l -> In w l ->
           In (fst w) (workouts s) /\ Workout.completed (fst w) = false)).
Proof.
  intros Hv. pose proof (not_true_coerced v Hv) as Ev. split; intros Hq.
  - repeat apply conj.
    + intros f Ef. rewrite (userFilter_isActive q v f Hq Ef). now rewrite Ev.
    + assert (EF : userFilter (with_isActive (Some "false"%string) q)
                   = userFilter q).
      { unfold userFilter. cbn [q_fitnessGoal q_activityLevel q_isActive
                                q_search with_isActive].
        rewrite Hq. simpl option_map. now rewrite Ev. }
      unfold listUsersRoute, getAllUsers. rewrite EF. reflexivity.
    + intros l u. unfold listUsersRoute, asyncHandler, getAllUsers, bind,
        lift, query, ret, throw.
      destruct (userFilter q) as [e | f] eqn:Ef; [discriminate |].
      destruct (JS.or_default _ 1) as [page | | |]; try discriminate.
      destruct (JS.or_default _ 10) as [limit | | |]; try discriminate.
      destruct (skip_limit _ _ _) as [e | found] eqn:Efound; [discriminate |].
      simpl. intros E Hu. inversion E; subst l; clear E.
      apply (skip_limit_incl _ _ _ _ u Efound) in Hu.
      apply sort_on_incl, filter_In in Hu. destruct Hu as [Hin Hm].
      split; [exact Hin |].
      unfold user_matches in Hm.
      rewrite (userFilter_isActive q v f Hq Ef), Ev in Hm.
      simpl in Hm. rewrite !andb_true_iff in Hm.
      destruct Hm as [[[_ _] Hb] _].
      destruct (User.isActive u); [discriminate | reflexivity].
  - repeat apply conj.
    + intros q' f Eq' Ef.
      rewrite <- (with_completed_same q v Hq) in Eq'.
      rewrite validateQueryParams_with_completed in Eq'.
      destruct (validateQueryParams q) as [r | q0]; [discriminate |].
      inversion Eq'; subst q'; clear Eq'.
      rewrite (workoutFilter_completed (with_completed (Some v) q0) v f
                 eq_refl Ef).
      now rewrite Ev.
    + rewrite <- (with_completed_same q v Hq) at 1.
      unfold listWorkoutsRoute.
      rewrite !validateQueryParams_with_completed.
      destruct (validateQueryParams q) as [r | q0]; [reflexivity |].
      assert (EF : workoutFilter (with_completed (Some v) q0)
                   = workoutFilter (with_completed (Some "false"%string) q0)).
      { unfold workoutFilter.
        cbn [q_userId q_startDate q_endDate q_exerciseType q_intensity
             q_completed with_completed].
        simpl option_map. now rewrite Ev. }
      unfold getAllWorkouts. rewrite EF. reflexivity.
    + intros l w. rewrite <- (with_completed_same q v Hq).
      unfold listWorkoutsRoute.
      rewrite validateQueryParams_with_completed.
      destruct (validateQueryParams q) as [r | q0] eqn:Eq0.
      { unfold validateQueryParams in Eq0.
        destruct (check_order _) as [[| e errors] q1]; [discriminate |].
        inversion Eq0; subst r. discriminate. }
      unfold asyncHandler, getAllWorkouts, bind, lift, query, ret, throw.
      destruct (workoutFilter _) as [e | f] eqn:Ef; [discriminate |].
      destruct (JS.or_default _ 1) as [page | | |]; try discriminate.
      destruct (JS.or_default _ 10) as [limit | | |]; try discriminate.
      destruct (skip_limit _ _ _) as [e | found] eqn:Efound; [discriminate |].
      simpl. intros E Hw. inversion E; subst l; clear E.
      apply in_map_iff in Hw. destruct Hw as (w0 & <- & Hw0).
      apply (skip_limit_incl _ _ _ _ w0 Efound) in Hw0.
      apply sort_on_incl, filter_In in Hw0. destruct Hw0 as [Hin Hm].
      split; [exact Hin |]. simpl.
      unfold workout_matches in Hm.
      rewrite (workoutFilter_completed (with_completed (Some v) q0) v f
                 eq_refl Ef), Ev in Hm.
      simpl in Hm. rewrite !andb_true_iff in Hm.
      destruct Hm as [[[_ Hb] _] _].
      destruct (Workout.completed w0); [discriminate | reflexivity].
Qed.

End BooleanFilterFacts.

(* ===================================================================== *)
(** * The statements on sample data *)
(* ===================================================================== *)

Section SampleRuns.

(** The second page of an empty Users collection is answered with
    [hasPrevPage] true and [prevPage] 1. *)
Lemma listUsersRoute_empty_page2 `{Runtime} :
  exists p,
    pagination_of (fst (listUsersRoute (pageQuery "2") emptyStore)) = Some p
    /\ ApiResponse.totalItems p = 0
    /\ ApiResponse.totalPages p = JS.Fin 0
    /\ ApiResponse.hasPrevPage p = true
    /\ ApiResponse.prevPage p = Some 1.
Proof. eexists. repeat split. Qed.

(** On the Workouts list the page [1.5] passes the validation, as page
    1. *)
Lemma listWorkoutsRoute_accepts_fractional_page :
  validateQueryParams (pageQuery "1.5")
  = inr (set_page (QNum (JS.Fin 1)) noQuery).
Proof. vm_compute. reflexivity. Qed.

(** Whatever the query, the Users list answers 200 or, when the search
    pattern does not compile, the skip is negative, or the page or the
    limit is not finite, 500: never 400. *)
Lemma listUsersRoute_never_400 `{Runtime} (q : Query) (s : Store) :
  status (fst (listUsersRoute q s)) = 200
  \/ status (fst (listUsersRoute q s)) = 500.
Proof.
  unfold listUsersRoute, asyncHandler, getAllUsers, bind, lift, query, ret,
    throw.
  destruct (userFilter q) as [e | f] eqn:Ef.
  - right. unfold userFilter in Ef.
    destruct (if_truthy (q_search q)) as [search |];
      [destruct (RegExp_compile search) |]; inversion Ef; reflexivity.
  - destruct (JS.or_default _ 1) as [page | | |]; try (right; reflexivity).
    destruct (JS.or_default _ 10) as [limit | | |]; try (right; reflexivity).
    destruct (skip_limit _ _ _) as [e | found] eqn:Efound.
    + right. unfold skip_limit in Efound.
      destruct (_ <? 0); inversion Efound; reflexivity.
    + left. reflexivity.
Qed.


Lemma deleteUser_with_workouts_witness :
  exists n,
    0 < n
    /\ n = Workout.countDocuments (Workout.of_user 0%nat) (workouts janeStore)
    /\ asyncHandler (deleteUser 0%nat) janeStore
       = ({| status := 409;
             body := Json false (DeleteBlocked n) None [] |}, janeStore).
Proof.
  apply (deleteUser_with_workouts 0%nat janeStore userJane plannedRun);
    simpl; auto.
Defined.


Lemma boolean_filters_coerced_witness :
  @listUsersRoute plainRuntime flagQuery janeStore
  = @listUsersRoute plainRuntime
      (with_isActive (Some "false"%string) flagQuery) janeStore
  /\ @listWorkoutsRoute plainRuntime flagQuery janeStore
     = @listWorkoutsRoute plainRuntime
         (with_completed (Some "false"%string) flagQuery) janeStore
  /\ (forall l w,
        data_of (fst (@listWorkoutsRoute plainRuntime flagQuery janeStore))
        = WorkoutList l ->
        In w l ->
        In (fst w) (workouts janeStore)
        /\ Workout.completed (fst w) = false).
Proof.
  destruct (@boolean_filters_coerced plainRuntime flagQuery janeStore
              "1"%string ltac:(discriminate)) as [Husers Hworkouts].
  destruct (Husers eq_refl) as (_ & Eu & _).
  destruct (Hworkouts eq_refl) as (_ & Ew & Hdata).
  split; [exact Eu |]. split; [exact Ew | exact Hdata].
Defined.

(** With [?completed=1] the Workouts list answers the workout that is
    not completed; with [?isActive=1] the Users list answers no user,
    the only one being active. *)
Lemma flagQuery_answers :
  data_of (fst (@listWorkoutsRoute plainRuntime flagQuery janeStore))
  = WorkoutList [(plannedRun,
                  Some (Some "Jane Smith"%string, Some "jane@x.io"%string))]
  /\ data_of (fst (@listUsersRoute plainRuntime flagQuery janeStore))
     = UserList [].
Proof. split; reflexivity. Qed.

End SampleRuns.

(* ===================================================================== *)
(** * Pages of the list operations *)
(* ===================================================================== *)

Section PageFacts.
Context `{Runtime}.
Import ApiResponse.

(** X1. For a positive limit, [hasNextPage] tells whether items remain
    after the current page, that is whether [page * limit < total]; the
    next page, when there is one, is a page of the list. *)
Theorem hasNextPage_iff_items_remain (page limit total : Z) :
  0 < limit ->
  let p := paginationMeta page limit total in
  hasNextPage p = (page * limit <? total)
  /\ (hasNextPage p = true ->
      exists t, totalPages p = JS.Fin t
                /\ nextPage p = Some (page + 1) /\ page + 1 <= t).
Proof.
  intros Hl p.
  destruct (Math_ceil_div_pos total limit Hl) as (t & Et & Ht).
  unfold p, paginationMeta; simpl. rewrite Et; simpl.
  assert (E : (page <? t) = (page * limit <? total)).
  { destruct (Z.ltb_spec page t), (Z.ltb_spec (page * limit) total);
      try reflexivity; nia. }
  split; [exact E |].
  intros Hn. exists t. rewrite Hn.
  repeat split. apply Z.ltb_lt in Hn. lia.
Qed.

Lemma hasNextPage_iff_items_remain_witness :
  let p := paginationMeta 2 10 25 in
  hasNextPage p = (2 * 10 <? 25)
  /\ (hasNextPage p = true ->
      exists t, totalPages p = JS.Fin t
                /\ nextPage p = Some (2 + 1) /\ 2 + 1 <= t).
Proof.
  apply (hasNextPage_iff_items_remain 2 10 25). lia.
Defined.

Lemma set_page_same (q : Query) (v : qvalue) :
  q_page q = Some v -> set_page v q = q.
Proof. destruct q; simpl; intros ->; reflexivity. Qed.

Lemma set_limit_same (q : Query) (v : qvalue) :
  q_limit q = Some v -> set_limit v q = q.
Proof. destruct q; simpl; intros ->; reflexivity. Qed.

(** A Number below [10^21] is written with all its digits, which
    [parseInt] reads back. *)
Lemma parseInt_number_small (z : Z) :
  Z.abs z < 10 ^ 21 -> JS.parseInt_number (JS.Fin z) = JS.Fin z.
Proof.
  intros Hz. unfold JS.parseInt_number.
  destruct (Z.ltb_spec (Z.abs z) (10 ^ 21)); [reflexivity | lia].
Qed.

Lemma leading_pos (fuel : nat) (z : Z) :
  1 <= z -> 1 <= fst (JS.leading fuel z).
Proof.
  revert z. induction fuel as [| f IH]; intros z Hz; simpl; [exact Hz |].
  destruct (Z.ltb_spec z 10); [exact Hz |].
  specialize (IH (z / 10)).
  destruct (JS.leading f (z / 10)) as [d p]. simpl in *.
  apply IH. apply Z.div_le_lower_bound; lia.
Qed.

(** What [parseInt] reads in a Number that is at least 1 is at least 1. *)
Lemma parseInt_number_pos (z : Z) :
  1 <= z ->
  exists p, JS.parseInt_number (JS.Fin z) = JS.Fin p
            /\ 1 <= p /\ (z < 10 ^ 21 -> p = z).
Proof.
  intros Hz. unfold JS.parseInt_number.
  destruct (Z.ltb_spec (Z.abs z) (10 ^ 21)).
  - exists z. auto.
  - pose proof (leading_pos (Z.to_nat (Z.log2 (Z.abs z))) (Z.abs z)) as L.
    destruct (JS.leading _ _) as [d p]. simpl in L.
    specialize (L ltac:(lia)).
    eexists. split; [reflexivity |]. split; [| lia].
    rewrite Z.sgn_pos by lia.
    destruct (JS.of_integer _) as [r | | |]; try lia.
    destruct (r =? Z.abs z); [destruct (d + 1 =? 10) |]; lia.
Qed.

(** The page that a handler reads where the validation wrote the Number
    [n]. *)
Lemma accepted_page_read (n : JS.number) :
  JS.isNaN n || JS.number_lt n 1 = false ->
  exists p, JS.or_default (JS.parseInt_number n) 1 = JS.Fin p
            /\ 1 <= p
            /\ forall z, n = JS.Fin z -> 1 <= z /\ (z < 10 ^ 21 -> p = z).
Proof.
  destruct n as [z | | |]; cbn [JS.isNaN JS.number_lt orb]; intros Hn;
    try discriminate.
  - apply Z.ltb_ge in Hn.
    destruct (parseInt_number_pos z Hn) as (p & Ep & Hp & Hs).
    exists p. rewrite Ep. unfold JS.or_default.
    destruct (Z.eqb_spec p 0); [lia |].
    split; [reflexivity |]. split; [exact Hp |].
    intros z' E; inversion E; subst z'. auto.
  - exists 1. split; [reflexivity |]. split; [lia |]. discriminate.
Qed.

Lemma check_page_ok (q q1 : Query) :
  check_page ([], q) = ([], q1) ->
  (q_page q = None /\ q1 = q)
  \/ (exists v, q_page q = Some v
        /\ JS.isNaN (parseInt (Some v))
           || JS.number_lt (parseInt (Some v)) 1 = false
        /\ q1 = set_page (QNum (parseInt (Some v))) q).
Proof.
  unfold check_page.
  destruct (q_page q) as [v |] eqn:Ev.
  - destruct (_ || _) eqn:Eb; [discriminate |].
    intros E; inversion E; subst. right. exists v. auto.
  - intros E; inversion E; subst. now left.
Qed.

Lemma check_limit_ok (q1 q2 : Query) :
  check_limit ([], q1) = ([], q2) ->
  (q_limit q1 = None /\ q2 = q1)
  \/ (exists v l, q_limit q1 = Some v /\ parseInt (Some v) = JS.Fin l
                  /\ 1 <= l <= 100 /\ q2 = set_limit (QNum (JS.Fin l)) q1).
Proof.
  unfold check_limit.
  destruct (q_limit q1) as [v |] eqn:Ev.
  - destruct (parseInt (Some v)) as [l | | |] eqn:El; try discriminate.
    simpl.
    destruct (Z.ltb_spec l 1); [discriminate |].
    destruct (Z.ltb_spec 100 l); [discriminate |]. simpl.
    intros E; inversion E; subst. right. exists v, l. repeat split; auto.
  - intros E; inversion E; subst. now left.
Qed.

Lemma check_order_ok (q2 q3 : Query) :
  check_order ([], q2) = ([], q3) ->
  q3 = q2
  /\ (forall o, q_order q2 = Some o ->
                In o ["asc"; "desc"; "1"; "-1"]%string).
Proof.
  unfold check_order.
  destruct (q_order q2) as [o |] eqn:Eo.
  - destruct (Str.mem o _) eqn:Em; simpl; [| discriminate].
    intros E; inversion E; subst. split; [reflexivity |].
    intros o' Eo'; inversion Eo'; subst o'.
    unfold Str.mem in Em. apply existsb_exists in Em.
    destruct Em as (x & Hx & Ex). apply String.eqb_eq in Ex. now subst.
  - intros E; inversion E; subst. split; [reflexivity | discriminate].
Qed.

Lemma check_limit_errors (acc : list string * Query) :
  fst (check_limit acc) = [] -> fst acc = [].
Proof.
  destruct acc as [errors q]; unfold check_limit.
  destruct (q_limit q); [| auto].
  destruct (_ || _); simpl; auto;
    intros E; apply app_eq_nil in E; destruct E; discriminate.
Qed.

Lemma check_order_errors (acc : list string * Query) :
  fst (check_order acc) = [] -> fst acc = [].
Proof.
  destruct acc as [errors q]; unfold check_order.
  destruct (q_order q); [| auto].
  destruct (negb _); simpl; auto;
    intros E; apply app_eq_nil in E; destruct E; discriminate.
Qed.

(** The three checks of an accepted query, one after the other. *)
Lemma validateQueryParams_inr (q q' : Query) :
  validateQueryParams q = inr q' ->
  exists q1,
    check_page ([], q) = ([], q1)
    /\ check_limit ([], q1) = ([], q')
    /\ check_order ([], q') = ([], q').
Proof.
  unfold validateQueryParams.
  destruct (check_page ([], q)) as [e1 q1] eqn:E1.
  destruct (check_limit (e1, q1)) as [e2 q2] eqn:E2.
  destruct (check_order (e2, q2)) as [e3 q3] eqn:E3.
  destruct e3; [| discriminate]. intros E; inversion E; subst q3.
  assert (e2 = []).
  { pose proof (check_order_errors (e2, q2)) as X. rewrite E3 in X. auto. }
  subst e2.
  assert (e1 = []).
  { pose proof (check_limit_errors (e1, q1)) as X. rewrite E2 in X. auto. }
  subst e1.
  exists q1. split; [reflexivity |].
  destruct (check_order_ok q2 q' E3) as [-> _].
  split; [exact E2 | exact E3].
Qed.

(** What the validation hands to the handler. *)
Lemma validateQueryParams_inr_facts (q q' : Query) :
  validateQueryParams q = inr q' ->
  (q_page q = None -> q_page q' = None /\ pageOf q' = JS.Fin 1)
  /\ (forall v, q_page q = Some v ->
        let n := parseInt (Some v) in
        JS.isNaN n = false /\ JS.number_lt n 1 = false
        /\ q_page q' = Some (QNum n)
        /\ exists p, pageOf q' = JS.Fin p /\ 1 <= p
                     /\ forall z, n = JS.Fin z ->
                                  1 <= z /\ (z < 10 ^ 21 -> p = z))
  /\ (q_limit q = None -> q_limit q' = None /\ limitOf q' = JS.Fin 10)
  /\ (forall v, q_limit q = Some v ->
        exists l, parseInt (Some v) = JS.Fin l /\ 1 <= l <= 100
                  /\ q_limit q' = Some (QNum (JS.Fin l))
                  /\ limitOf q' = JS.Fin l)
  /\ (forall o, q_order q' = Some o ->
        In o ["asc"; "desc"; "1"; "-1"]%string)
  /\ q_order q' = q_order q
  /\ ((forall v, q_page q = Some v ->
         exists z, parseInt (Some v) = JS.Fin z /\ z < 10 ^ 21) ->
      validateQueryParams q' = inr q').
Proof.
  intros Hv.
  destruct (validateQueryParams_inr q q' Hv) as (q1 & E1 & E2 & E3).
  apply check_page_ok in E1. apply check_limit_ok in E2.
  destruct (check_order_ok q' q' E3) as [_ Ho].
  assert (Hpage : q_page q' = q_page q1).
  { destruct E2 as [[_ ->] | (v & l & _ & _ & _ & ->)]; reflexivity. }
  assert (Hlimit1 : q_limit q1 = q_limit q).
  { destruct E1 as [[_ ->] | (v & _ & _ & ->)]; reflexivity. }
  assert (Horder : q_order q' = q_order q).
  { destruct E2 as [[_ ->] | (v & l & _ & _ & _ & ->)];
      destruct E1 as [[_ ->] | (v' & _ & _ & ->)]; reflexivity. }
  repeat apply conj.
  - intros En.
    assert (En' : q_page q' = None).
    { rewrite Hpage.
      destruct E1 as [[_ ->] | (v & Ev & _)]; [exact En | congruence]. }
    split; [exact En' |]. unfold pageOf. rewrite En'. reflexivity.
  - intros v Ev n.
    destruct E1 as [[En _] | (v' & Ev' & Hn & ->)]; [congruence |].
    assert (v' = v) by congruence; subst v'. fold n in Hn.
    destruct (orb_false_elim _ _ Hn) as [Hn1 Hn2].
    split; [exact Hn1 |]. split; [exact Hn2 |].
    assert (Ep : q_page q' = Some (QNum n)) by (rewrite Hpage; reflexivity).
    split; [exact Ep |].
    unfold pageOf. rewrite Ep. cbn [parseInt].
    exact (accepted_page_read n Hn).
  - intros En. rewrite <- Hlimit1 in En.
    assert (En' : q_limit q' = None).
    { destruct E2 as [[_ ->] | (v & l & Ev & _)]; [exact En | congruence]. }
    split; [exact En' |]. unfold limitOf. rewrite En'. reflexivity.
  - intros v Ev. rewrite <- Hlimit1 in Ev.
    destruct E2 as [[En _] | (v' & l & Ev' & El & Hl & ->)]; [congruence |].
    assert (v' = v) by congruence; subst v'.
    exists l. split; [exact El |]. split; [exact Hl |].
    split; [reflexivity |].
    unfold limitOf. cbn [q_limit set_limit parseInt].
    rewrite parseInt_number_small by lia.
    unfold JS.or_default. destruct (Z.eqb_spec l 0); [lia | reflexivity].
  - exact Ho.
  - exact Horder.
  - intros Hsmall. unfold validateQueryParams.
    assert (P : check_page ([], q') = ([], q')).
    { unfold check_page. rewrite Hpage.
      destruct E1 as [[En Eq1] | (v & Ev & Hn & Eq1)].
      - subst q1. rewrite En. reflexivity.
      - destruct (Hsmall v Ev) as (z & Ez & Hz).
        rewrite Ez in Hn, Eq1. simpl in Hn. apply Z.ltb_ge in Hn.
        assert (Ep : q_page q1 = Some (QNum (JS.Fin z)))
          by (rewrite Eq1; reflexivity).
        rewrite Ep. cbn [parseInt].
        rewrite parseInt_number_small by lia. simpl.
        destruct (Z.ltb_spec z 1); [lia |].
        rewrite set_page_same; [reflexivity |].
        rewrite Hpage. exact Ep. }
    assert (L : check_limit ([], q') = ([], q')).
    { assert (Hl' : q_limit q' = None
                    \/ exists l, 1 <= l <= 100
                                 /\ q_limit q' = Some (QNum (JS.Fin l))).
      { destruct E2 as [[En ->] | (v & l & _ & _ & Hl & ->)];
          [now left | right; exists l; auto]. }
      unfold check_limit.
      destruct Hl' as [En | (l & Hl & El)]; rewrite El || rewrite En;
        [reflexivity |].
      cbn [parseInt]. rewrite parseInt_number_small by lia. simpl.
      destruct (Z.ltb_spec l 1); [lia |].
      destruct (Z.ltb_spec 100 l); [lia |]. cbn [orb].
      now rewrite (set_limit_same q' (QNum (JS.Fin l)) El). }
    rewrite P, L, E3. reflexivity.
Qed.


End PageFacts.


(** A numeral beyond [2^53] is read as the nearest double. *)
Lemma parseInt_beyond_safe_integers :
  JS.parseInt "9007199254740993" = JS.Fin 9007199254740992.
Proof. vm_compute. reflexivity. Qed.

(** The page [10^21] passes the validation, and the handler then reads
    the page 1 in it: the Number is written [1e+21]. *)
Lemma validateQueryParams_page_1e21 :
  let q' := set_page (QNum (JS.Fin (10 ^ 21))) noQuery in
  validateQueryParams (pageQuery "1000000000000000000000") = inr q'
  /\ pageOf q' = JS.Fin 1.
Proof. vm_compute. split; reflexivity. Qed.

(** A numeral of 400 digits is read as [Infinity], which passes the check
    of the page; the handler reads [NaN] in it, and so the page 1. *)
Lemma validateQueryParams_page_Infinity :
  let v := String.concat EmptyString (repeat "9"%string 400) in
  let q' := set_page (QNum JS.Infinity) noQuery in
  validateQueryParams (pageQuery v) = inr q'
  /\ pageOf q' = JS.Fin 1
  /\ exists r, validateQueryParams q' = inl r /\ status r = 400.
Proof.
  vm_compute. split; [reflexivity |]. split; [reflexivity |].
  eexists; split; reflexivity.
Qed.

Section ListRouteFacts.
Context `{Runtime}.
Import ApiResponse.

Lemma sort_on_length {A} (k : A -> value) (order : Z) (l : list A) :
  List.length (sort_on k order l) = List.length l.
Proof.
  unfold sort_on. destruct (order <? 0);
    apply Permutation_length, sort_by_perm.
Qed.

Lemma sorted_skipn {A} (le : A -> A -> bool) (n : nat) (l : list A) :
  StronglySorted (holds le) l -> StronglySorted (holds le) (skipn n l).
Proof.
  intros Hs. revert n.
  induction Hs as [| y l Hs IH Hy]; intros [| n]; simpl;
    try constructor; auto.
Qed.

Lemma workoutFilter_error (q : Query) (e : Thrown) :
  workoutFilter q = inl e -> e = CastError.
Proof.
  unfold workoutFilter, cast_opt.
  repeat match goal with
         | |- context [match if_truthy ?x with _ => _ end] =>
             destruct (if_truthy x)
         | |- context [match ?c ?x with Some _ => _ | None => _ end] =>
             destruct (c x)
         end;
    intros E; inversion E; reflexivity.
Qed.

(** The answer of [getAllWorkouts] for a filter that casts, a finite page
    and limit, and a skip that is not negative. *)
Lemma getAllWorkouts_run (q : Query) (s : Store) (f : WorkoutFilter)
  (page limit : Z) :
  workoutFilter q = inr f ->
  JS.or_default (parseInt (q_page q)) 1 = JS.Fin page ->
  JS.or_default (parseInt (q_limit q)) 10 = JS.Fin limit ->
  let matches := filter (workout_matches f) (workouts s) in
  0 <= (page - 1) * limit ->
  asyncHandler (getAllWorkouts q) s
  = (sendPaginated
       (WorkoutList
          (map (populate (users s))
             (apply_limit limit
                (skipn (Z.to_nat ((page - 1) * limit))
                   (sort_on Workout.date_key (-1) matches)))))
       page limit (Z.of_nat (List.length matches)), s).
Proof.
  intros Ef Ep El matches Hskip.
  unfold asyncHandler, getAllWorkouts, bind, lift, query, ret.
  rewrite Ef, Ep, El. fold matches. unfold skip_limit.
  destruct (Z.ltb_spec ((page - 1) * limit) 0); [lia | reflexivity].
Qed.

(** The page and the limit that the handler reads in an accepted query. *)
Lemma accepted_page_limit (q q' : Query) :
  validateQueryParams q = inr q' ->
  exists page limit,
    JS.or_default (parseInt (q_page q')) 1 = JS.Fin page
    /\ JS.or_default (parseInt (q_limit q')) 10 = JS.Fin limit
    /\ 1 <= page /\ 1 <= limit <= 100.
Proof.
  intros Hv.
  destruct (validateQueryParams_inr_facts q q' Hv)
    as (Hp0 & Hp & Hl0 & Hl & _).
  assert (P : exists page, pageOf q' = JS.Fin page /\ 1 <= page).
  { destruct (q_page q) as [v |].
    - destruct (Hp v eq_refl) as (_ & _ & _ & p & Ep & Bp & _).
      exists p. auto.
    - destruct (Hp0 eq_refl) as [_ Ep]. exists 1. split; [exact Ep | lia]. }
  assert (L : exists limit, limitOf q' = JS.Fin limit /\ 1 <= limit <= 100).
  { destruct (q_limit q) as [v |].
    - destruct (Hl v eq_refl) as (l & _ & Bl & _ & El). exists l. auto.
    - destruct (Hl0 eq_refl) as [_ El]. exists 10. split; [exact El | lia]. }
  destruct P as (page & Ep & Bp). destruct L as (limit & El & Bl).
  exists page, limit. auto.
Qed.

(** X3. The Workouts list never changes the store and answers 400 or 200,
    never 500; in a 200 the page is at least 1, the limit is between 1 and
    100, and the number of workouts in the answer is the limit, or what is
    left of the total after the pages before (none when the page is past
    the last). *)
Theorem listWorkoutsRoute_outcomes (q : Query) (s : Store) :
  let r := fst (listWorkoutsRoute q s) in
  snd (listWorkoutsRoute q s) = s
  /\ (status r = 400
      \/ (status r = 200
          /\ exists p l,
               pagination_of r = Some p
               /\ data_of r = WorkoutList l
               /\ 1 <= currentPage p
               /\ 1 <= itemsPerPage p <= 100
               /\ 0 <= totalItems p
               /\ Z.of_nat (List.length l)
                  = Z.max 0 (Z.min (itemsPerPage p)
                               (totalItems p
                                - (currentPage p - 1) * itemsPerPage p)))).
Proof.
  unfold listWorkoutsRoute.
  destruct (validateQueryParams q) as [r0 | q'] eqn:Ev.
  - simpl. split; [reflexivity |]. left.
    unfold validateQueryParams in Ev.
    destruct (check_order _) as [[| e errors] q1]; [discriminate |].
    inversion Ev; reflexivity.
  - destruct (accepted_page_limit q q' Ev)
      as (page & limit & Ep & El & Hp & Hl).
    destruct (workoutFilter q') as [e | f] eqn:Ef.
    + pose proof (workoutFilter_error q' e Ef) as ->.
      unfold asyncHandler, getAllWorkouts, bind, lift. rewrite Ef. simpl.
      split; [reflexivity | now left].
    + rewrite (getAllWorkouts_run q' s f page limit Ef Ep El) by nia.
      simpl. split; [reflexivity |]. right. split; [reflexivity |].
      eexists _, _. split; [reflexivity |]. split; [reflexivity |].
      simpl. repeat split; try lia.
      unfold apply_limit.
      destruct (Z.eqb_spec limit 0); [lia |].
      rewrite length_map, length_firstn, length_skipn, sort_on_length.
      nia.
Qed.

End ListRouteFacts.

Section PageContentFacts.
Context `{Runtime}.

Lemma populate_fst (us : list User.doc) (l : list Workout.doc) :
  map fst (map (populate us) l) = l.
Proof.
  induction l as [| w l IH]; simpl; [reflexivity | now rewrite IH].
Qed.

(** The user that [populate] puts beside a workout is a stored user with
    the id of the workout's [userId]; there is none when no stored user
    has that id. *)
Lemma populate_user (us : list User.doc) (w : Workout.doc) :
  match snd (populate us w) with
  | Some (n, e) =>
      exists u, In u us /\ Workout.userId w = Some (User._id u)
                /\ n = User.name u /\ e = User.email u
  | None => forall u, In u us -> Workout.userId w <> Some (User._id u)
  end.
Proof.
  unfold populate; simpl.
  destruct (Workout.userId w) as [id |]; [| intros u _; discriminate].
  unfold User.findById.
  destruct (find _ us) as [u |] eqn:E; simpl.
  - apply find_some in E. destruct E as [Hin Eid].
    apply Nat.eqb_eq in Eid. subst id. exists u. auto.
  - intros u Hu Eid. inversion Eid; subst id.
    pose proof (find_none _ _ E u Hu) as X. simpl in X.
    now rewrite Nat.eqb_refl in X.
Qed.

(** X4. The workouts of an answer of the Workouts list are stored workouts
    that match the filter of the query, in the order of the latest date
    first, each with the name and the e-mail of the stored user that its
    [userId] names, or with null when there is no such user. *)
Theorem listWorkoutsRoute_items (q : Query) (s : Store) (l : list Populated) :
  data_of (fst (listWorkoutsRoute q s)) = WorkoutList l ->
  StronglySorted (holds later_or_equal) (map fst l)
  /\ exists q' f,
       validateQueryParams q = inr q' /\ workoutFilter q' = inr f
       /\ forall w u,
            In (w, u) l ->
            In w (workouts s) /\ workout_matches f w = true
            /\ match u with
               | Some (n, e) =>
                   exists usr, In usr (users s)
                               /\ Workout.userId w = Some (User._id usr)
                               /\ n = User.name usr /\ e = User.email usr
               | None =>
                   forall usr, In usr (users s) ->
                               Workout.userId w <> Some (User._id usr)
               end.
Proof.
  unfold listWorkoutsRoute.
  destruct (validateQueryParams q) as [r0 | q'] eqn:Ev.
  { unfold validateQueryParams in Ev.
    destruct (check_order _) as [[| e errors] q1]; [discriminate |].
    inversion Ev; subst r0. discriminate. }
  destruct (accepted_page_limit q q' Ev)
    as (page & limit & Ep & El & Hp & Hl).
  destruct (workoutFilter q') as [e | f] eqn:Ef.
  { unfold asyncHandler, getAllWorkouts, bind, lift. rewrite Ef.
    discriminate. }
  rewrite (getAllWorkouts_run q' s f page limit Ef Ep El) by nia.
  simpl. intros E; inversion E; subst l; clear E.
  unfold apply_limit.
  destruct (Z.eqb_spec limit 0); [lia |].
  split.
  - rewrite populate_fst. apply sorted_firstn, sorted_skipn.
    apply sort_by_sorted;
      [apply later_or_equal_total | apply later_or_equal_trans].
  - exists q', f. split; [reflexivity || exact Ev |].
    split; [exact Ef |].
    intros w u Hin. apply in_map_iff in Hin.
    destruct Hin as (w0 & Ew & Hw0).
    apply firstn_incl, skipn_incl, sort_on_incl, filter_In in Hw0.
    pose proof (populate_user (users s) w0) as Hu.
    rewrite Ew in Hu. simpl in Hu.
    assert (w0 = w) by (unfold populate in Ew; now inversion Ew).
    subst w0. destruct Hw0 as [Hin Hm]. auto.
Qed.







End PageContentFacts.

Lemma listWorkoutsRoute_items_witness :
  StronglySorted (holds later_or_equal) [plannedRun]
  /\ In plannedRun (workouts janeStore).
Proof.
  destruct (@listWorkoutsRoute_items plainRuntime flagQuery janeStore
              [(plannedRun,
                Some (Some "Jane Smith"%string, Some "jane@x.io"%string))]
              eq_refl) as (Hsorted & q' & f & _ & _ & Hitems).
  split; [exact Hsorted |].
  exact (proj1 (Hitems plannedRun _ (or_introl eq_refl))).
Defined.


(* ===================================================================== *)
(** * The user handlers *)
(* ===================================================================== *)

Section UserHandlerFacts.

(** The four ways in which [createUser] ends. *)
Lemma createUser_cases (now : Date) (body : User.fields) (s : Store) :
  asyncHandler (createUser now body) s
  = match User.f_email body with
    | None => (errorHandler OtherError, s)
    | Some email =>
        match User.findOneByEmail (users s) (Str.toLowerCase email) with
        | Some _ => (sendConflict "email", s)
        | None =>
            match User.f_name body with
            | None => (errorHandler OtherError, s)
            | Some name =>
                match User.create (nextId s) now
                        (createFields name email body) (users s) with
                | inr (d, us) =>
                    (sendCreated (UserData d),
                     mkStore us (workouts s) (S (nextId s)))
                | inl e => (errorHandler e, s)
                end
            end
        end
    end.
Proof.
  unfold asyncHandler, createUser, bind, query, ret, throw, User_create,
    attempt, createFields.
  destruct (User.f_email body) as [email |]; [| reflexivity].
  destruct (User.findOneByEmail _ _); [reflexivity |].
  destruct (User.f_name body) as [name |]; [| reflexivity].
  destruct (User.create _ _ _ _) as [e | [d us]]; reflexivity.
Qed.

Lemma create_error (id : ObjectId) (now : Date) (f : User.fields)
    (us : list User.doc) (e : Thrown) :
  User.create id now f us = inl e -> e = ValidationError \/ e = DuplicateKey.
Proof.
  unfold User.create. destruct (negb _).
  - intros E; inversion E; auto.
  - destruct (User.email_taken _ _ _); intros E; inversion E; auto.
Qed.

Lemma in_enum_truthy (l : list string) (x : string) :
  ~ In EmptyString l -> User.in_enum l (Some x) = true ->
  JS.truthy_str (Some x) = true.
Proof.
  intros Hl Hx. simpl in Hx. unfold Str.mem in Hx.
  apply existsb_exists in Hx. destruct Hx as (y & Hy & E).
  apply String.eqb_eq in E. subst y.
  destruct x; [contradiction | reflexivity].
Qed.

(** A document that passes the validation has a name, an e-mail and an
    activity level when the level is given, so that at least three of the
    seven fields count. *)
Lemma validate_completedFields (d : User.doc) (a : string) :
  User.validate d = true -> User.activityLevel d = Some a ->
  3 <= User.completedFields d.
Proof.
  unfold User.validate. rewrite !andb_true_iff.
  intros (((((((((Hn & _) & He) & _) & _) & _) & _) & _) & Ha) & _) Ea.
  rewrite Ea in Ha.
  apply (in_enum_truthy User.activityLevels a) in Ha.
  - unfold User.completedFields, User.count_if.
    rewrite Hn, He, Ea, Ha.
    repeat match goal with |- context [if ?b then _ else _] => destruct b end;
      lia.
  - simpl. intros [E | [E | [E | [E | [E | []]]]]]; discriminate E.
Qed.

Lemma validate_preSave (d : User.doc) :
  User.validate d = true -> User.validate (User.preSave d) = true.
Proof.
  unfold User.validate. rewrite !andb_true_iff.
  intros (H & _). split; [exact H |].
  rewrite preSave_profileCompletion.
  pose proof (completedFields_bounds d) as B.
  assert (E : User.completedFields d = 0 \/ User.completedFields d = 1
              \/ User.completedFields d = 2 \/ User.completedFields d = 3
              \/ User.completedFields d = 4 \/ User.completedFields d = 5
              \/ User.completedFields d = 6 \/ User.completedFields d = 7)
    by lia.
  destruct E as [E | [E | [E | [E | [E | [E | [E | E]]]]]]];
    rewrite E; reflexivity.
Qed.

(** The ends of [createUser], with the user that a 201 stores. *)
Lemma createUser_ends (now : Date) (body : User.fields) (s : Store) :
  let r := fst (asyncHandler (createUser now body) s) in
  let s' := snd (asyncHandler (createUser now body) s) in
  (status r = 201
   /\ exists u name email,
        data_of r = UserData u
        /\ users s' = users s ++ [u]
        /\ workouts s' = workouts s
        /\ nextId s' = S (nextId s)
        /\ User._id u = nextId s
        /\ User.f_name body = Some name
        /\ User.f_email body = Some email
        /\ User.name u = Some (Str.trim (Str.trim name))
        /\ User.email u
           = Some (Str.trim (Str.toLowerCase
                               (Str.trim (Str.toLowerCase email))))
        /\ User.isActive u = true
        /\ User.createdAt u = now
        /\ User.validate u = true
        /\ (inject_Z 43 <= User.profileCompletion u)%Q
        /\ (User.profileCompletion u <= inject_Z 100)%Q)
  \/ ((status r = 400 \/ status r = 409 \/ status r = 500) /\ s' = s).
Proof.
  rewrite createUser_cases.
  destruct (User.f_email body) as [email |]; [| right; simpl; auto].
  destruct (User.findOneByEmail _ _); [right; simpl; auto |].
  destruct (User.f_name body) as [name |]; [| right; simpl; auto].
  destruct (User.create _ _ _ _) as [e | [d us]] eqn:Ec.
  - right. destruct (create_error _ _ _ _ _ Ec) as [-> | ->]; simpl; auto.
  - left. simpl. split; [reflexivity |].
    exists d, name, email.
    pose proof (create_profileCompletion _ _ _ _ _ _ Ec) as [_ Hpc].
    unfold User.create in Ec.
    destruct (User.validate _) eqn:Hval; [| discriminate]. cbn [negb] in Ec.
    destruct (User.email_taken _ _ _); [discriminate |].
    inversion Ec; subst d us; clear Ec.
    pose proof (validate_completedFields _ _ Hval eq_refl) as H3.
    pose proof (completedFields_bounds
                  (User.new (nextId s) now (createFields name email body)))
      as B.
    repeat split; try reflexivity.
    + now apply validate_preSave.
    + rewrite Hpc, preSave_completedFields. rewrite <- Zle_Qle.
      set (c := User.completedFields _) in *.
      assert (E : c = 3 \/ c = 4 \/ c = 5 \/ c = 6 \/ c = 7) by lia.
      destruct E as [E | [E | [E | [E | E]]]]; rewrite E; simpl; lia.
    + rewrite Hpc, preSave_completedFields. rewrite <- Zle_Qle.
      set (c := User.completedFields _) in *.
      assert (E : c = 3 \/ c = 4 \/ c = 5 \/ c = 6 \/ c = 7) by lia.
      destruct E as [E | [E | [E | [E | E]]]]; rewrite E; simpl; lia.
Qed.

(** X6. [createUser] either answers 201 and adds one user at the end of
    the collection, or answers 400, 409 or 500 and leaves the store as it
    was.  The user of a 201 has the next id, the body's name trimmed and
    its e-mail in lower case and trimmed, is active, passes the schema
    validation and has a profile completion between 43 and 100. *)
Theorem createUser_outcomes (now : Date) (body : User.fields) (s : Store) :
  let r := fst (asyncHandler (createUser now body) s) in
  let s' := snd (asyncHandler (createUser now body) s) in
  (status r = 201
   /\ exists u name email,
        data_of r = UserData u
        /\ users s' = users s ++ [u]
        /\ workouts s' = workouts s
        /\ nextId s' = S (nextId s)
        /\ User._id u = nextId s
        /\ User.f_name body = Some name
        /\ User.f_email body = Some email
        /\ User.name u = Some (Str.trim (Str.trim name))
        /\ User.email u
           = Some (Str.trim (Str.toLowerCase
                               (Str.trim (Str.toLowerCase email))))
        /\ User.isActive u = true
        /\ User.createdAt u = now
        /\ User.validate u = true
        /\ (inject_Z 43 <= User.profileCompletion u)%Q
        /\ (User.profileCompletion u <= inject_Z 100)%Q)
  \/ ((status r = 400 \/ status r = 409 \/ status r = 500) /\ s' = s).
Proof. exact (createUser_ends now body s). Qed.

End UserHandlerFacts.

Section UserLifecycleFacts.

Lemma find_snoc {A} (p : A -> bool) (l : list A) (x : A) :
  find p (l ++ [x])
  = match find p l with
    | Some y => Some y
    | None => if p x then Some x else None
    end.
Proof.
  induction l as [| a l IH]; simpl; [reflexivity |].
  destruct (p a); [reflexivity | exact IH].
Qed.

Lemma getUserById_cases (id : ObjectId) (s : Store) :
  asyncHandler (getUserById id) s
  = match User.findById (users s) id with
    | Some u => (sendSuccess 200 (UserData u) None, s)
    | None => (sendNotFound, s)
    end.
Proof.
  unfold asyncHandler, getUserById, bind, query, ret.
  destruct (User.findById (users s) id); reflexivity.
Qed.

(** X7. [createUser] stores no second user under an e-mail: when a stored
    user has the body's e-mail in lower case the answer is 409 on the
    field [email]; when a stored user has it in lower case and trimmed,
    the answer is not a 201; in both cases the store is as it was. *)
Theorem createUser_taken_email (now : Date) (body : User.fields) (s : Store)
    (u : User.doc) (email : string) :
  ids_ok s ->
  In u (users s) ->
  User.f_email body = Some email ->
  (User.email u = Some (Str.toLowerCase email) ->
   asyncHandler (createUser now body) s = (sendConflict "email", s))
  /\ (User.email u
      = Some (Str.trim (Str.toLowerCase (Str.trim (Str.toLowerCase email)))) ->
      status (fst (asyncHandler (createUser now body) s)) <> 201
      /\ snd (asyncHandler (createUser now body) s) = s).
Proof.
  intros (Hids & _) Hu Ee. rewrite createUser_cases, Ee. split.
  - intros Eu.
    destruct (find_present
                (fun x => Str.opt_eqb (User.email x)
                            (Some (Str.toLowerCase email)))
                (users s) u Hu) as (y & Ey & _).
    { rewrite Eu. simpl. apply String.eqb_refl. }
    unfold User.findOneByEmail. now rewrite Ey.
  - intros Eu.
    destruct (User.findOneByEmail _ _); [split; [discriminate | reflexivity] |].
    destruct (User.f_name body) as [name |];
      [| split; [discriminate | reflexivity]].
    unfold User.create.
    destruct (negb _); [split; [discriminate | reflexivity] |].
    assert (T : User.email_taken (users s) (nextId s)
                  (User.email (User.preSave
                     (User.new (nextId s) now
                        (createFields name email body)))) = true).
    { simpl. apply existsb_exists. exists u. split; [exact Hu |].
      rewrite Eu. simpl. rewrite String.eqb_refl, andb_true_r.
      apply negb_true_iff, Nat.eqb_neq.
      specialize (Hids u Hu). lia. }
    rewrite T. split; [discriminate | reflexivity].
Qed.

Lemma createUser_taken_email_witness :
  asyncHandler
    (createUser 2000
       (User.mkFields (Some "Jane"%string) (Some "JANE@x.io"%string)
          None None None None None None None)) janeStore
  = (sendConflict "email", janeStore).
Proof.
  apply (createUser_taken_email 2000 _ janeStore userJane "JANE@x.io");
    [| simpl; auto | reflexivity | reflexivity].
  repeat split; simpl.
  - intros u [<- | []]; simpl; lia.
  - intros w [<- | []]; simpl; lia.
  - repeat constructor; simpl; auto.
  - repeat constructor; simpl; auto.
Defined.

(** X8. After a 201 of [createUser] on a store whose ids are below the
    next id, [getUserById] with the id of the new user answers 200 with
    that user, and answers for every other id what it answered before. *)
Theorem createUser_then_getUserById (now : Date) (body : User.fields)
    (s : Store) :
  ids_ok s ->
  status (fst (asyncHandler (createUser now body) s)) = 201 ->
  let s' := snd (asyncHandler (createUser now body) s) in
  exists u,
    data_of (fst (asyncHandler (createUser now body) s)) = UserData u
    /\ asyncHandler (getUserById (User._id u)) s'
       = (sendSuccess 200 (UserData u) None, s')
    /\ forall id, id <> User._id u ->
         fst (asyncHandler (getUserById id) s')
         = fst (asyncHandler (getUserById id) s).
Proof.
  intros (Hids & _) H201.
  destruct (createUser_ends now body s)
    as [(_ & u & name & email & Hd & Hus & _ & _ & Hid & _)
       | ([E | [E | E]] & _)];
    try (rewrite E in H201; discriminate).
  cbv zeta. exists u. split; [exact Hd |].
  rewrite !getUserById_cases, Hus. unfold User.findById.
  split.
  - rewrite (find_snoc (fun x => (User._id x =? User._id u)%nat) (users s) u).
    rewrite Nat.eqb_refl.
    rewrite find_absent; [reflexivity |].
    intros x Hx. apply Nat.eqb_neq. specialize (Hids x Hx). lia.
  - intros id Hne. rewrite !getUserById_cases, Hus. unfold User.findById.
    simpl fst.
    rewrite (find_snoc (fun x => (User._id x =? id)%nat) (users s) u).
    destruct (find _ (users s)); [reflexivity |].
    destruct (Nat.eqb_spec (User._id u) id); [congruence | reflexivity].
Qed.

Lemma createUser_then_getUserById_witness :
  exists u,
    data_of (fst (asyncHandler (createUser 1000 bodyAl) emptyStore))
    = UserData u
    /\ asyncHandler (getUserById (User._id u))
         (snd (asyncHandler (createUser 1000 bodyAl) emptyStore))
       = (sendSuccess 200 (UserData u) None,
          snd (asyncHandler (createUser 1000 bodyAl) emptyStore))
    /\ forall id, id <> User._id u ->
         fst (asyncHandler (getUserById id)
                (snd (asyncHandler (createUser 1000 bodyAl) emptyStore)))
         = fst (asyncHandler (getUserById id) emptyStore).
Proof.
  apply (createUser_then_getUserById 1000 bodyAl emptyStore);
    [| reflexivity].
  repeat split; simpl; try (intros ? []); constructor.
Defined.

Lemma deleteUser_cases (id : ObjectId) (s : Store) :
  asyncHandler (deleteUser id) s
  = match User.findById (users s) id with
    | None => (sendNotFound, s)
    | Some _ =>
        let n := Workout.countDocuments (Workout.of_user id) (workouts s) in
        if 0 <? n
        then ({| status := 409;
                 body := Json false (DeleteBlocked n) None [] |}, s)
        else (sendNoContent,
              mkStore (User.findByIdAndDelete id (users s)) (workouts s)
                (nextId s))
    end.
Proof.
  unfold asyncHandler, deleteUser, bind, query, ret, put_users.
  destruct (User.findById (users s) id); [| reflexivity].
  destruct (0 <? _); reflexivity.
Qed.

(** X9. [deleteUser] answers 404 and changes nothing when no stored user
    has the id.  For a stored user who owns no workout it answers 204 and
    removes the users of that id, and only them; the workouts are as they
    were, and [getUserById] with that id then answers 404. *)
Theorem deleteUser_outcomes (id : ObjectId) (s : Store) :
  ((forall u, In u (users s) -> User._id u <> id) ->
   asyncHandler (deleteUser id) s = (sendNotFound, s))
  /\ (forall u,
        In u (users s) -> User._id u = id ->
        (forall w, In w (workouts s) -> Workout.userId w <> Some id) ->
        exists s',
          asyncHandler (deleteUser id) s = (sendNoContent, s')
          /\ workouts s' = workouts s
          /\ nextId s' = nextId s
          /\ (forall v, In v (users s')
                        <-> In v (users s) /\ User._id v <> id)
          /\ asyncHandler (getUserById id) s' = (sendNotFound, s')).
Proof.
  split.
  - intros Hno. rewrite deleteUser_cases.
    now rewrite (findById_absent (users s) id Hno).
  - intros u Hu Eu Hnone.
    destruct (find_present (fun x => (User._id x =? id)%nat) (users s) u Hu)
      as (u' & Eu' & _); [now apply Nat.eqb_eq |].
    rewrite deleteUser_cases. unfold User.findById at 1. rewrite Eu'.
    assert (E0 : Workout.countDocuments (Workout.of_user id) (workouts s) = 0).
    { unfold Workout.countDocuments. rewrite filter_none; [reflexivity |].
      intros w Hw. unfold Workout.of_user.
      destruct (Workout.userId w) as [i |] eqn:Ei; [| reflexivity].
      apply Nat.eqb_neq. intros ->. now apply (Hnone w Hw). }
    cbv zeta. rewrite E0. simpl.
    eexists. split; [reflexivity |]. simpl.
    split; [reflexivity |]. split; [reflexivity |]. split.
    + intros v. unfold User.findByIdAndDelete. rewrite filter_In.
      rewrite negb_true_iff, Nat.eqb_neq. tauto.
    + rewrite getUserById_cases. simpl.
      rewrite findById_absent; [reflexivity |].
      intros v Hv. unfold User.findByIdAndDelete in Hv.
      apply filter_In in Hv. destruct Hv as [_ Hv].
      now apply negb_true_iff, Nat.eqb_neq in Hv.
Qed.

Lemma deleteUser_outcomes_witness :
  exists s',
    asyncHandler (deleteUser 0%nat) (mkStore [userJane] [] 1%nat)
    = (sendNoContent, s')
    /\ workouts s' = []
    /\ nextId s' = 1%nat
    /\ (forall v, In v (users s')
                  <-> In v [userJane] /\ User._id v <> 0%nat)
    /\ asyncHandler (getUserById 0%nat) s' = (sendNotFound, s').
Proof.
  apply (proj2 (deleteUser_outcomes 0%nat (mkStore [userJane] [] 1%nat))
           userJane); simpl; auto.
Defined.

End UserLifecycleFacts.

Section UserUpdateFacts.

Lemma updateUser_cases (now : Date) (id : ObjectId) (body : User.fields)
    (s : Store) :
  asyncHandler (updateUser now id body) s
  = match User.findById (users s) id with
    | None => (sendNotFound, s)
    | Some existing =>
        match emailExists body existing (users s) with
        | Some _ => (sendConflict "email", s)
        | None =>
            match User.findByIdAndUpdate now id (cleanUpdateData body)
                    (users s) with
            | inl e => (errorHandler e, s)
            | inr (Some u', us) =>
                (sendSuccess 200 (UserData u') None,
                 mkStore us (workouts s) (nextId s))
            | inr (None, us) =>
                (errorHandler OtherError, mkStore us (workouts s) (nextId s))
            end
        end
    end.
Proof.
  unfold asyncHandler, updateUser, bind, query, ret, throw, lift, put_users.
  destruct (User.findById (users s) id) as [existing |]; [| reflexivity].
  fold (emailExists body existing (users s)).
  destruct (emailExists body existing (users s)); [reflexivity |].
  fold (cleanUpdateData body).
  destruct (User.findByIdAndUpdate _ _ _ _) as [e | [[u' |] us]];
    reflexivity.
Qed.

Lemma findByIdAndUpdate_found (now : Date) (id : ObjectId) (f : User.fields)
    (us : list User.doc) (u : User.doc) :
  User.findById us id = Some u ->
  (exists e, User.findByIdAndUpdate now id f us = inl e
             /\ (e = ValidationError \/ e = DuplicateKey))
  \/ User.findByIdAndUpdate now id f us
     = inr (Some (User.apply_update now f u),
            User.replace (User.apply_update now f u) us).
Proof.
  intros Eu. unfold User.findByIdAndUpdate. rewrite Eu.
  destruct (negb _); [left; eauto |].
  destruct (User.email_taken _ _ _); [left; eauto | now right].
Qed.

Lemma replace_ids (d' : User.doc) (us : list User.doc) :
  map User._id (User.replace d' us) = map User._id us.
Proof.
  unfold User.replace. rewrite map_map. apply map_ext. intros u.
  destruct (Nat.eqb_spec (User._id u) (User._id d')); congruence.
Qed.

Lemma replace_other (d' : User.doc) (us : list User.doc) (v : User.doc) :
  In v (User.replace d' us) -> User._id v <> User._id d' -> In v us.
Proof.
  unfold User.replace. rewrite in_map_iff. intros (u & Ev & Hu) Hne.
  destruct (Nat.eqb_spec (User._id u) (User._id d')); subst; tauto.
Qed.

Lemma replace_present (d' : User.doc) (us : list User.doc) (u : User.doc) :
  In u us -> User._id u = User._id d' -> In d' (User.replace d' us).
Proof.
  intros Hu Eid. unfold User.replace. apply in_map_iff. exists u.
  split; [| exact Hu]. now rewrite Eid, Nat.eqb_refl.
Qed.

Lemma store_eta (s : Store) :
  mkStore (users s) (workouts s) (nextId s) = s.
Proof. destruct s; reflexivity. Qed.

(** X10. [updateUser] never touches the workouts nor the ids of the users,
    and changes the store only when it answers 200; it answers 404 when no
    stored user has the id.  In a 200 the stored user of that id is
    replaced by the answered one, which keeps its id and its creation
    date, has the time of the call as its update date, keeps every field
    that the body does not name and takes the age, weight and height that
    the body names; the users of another id are as they were. *)
Theorem updateUser_outcomes (now : Date) (id : ObjectId) (body : User.fields)
    (s : Store) :
  let r := fst (asyncHandler (updateUser now id body) s) in
  let s' := snd (asyncHandler (updateUser now id body) s) in
  workouts s' = workouts s
  /\ nextId s' = nextId s
  /\ map User._id (users s') = map User._id (users s)
  /\ (status r <> 200 -> s' = s)
  /\ ((forall u, In u (users s) -> User._id u <> id) -> status r = 404)
  /\ (forall v, In v (users s') -> User._id v <> id -> In v (users s))
  /\ (status r = 200 ->
      exists u u',
        User.findById (users s) id = Some u
        /\ data_of r = UserData u' /\ In u' (users s')
        /\ User._id u' = id
        /\ User.createdAt u' = User.createdAt u
        /\ User.updatedAt u' = now
        /\ (User.f_name body = None -> User.name u' = User.name u)
        /\ (User.f_email body = None -> User.email u' = User.email u)
        /\ (User.f_fitnessGoal body = None ->
            User.fitnessGoal u' = User.fitnessGoal u)
        /\ (User.f_activityLevel body = None ->
            User.activityLevel u' = User.activityLevel u)
        /\ (User.f_isActive body = None -> User.isActive u' = User.isActive u)
        /\ (User.f_profileCompletion body = None ->
            User.profileCompletion u' = User.profileCompletion u)
        /\ User.age u' = match User.f_age body with
                         | Some x => Some x | None => User.age u end
        /\ User.weight u' = match User.f_weight body with
                            | Some x => Some x | None => User.weight u end
        /\ User.height u' = match User.f_height body with
                            | Some x => Some x | None => User.height u end).
Proof.
  rewrite updateUser_cases.
  destruct (User.findById (users s) id) as [u |] eqn:Eu.
  2:{ simpl. repeat apply conj; try reflexivity; try discriminate; auto. }
  assert (Hid : User._id u = id /\ In u (users s)).
  { unfold User.findById in Eu. apply find_some in Eu.
    destruct Eu as [Hin E]. now apply Nat.eqb_eq in E. }
  destruct Hid as [Hid Hin].
  assert (H404 : (forall x, In x (users s) -> User._id x <> id) -> False)
    by (intros Hno; exact (Hno u Hin Hid)).
  destruct (emailExists body u (users s)).
  { simpl. repeat apply conj; try reflexivity; try discriminate; auto.
    intros Hno; destruct (H404 Hno). }
  destruct (findByIdAndUpdate_found now id (cleanUpdateData body) (users s) u Eu)
    as [(e & -> & He) | ->].
  { simpl. repeat apply conj; try reflexivity; auto;
      try (intros Hno; destruct (H404 Hno)).
    destruct He as [-> | ->]; discriminate. }
  set (u' := User.apply_update now (cleanUpdateData body) u).
  assert (Hid' : User._id u' = id) by exact Hid.
  simpl. repeat apply conj; try reflexivity.
  - apply replace_ids.
  - intros X; now destruct X.
  - intros Hno; destruct (H404 Hno).
  - intros v Hv Hne. apply (replace_other u'); [exact Hv | congruence].
  - intros _. exists u, u'. repeat apply conj; try reflexivity.
    + apply (replace_present u' (users s) u Hin). congruence.
    + exact Hid'.
    + intros E. unfold u', User.apply_update, cleanUpdateData; simpl.
      now rewrite E.
    + intros E. unfold u', User.apply_update, cleanUpdateData; simpl.
      now rewrite E.
    + intros E. unfold u', User.apply_update; simpl. now rewrite E.
    + intros E. unfold u', User.apply_update; simpl. now rewrite E.
    + intros E. unfold u', User.apply_update; simpl. now rewrite E.
    + intros E. unfold u', User.apply_update; simpl. now rewrite E.
Qed.

End UserUpdateFacts.

(* ===================================================================== *)
(** * The workout handlers *)
(* ===================================================================== *)

Section WorkoutHandlerFacts.
Context `{ChangeTracking}.

Lemma createWorkout_cases (now : Date) (body : Workout.fields) (s : Store) :
  asyncHandler (createWorkout now body) s
  = match ownerOf body (users s) with
    | None => (errorHandler (AppError 404), s)
    | Some _ =>
        match Workout.create (nextId s) now (workoutFields now body)
                (workouts s) with
        | inr (d, ws) =>
            (sendSuccess 201 (WorkoutData d) None,
             mkStore (users s) ws (S (nextId s)))
        | inl e => (errorHandler e, s)
        end
    end.
Proof.
  unfold asyncHandler, createWorkout, bind, query, ret, throw, Workout_create,
    attempt.
  fold (ownerOf body (users s)). fold (workoutFields now body).
  destruct (ownerOf body (users s)) as [owner |]; [| reflexivity].
  destruct (Workout.create _ _ _ _) as [e | [d ws]]; reflexivity.
Qed.

Lemma validate_workoutDate (now : Date) (d : Workout.doc) :
  Workout.validate now d = true ->
  exists t, Workout.workoutDate d = Some t /\ t <= now.
Proof.
  unfold Workout.validate. rewrite !andb_true_iff.
  intros ((_ & Hd) & _). unfold Workout.valid_date in Hd.
  destruct (Workout.workoutDate d) as [t |]; [| discriminate].
  exists t. split; [reflexivity |]. now apply Z.leb_le.
Qed.

Lemma validate_preSave_workout (now : Date) (d : Workout.doc) :
  Workout.validate now d = true -> Workout.preSave now d = d.
Proof.
  intros Hv. destruct (validate_workoutDate now d Hv) as (t & Et & _).
  unfold Workout.preSave. now rewrite Et.
Qed.

(** The ends of [createWorkout], with the workout that a 201 stores. *)
Lemma createWorkout_ends (now : Date) (body : Workout.fields)
    (s : Store) :
  let r := fst (asyncHandler (createWorkout now body) s) in
  let s' := snd (asyncHandler (createWorkout now body) s) in
  users s' = users s
  /\ ((status r = 201
       /\ exists u d,
            In u (users s)
            /\ Workout.f_userId body = Some (User._id u)
            /\ data_of r = WorkoutData d
            /\ workouts s' = workouts s ++ [d]
            /\ nextId s' = S (nextId s)
            /\ Workout._id d = nextId s
            /\ Workout.userId d = Some (User._id u)
            /\ Workout.validate now d = true
            /\ Workout.completed d
               = User.or_else (Workout.f_completed body) true
            /\ Workout.workoutDate d
               = Some (Workout.date_of
                         (Workout.or_now (Workout.f_workoutDate body) now))
            /\ (Workout.truthy_date (Workout.f_workoutDate body) = false ->
                Workout.workoutDate d = Some now)
            /\ Workout.intensity d
               = Some (User.or_else (Workout.f_intensity body)
                         "moderate"%string))
      \/ ((status r = 404 \/ status r = 400) /\ s' = s)).
Proof.
  rewrite createWorkout_cases.
  destruct (ownerOf body (users s)) as [u |] eqn:Eo;
    [| simpl; split; [reflexivity | right; auto]].
  unfold Workout.create.
  destruct (Workout.validate now _) eqn:Hv;
    [| simpl; split; [reflexivity | right; auto]].
  cbn [negb]. rewrite (validate_preSave_workout _ _ Hv). simpl.
  split; [reflexivity |]. left. split; [reflexivity |].
  unfold ownerOf in Eo.
  destruct (Workout.f_userId body) as [uid |] eqn:Euid; [| discriminate].
  unfold User.findById in Eo. apply find_some in Eo.
  destruct Eo as [Hin Eid]. apply Nat.eqb_eq in Eid. subst uid.
  exists u. eexists. split; [exact Hin |]. split; [reflexivity |].
  split; [reflexivity |]. split; [reflexivity |].
  repeat split; try reflexivity; try exact Hv.
  - simpl. now rewrite Euid.
  - simpl. unfold Workout.or_now. intros Et.
    destruct (Workout.f_workoutDate body); [rewrite Et |]; reflexivity.
Qed.

(** X11. [createWorkout] either answers 201 and adds one workout at the
    end of the collection, or answers 404 or 400 and leaves the store as
    it was; the users are never changed.  The workout of a 201 names a
    stored user, has the next id, passes the schema validation, is
    completed unless the body says otherwise, has the date of the body,
    or the time of the call when the body has no date or the number 0 for
    it, and has the intensity [moderate] unless the body gives one. *)
Theorem createWorkout_outcomes (now : Date) (body : Workout.fields)
    (s : Store) :
  let r := fst (asyncHandler (createWorkout now body) s) in
  let s' := snd (asyncHandler (createWorkout now body) s) in
  users s' = users s
  /\ ((status r = 201
       /\ exists u d,
            In u (users s)
            /\ Workout.f_userId body = Some (User._id u)
            /\ data_of r = WorkoutData d
            /\ workouts s' = workouts s ++ [d]
            /\ nextId s' = S (nextId s)
            /\ Workout._id d = nextId s
            /\ Workout.userId d = Some (User._id u)
            /\ Workout.validate now d = true
            /\ Workout.completed d
               = User.or_else (Workout.f_completed body) true
            /\ Workout.workoutDate d
               = Some (Workout.date_of
                         (Workout.or_now (Workout.f_workoutDate body) now))
            /\ (Workout.truthy_date (Workout.f_workoutDate body) = false ->
                Workout.workoutDate d = Some now)
            /\ Workout.intensity d
               = Some (User.or_else (Workout.f_intensity body)
                         "moderate"%string))
      \/ ((status r = 404 \/ status r = 400) /\ s' = s)).
Proof. exact (createWorkout_ends now body s). Qed.

End WorkoutHandlerFacts.

Section WorkoutUpdateFacts.
Context `{ChangeTracking}.

Lemma updateWorkout_cases (now : Date) (id : ObjectId) (body : Workout.fields)
    (otherKeys : bool) (s : Store) :
  asyncHandler (updateWorkout now id body otherKeys) s
  = if no_key body otherKeys then (errorHandler (AppError 400), s)
    else
      match Workout.findById (workouts s) id with
      | None => (errorHandler (AppError 404), s)
      | Some w =>
          match reassignCheck body w (users s) with
          | Some e => (errorHandler e, s)
          | None =>
              match Workout.save now (isModified w (Workout.assign body w))
                      (Workout.assign body w) (workouts s) with
              | inr (d', ws) =>
                  (sendSuccess 200 (WorkoutData d') None,
                   mkStore (users s) ws (nextId s))
              | inl e => (errorHandler e, s)
              end
          end
      end.
Proof.
  unfold asyncHandler, updateWorkout, reassignCheck.
  destruct (no_key body otherKeys); [reflexivity |].
  unfold bind, query, ret, throw, Workout_save, attempt.
  destruct (Workout.findById (workouts s) id) as [w |]; [| reflexivity].
  destruct (Workout.f_userId body) as [newUserId |].
  - destruct (Workout.userId w) as [oldUserId |]; [| reflexivity].
    destruct (negb _).
    + destruct (User.findById (users s) newUserId); [| reflexivity].
      destruct (Workout.save _ _ _ _) as [e | [d' ws]]; reflexivity.
    + destruct (Workout.save _ _ _ _) as [e | [d' ws]]; reflexivity.
  - destruct (Workout.save _ _ _ _) as [e | [d' ws]]; reflexivity.
Qed.

Lemma reassignCheck_status (body : Workout.fields) (w : Workout.doc)
    (us : list User.doc) (e : Thrown) :
  reassignCheck body w us = Some e -> errorStatus e <> 200.
Proof.
  unfold reassignCheck.
  destruct (Workout.f_userId body); [| discriminate].
  destruct (Workout.userId w); [| intros E; inversion E; discriminate].
  destruct (negb _); [| discriminate].
  destruct (User.findById _ _); [discriminate |].
  intros E; inversion E; discriminate.
Qed.

Lemma workout_replace_ids (d' : Workout.doc) (ws : list Workout.doc) :
  map Workout._id (Workout.replace d' ws) = map Workout._id ws.
Proof.
  unfold Workout.replace. rewrite map_map. apply map_ext. intros w.
  destruct (Nat.eqb_spec (Workout._id w) (Workout._id d')); congruence.
Qed.

Lemma workout_replace_present (d' : Workout.doc) (ws : list Workout.doc)
    (w : Workout.doc) :
  In w ws -> Workout._id w = Workout._id d' -> In d' (Workout.replace d' ws).
Proof.
  intros Hw Eid. unfold Workout.replace. apply in_map_iff. exists w.
  split; [| exact Hw]. now rewrite Eid, Nat.eqb_refl.
Qed.

Lemma workout_replace_other (d' : Workout.doc) (ws : list Workout.doc)
    (v : Workout.doc) :
  In v (Workout.replace d' ws) -> v = d' \/ In v ws.
Proof.
  unfold Workout.replace. rewrite in_map_iff. intros (w & Ev & Hw).
  destruct (Nat.eqb_spec (Workout._id w) (Workout._id d')); subst; auto.
Qed.

(** The document that a save writes: the assigned one, with the update
    date that the change tracking decides. *)
Lemma save_written (now : Date) (m : bool) (d d' : Workout.doc)
    (ws ws' : list Workout.doc) :
  Workout.save now m d ws = inr (d', ws') ->
  Workout.validate now d = true
  /\ d' = (if m then Workout.set_updatedAt now d else d)
  /\ ws' = Workout.replace d' ws.
Proof.
  unfold Workout.save.
  destruct (Workout.validate now d) eqn:Hv; [| discriminate]. cbn [negb].
  rewrite (validate_preSave_workout now d Hv).
  intros E; inversion E; subst. auto.
Qed.

Lemma workout_findById_some (ws : list Workout.doc) (id : ObjectId)
    (w : Workout.doc) :
  Workout.findById ws id = Some w -> In w ws /\ Workout._id w = id.
Proof.
  unfold Workout.findById. intros E. apply find_some in E.
  destruct E as [Hin E]. now apply Nat.eqb_eq in E.
Qed.

Lemma workout_findById_absent (ws : list Workout.doc) (id : ObjectId) :
  (forall w, In w ws -> Workout._id w <> id) -> Workout.findById ws id = None.
Proof.
  intros Hno. apply find_absent. intros w Hw.
  apply Nat.eqb_neq. now apply Hno.
Qed.

(** X12. [updateWorkout] never touches the users nor the ids of the
    workouts, and changes the store only when it answers 200.  It answers
    400 to a body without key, 404 when no stored workout has the id, and
    404 when the body names a user other than the owner that is not
    stored.  In a 200 the workout of that id is replaced by the answered
    one, which keeps its id and its creation date, passes the schema
    validation, has the owner that the body names, if it names one, and
    keeps every field that the body does not name. *)
Theorem updateWorkout_outcomes (now : Date) (id : ObjectId)
    (body : Workout.fields) (otherKeys : bool) (s : Store) :
  let r := fst (asyncHandler (updateWorkout now id body otherKeys) s) in
  let s' := snd (asyncHandler (updateWorkout now id body otherKeys) s) in
  users s' = users s
  /\ nextId s' = nextId s
  /\ map Workout._id (workouts s') = map Workout._id (workouts s)
  /\ (status r <> 200 -> s' = s)
  /\ (no_key body otherKeys = true -> status r = 400)
  /\ (no_key body otherKeys = false ->
      (forall w, In w (workouts s) -> Workout._id w <> id) ->
      status r = 404)
  /\ (forall w old new,
        no_key body otherKeys = false ->
        Workout.findById (workouts s) id = Some w ->
        Workout.userId w = Some old ->
        Workout.f_userId body = Some new -> new <> old ->
        (forall u, In u (users s) -> User._id u <> new) ->
        status r = 404)
  /\ (status r = 200 ->
      exists w d',
        Workout.findById (workouts s) id = Some w
        /\ data_of r = WorkoutData d' /\ In d' (workouts s')
        /\ Workout._id d' = id
        /\ Workout.createdAt d' = Workout.createdAt w
        /\ Workout.validate now d' = true
        /\ Workout.userId d'
           = match Workout.f_userId body with
             | Some x => Some x | None => Workout.userId w end
        /\ Workout.completed d'
           = User.or_else (Workout.f_completed body) (Workout.completed w)
        /\ (Workout.f_title body = None ->
            Workout.title d' = Workout.title w)
        /\ (Workout.f_exerciseType body = None ->
            Workout.exerciseType d' = Workout.exerciseType w)
        /\ (Workout.f_duration body = None ->
            Workout.duration d' = Workout.duration w)
        /\ (Workout.f_caloriesBurned body = None ->
            Workout.caloriesBurned d' = Workout.caloriesBurned w)
        /\ (Workout.f_intensity body = None ->
            Workout.intensity d' = Workout.intensity w)
        /\ (Workout.f_notes body = None ->
            Workout.notes d' = Workout.notes w)
        /\ (Workout.f_workoutDate body = None ->
            Workout.workoutDate d' = Workout.workoutDate w)
        /\ (Workout.f_exercises body = None ->
            Workout.exercises d' = Workout.exercises w)).
Proof.
  rewrite updateWorkout_cases.
  destruct (no_key body otherKeys) eqn:Ek.
  { simpl. repeat apply conj; try reflexivity; try discriminate; auto. }
  destruct (Workout.findById (workouts s) id) as [w |] eqn:Ew.
  2:{ simpl. repeat apply conj; try reflexivity; try discriminate; auto. }
  destruct (workout_findById_some _ _ _ Ew) as [Hin Hid].
  assert (H404 : (forall x, In x (workouts s) -> Workout._id x <> id) -> False)
    by (intros Hno; exact (Hno w Hin Hid)).
  assert (Hre : forall w0 old new,
             Some w = Some w0 ->
             Workout.userId w0 = Some old ->
             Workout.f_userId body = Some new -> new <> old ->
             (forall u, In u (users s) -> User._id u <> new) ->
             reassignCheck body w (users s) = Some (AppError 404)).
  { intros w0 old new E Eo En Hne Hno. inversion E; subst w0.
    unfold reassignCheck. rewrite En, Eo.
    destruct (Nat.eqb_spec new old); [contradiction |]. simpl.
    now rewrite (findById_absent (users s) new Hno). }
  destruct (reassignCheck body w (users s)) as [e |] eqn:Ec.
  { pose proof (reassignCheck_status _ _ _ _ Ec) as Hs.
    simpl. repeat apply conj; try reflexivity; try discriminate; auto.
    - intros _ Hno; destruct (H404 Hno).
    - intros w0 old new _ E Eo En Hne Hno.
      specialize (Hre w0 old new E Eo En Hne Hno). now inversion Hre.
    - intros E; contradiction. }
  destruct (Workout.save _ _ _ _) as [e | [d' ws]] eqn:Es.
  { assert (e = ValidationError) as ->.
    { unfold Workout.save in Es. destruct (negb _); inversion Es.
      reflexivity. }
    simpl. repeat apply conj; try reflexivity; try discriminate; auto.
    - intros _ Hno; destruct (H404 Hno).
    - intros w0 old new _ E Eo En Hne Hno.
      specialize (Hre w0 old new E Eo En Hne Hno). discriminate. }
  destruct (save_written _ _ _ _ _ _ Es) as (Hv & Ed' & ->).
  assert (Hsame : forall {A} (f : Workout.doc -> A),
             (forall t x, f (Workout.set_updatedAt t x) = f x) ->
             f d' = f (Workout.assign body w)).
  { intros A f Hf. rewrite Ed'. destruct (isModified _ _); auto. }
  assert (Hid' : Workout._id d' = id).
  { rewrite (Hsame _ Workout._id) by reflexivity. exact Hid. }
  simpl. repeat apply conj; try reflexivity.
  - apply workout_replace_ids.
  - intros X; now destruct X.
  - discriminate.
  - intros _ Hno; destruct (H404 Hno).
  - intros w0 old new _ E Eo En Hne Hno.
    specialize (Hre w0 old new E Eo En Hne Hno). discriminate.
  - intros _. exists w, d'. repeat apply conj; try reflexivity.
    + apply (workout_replace_present d' (workouts s) w Hin). congruence.
    + exact Hid'.
    + now rewrite (Hsame _ Workout.createdAt).
    + rewrite Ed'. destruct (isModified _ _); exact Hv.
    + now rewrite (Hsame _ Workout.userId).
    + now rewrite (Hsame _ Workout.completed).
    + intros E. rewrite (Hsame _ Workout.title) by reflexivity.
      simpl. now rewrite E.
    + intros E. rewrite (Hsame _ Workout.exerciseType) by reflexivity.
      simpl. now rewrite E.
    + intros E. rewrite (Hsame _ Workout.duration) by reflexivity.
      simpl. now rewrite E.
    + intros E. rewrite (Hsame _ Workout.caloriesBurned) by reflexivity.
      simpl. now rewrite E.
    + intros E. rewrite (Hsame _ Workout.intensity) by reflexivity.
      simpl. now rewrite E.
    + intros E. rewrite (Hsame _ Workout.notes) by reflexivity.
      simpl. now rewrite E.
    + intros E. rewrite (Hsame _ Workout.workoutDate) by reflexivity.
      simpl. now rewrite E.
    + intros E. rewrite (Hsame _ Workout.exercises) by reflexivity.
      simpl. now rewrite E.
Qed.

End WorkoutUpdateFacts.

Section WorkoutReadFacts.

Lemma deleteWorkout_cases (id : ObjectId) (s : Store) :
  replyHandler (deleteWorkout id) s
  = match Workout.findById (workouts s) id with
    | None => ({| r_status := 404; r_data := None |}, s)
    | Some w =>
        ({| r_status := 200;
            r_data := Some (DeletedWorkout
              {| dr_id := Workout._id w; dr_title := Workout.title w;
                 dr_userId := Workout.userId w |}) |},
         mkStore (users s) (Workout.findByIdAndDelete id (workouts s))
           (nextId s))
    end.
Proof.
  unfold replyHandler, deleteWorkout, bind, query, ret, throw.
  destruct (Workout.findById (workouts s) id); reflexivity.
Qed.

Lemma getWorkoutById_cases (id : ObjectId) (s : Store) :
  replyHandler (getWorkoutById id) s
  = match Workout.findById (workouts s) id with
    | None => ({| r_status := 404; r_data := None |}, s)
    | Some w =>
        match match Workout.userId w with
              | Some uid => User.findById (users s) uid
              | None => None
              end with
        | None => ({| r_status := 500; r_data := None |}, s)
        | Some u =>
            ({| r_status := 200;
                r_data := Some (WorkoutDetail w
                  {| pu_id := User._id u; pu_name := User.name u;
                     pu_email := User.email u; pu_age := User.age u;
                     pu_weight := User.weight u;
                     pu_height := User.height u |}) |}, s)
        end
    end.
Proof.
  unfold replyHandler, getWorkoutById, bind, query, ret, throw.
  destruct (Workout.findById (workouts s) id) as [w |]; [| reflexivity].
  destruct (match Workout.userId w with
            | Some uid => User.findById (users s) uid
            | None => None
            end); reflexivity.
Qed.

(** X13. [deleteWorkout] answers 404 and changes nothing when no stored
    workout has the id; otherwise it answers 200 with the id, the title
    and the owner of a stored workout of that id and removes the workouts
    of that id, and only them, whoever owns them; the users are as they
    were, and [getWorkoutById] with that id then answers 404. *)
Theorem deleteWorkout_outcomes (id : ObjectId) (s : Store) :
  ((forall w, In w (workouts s) -> Workout._id w <> id) ->
   replyHandler (deleteWorkout id) s
   = ({| r_status := 404; r_data := None |}, s))
  /\ (forall w,
        In w (workouts s) -> Workout._id w = id ->
        exists w0 s',
          In w0 (workouts s) /\ Workout._id w0 = id
          /\ replyHandler (deleteWorkout id) s
             = ({| r_status := 200;
                   r_data := Some (DeletedWorkout
                     {| dr_id := id; dr_title := Workout.title w0;
                        dr_userId := Workout.userId w0 |}) |}, s')
          /\ users s' = users s
          /\ nextId s' = nextId s
          /\ (forall v, In v (workouts s')
                        <-> In v (workouts s) /\ Workout._id v <> id)
          /\ fst (replyHandler (getWorkoutById id) s')
             = {| r_status := 404; r_data := None |}).
Proof.
  split.
  - intros Hno. rewrite deleteWorkout_cases.
    now rewrite (workout_findById_absent _ _ Hno).
  - intros w Hw Ew.
    destruct (find_present (fun x => (Workout._id x =? id)%nat)
                (workouts s) w Hw) as (w0 & E0 & _);
      [now apply Nat.eqb_eq |].
    destruct (workout_findById_some _ _ _ E0) as [Hin0 Hid0].
    exists w0. eexists. split; [exact Hin0 |]. split; [exact Hid0 |].
    rewrite deleteWorkout_cases. unfold Workout.findById at 1. rewrite E0.
    rewrite Hid0. split; [reflexivity |]. simpl.
    split; [reflexivity |]. split; [reflexivity |]. split.
    + intros v. unfold Workout.findByIdAndDelete. rewrite filter_In.
      rewrite negb_true_iff, Nat.eqb_neq. tauto.
    + rewrite getWorkoutById_cases. simpl.
      rewrite workout_findById_absent; [reflexivity |].
      intros v Hv. unfold Workout.findByIdAndDelete in Hv.
      apply filter_In in Hv. destruct Hv as [_ Hv].
      now apply negb_true_iff, Nat.eqb_neq in Hv.
Qed.

Lemma deleteWorkout_outcomes_witness :
  exists w0 s',
    In w0 (workouts janeStore) /\ Workout._id w0 = 1%nat
    /\ replyHandler (deleteWorkout 1%nat) janeStore
       = ({| r_status := 200;
             r_data := Some (DeletedWorkout
               {| dr_id := 1%nat; dr_title := Workout.title w0;
                  dr_userId := Workout.userId w0 |}) |}, s')
    /\ users s' = users janeStore
    /\ nextId s' = nextId janeStore
    /\ (forall v, In v (workouts s')
                  <-> In v (workouts janeStore) /\ Workout._id v <> 1%nat)
    /\ fst (replyHandler (getWorkoutById 1%nat) s')
       = {| r_status := 404; r_data := None |}.
Proof.
  apply (proj2 (deleteWorkout_outcomes 1%nat janeStore) plannedRun);
    simpl; auto.
Defined.

(** X14. [getWorkoutById] never changes the store.  It answers 404 when no
    stored workout has the id, 200 with a workout of that id and the
    profile of the stored user that owns it, and 500 when the workout is
    stored and its owner is not; on a store where every workout names a
    stored user it answers 200 or 404 only. *)
Theorem getWorkoutById_outcomes (id : ObjectId) (s : Store) :
  let r := fst (replyHandler (getWorkoutById id) s) in
  snd (replyHandler (getWorkoutById id) s) = s
  /\ ((forall w, In w (workouts s) -> Workout._id w <> id) ->
      r = {| r_status := 404; r_data := None |})
  /\ (forall w,
        Workout.findById (workouts s) id = Some w ->
        (forall u, In u (users s) -> Workout.userId w <> Some (User._id u)) ->
        r = {| r_status := 500; r_data := None |})
  /\ (forall w u,
        Workout.findById (workouts s) id = Some w ->
        In u (users s) -> Workout.userId w = Some (User._id u) ->
        exists u',
          In u' (users s) /\ User._id u' = User._id u
          /\ r = {| r_status := 200;
                    r_data := Some (WorkoutDetail w
                      {| pu_id := User._id u'; pu_name := User.name u';
                         pu_email := User.email u'; pu_age := User.age u';
                         pu_weight := User.weight u';
                         pu_height := User.height u' |}) |})
  /\ (refs_ok s -> r_status r = 200 \/ r_status r = 404).
Proof.
  rewrite getWorkoutById_cases.
  destruct (Workout.findById (workouts s) id) as [w |] eqn:Ew.
  2:{ simpl. repeat apply conj; try reflexivity; try discriminate; auto. }
  destruct (workout_findById_some _ _ _ Ew) as [Hin Hid].
  assert (Hown :
    forall u, In u (users s) -> Workout.userId w = Some (User._id u) ->
      exists u', In u' (users s) /\ User._id u' = User._id u
        /\ match Workout.userId w with
           | Some uid => User.findById (users s) uid
           | None => None
           end = Some u').
  { intros u Hu Eu. rewrite Eu.
    destruct (find_present (fun x => (User._id x =? User._id u)%nat)
                (users s) u Hu (Nat.eqb_refl _)) as (u' & Eu' & Hid').
    apply Nat.eqb_eq in Hid'. exists u'. split; [| split; auto].
    unfold User.findById in Eu'. now apply find_some in Eu'. }
  assert (Hnone :
    (forall u, In u (users s) -> Workout.userId w <> Some (User._id u)) ->
    match Workout.userId w with
    | Some uid => User.findById (users s) uid
    | None => None
    end = None).
  { intros Hno. destruct (Workout.userId w) as [uid |] eqn:Eu;
      [| reflexivity].
    apply findById_absent. intros u Hu E. apply (Hno u Hu). now rewrite E. }
  repeat apply conj.
  - destruct (match Workout.userId w with
              | Some uid => User.findById (users s) uid
              | None => None
              end); reflexivity.
  - intros Hno. destruct (Hno w Hin Hid).
  - intros w0 E Hno. inversion E; subst w0. now rewrite (Hnone Hno).
  - intros w0 u E Hu Eu. inversion E; subst w0.
    destruct (Hown u Hu Eu) as (u' & Hu' & Hid' & ->).
    exists u'. auto.
  - intros Hrefs. destruct (Hrefs w Hin) as (u & Hu & Eu).
    destruct (Hown u Hu Eu) as (u' & _ & _ & ->). now left.
Qed.

Lemma getWorkoutById_outcomes_witness :
  fst (replyHandler (getWorkoutById 1%nat) (mkStore [] [plannedRun] 2%nat))
  = {| r_status := 500; r_data := None |}.
Proof.
  apply (proj1 (proj2 (proj2
           (getWorkoutById_outcomes 1%nat (mkStore [] [plannedRun] 2%nat))))
           plannedRun); [reflexivity |].
  intros u [].
Defined.

(** X15. [getWorkoutsByUser] never changes the store.  It answers 404 when
    no stored user has the id; otherwise it answers 200 with the id, name
    and e-mail of a stored user of that id, with all the stored workouts
    of that user and no other, in the order of the latest date first, and
    with their number as the count. *)
Theorem getWorkoutsByUser_outcomes (id : ObjectId) (s : Store) :
  snd (replyHandler (getWorkoutsByUser id) s) = s
  /\ ((forall u, In u (users s) -> User._id u <> id) ->
      fst (replyHandler (getWorkoutsByUser id) s)
      = {| r_status := 404; r_data := None |})
  /\ (forall u,
        In u (users s) -> User._id u = id ->
        exists u' ws,
          fst (replyHandler (getWorkoutsByUser id) s)
          = {| r_status := 200;
               r_data := Some (UserWorkouts
                 {| ur_id := id; ur_name := User.name u';
                    ur_email := User.email u' |}
                 (Z.of_nat (List.length ws)) ws) |}
          /\ In u' (users s) /\ User._id u' = id
          /\ Permutation ws (filter (Workout.of_user id) (workouts s))
          /\ StronglySorted (holds later_or_equal) ws).
Proof.
  unfold replyHandler, getWorkoutsByUser, bind, query, ret, throw.
  destruct (User.findById (users s) id) as [u' |] eqn:Eu'.
  - simpl. split; [reflexivity |]. split.
    + intros Hno. unfold User.findById in Eu'. apply find_some in Eu'.
      destruct Eu' as [Hin E]. apply Nat.eqb_eq in E.
      destruct (Hno u' Hin E).
    + intros u Hu Eu.
      unfold User.findById in Eu'. apply find_some in Eu'.
      destruct Eu' as [Hin E]. apply Nat.eqb_eq in E.
      exists u', (Workout.findByUser id (workouts s)).
      rewrite E. split; [reflexivity |]. split; [exact Hin |].
      split; [reflexivity |]. split.
      * apply sort_by_perm.
      * apply sort_by_sorted;
          [apply later_or_equal_total | apply later_or_equal_trans].
  - simpl. split; [reflexivity |]. split; [reflexivity |].
    intros u Hu Eu.
    pose proof (find_none _ _ Eu' u Hu) as X. simpl in X.
    apply Nat.eqb_neq in X. contradiction.
Qed.

Lemma getWorkoutsByUser_outcomes_witness :
  exists u' ws,
    fst (replyHandler (getWorkoutsByUser 0%nat) janeStore)
    = {| r_status := 200;
         r_data := Some (UserWorkouts
           {| ur_id := 0%nat; ur_name := User.name u';
              ur_email := User.email u' |}
           (Z.of_nat (List.length ws)) ws) |}
    /\ In u' (users janeStore) /\ User._id u' = 0%nat
    /\ Permutation ws (filter (Workout.of_user 0%nat) (workouts janeStore))
    /\ StronglySorted (holds later_or_equal) ws.
Proof.
  apply (proj2 (proj2 (getWorkoutsByUser_outcomes 0%nat janeStore)) userJane);
    simpl; auto.
Defined.

End WorkoutReadFacts.

(* ===================================================================== *)
(** * Invariants of the store *)
(* ===================================================================== *)

Section InvariantFacts.
Context `{ChangeTracking}.

Lemma create_written (id : ObjectId) (now : Date) (f : User.fields)
    (us us' : list User.doc) (d : User.doc) :
  User.create id now f us = inr (d, us') ->
  us' = us ++ [d] /\ User._id d = id
  /\ User.email_taken us id (User.email d) = false
  /\ exists e, User.email d = Some e.
Proof.
  unfold User.create.
  destruct (User.validate _) eqn:Hv; [| discriminate]. cbn [negb].
  destruct (User.email_taken _ _ _) eqn:Et; [discriminate |].
  intros E; inversion E; subst. repeat split; try exact Et.
  unfold User.validate in Hv. rewrite !andb_true_iff in Hv.
  destruct Hv as ((((((((_ & He) & _) & _) & _) & _) & _) & _) & _).
  simpl. simpl in He. destruct (User.f_email f) as [e |]; [| discriminate].
  eexists; reflexivity.
Qed.

(** The step of each handler that writes. *)
Lemma createUser_step (now : Date) (body : User.fields) (s : Store) :
  let s' := snd (asyncHandler (createUser now body) s) in
  s' = s
  \/ exists u e,
       users s' = users s ++ [u] /\ workouts s' = workouts s
       /\ nextId s' = S (nextId s) /\ User._id u = nextId s
       /\ User.email u = Some e
       /\ User.email_taken (users s) (nextId s) (Some e) = false.
Proof.
  rewrite createUser_cases.
  destruct (User.f_email body) as [email |]; [| now left].
  destruct (User.findOneByEmail _ _); [now left |].
  destruct (User.f_name body) as [name |]; [| now left].
  destruct (User.create _ _ _ _) as [e | [d us]] eqn:Ec; [now left |].
  destruct (create_written _ _ _ _ _ _ Ec) as (-> & Hid & Ht & e & Ee).
  right. exists d, e. simpl. rewrite Ee in Ht. repeat split; auto.
Qed.

Lemma updateUser_step (now : Date) (id : ObjectId) (body : User.fields)
    (s : Store) :
  let s' := snd (asyncHandler (updateUser now id body) s) in
  s' = s
  \/ exists u u',
       In u (users s) /\ User._id u = id /\ User._id u' = id
       /\ users s' = User.replace u' (users s)
       /\ workouts s' = workouts s /\ nextId s' = nextId s
       /\ (User.email u' = User.email u
           \/ exists e, User.email u' = Some e
                        /\ User.email_taken (users s) id (Some e) = false).
Proof.
  rewrite updateUser_cases.
  destruct (User.findById (users s) id) as [u |] eqn:Eu; [| now left].
  destruct (emailExists body u (users s)); [now left |].
  unfold User.findByIdAndUpdate. rewrite Eu.
  destruct (negb _); [now left |].
  destruct (User.email_taken _ _ _) eqn:Et; [now left |].
  unfold User.findById in Eu. apply find_some in Eu.
  destruct Eu as [Hin Hid]. apply Nat.eqb_eq in Hid.
  right. exists u, (User.apply_update now (cleanUpdateData body) u).
  assert (Hemail :
    User.email (User.apply_update now (cleanUpdateData body) u)
    = User.email u
    \/ exists e,
         User.email (User.apply_update now (cleanUpdateData body) u) = Some e
         /\ User.email_taken (users s) id (Some e) = false).
  { unfold User.apply_update; cbn [User.email]. revert Et.
    destruct (User.f_email (cleanUpdateData body)) as [e |];
      [intros Et; right; eexists; split; [reflexivity | exact Et]
      | now left]. }
  simpl. repeat split; auto.
Qed.

Lemma deleteUser_step (id : ObjectId) (s : Store) :
  let s' := snd (asyncHandler (deleteUser id) s) in
  s' = s
  \/ (users s' = User.findByIdAndDelete id (users s)
      /\ workouts s' = workouts s /\ nextId s' = nextId s
      /\ forall w, In w (workouts s) -> Workout.userId w <> Some id).
Proof.
  rewrite deleteUser_cases.
  destruct (User.findById (users s) id); [| now left].
  cbv zeta.
  destruct (Z.ltb_spec 0 (Workout.countDocuments (Workout.of_user id)
                            (workouts s))) as [Hpos | Hzero];
    [now left |].
  right. simpl. repeat split; try reflexivity.
  intros w Hw Ew.
  unfold Workout.countDocuments in Hzero.
  assert (Hin : In w (filter (Workout.of_user id) (workouts s))).
  { apply filter_In. split; [exact Hw |].
    unfold Workout.of_user. rewrite Ew. apply Nat.eqb_refl. }
  destruct (filter _ _); [contradiction | simpl in Hzero; lia].
Qed.

Lemma createWorkout_step (now : Date) (body : Workout.fields) (s : Store) :
  let s' := snd (asyncHandler (createWorkout now body) s) in
  s' = s
  \/ exists u d,
       In u (users s) /\ Workout.userId d = Some (User._id u)
       /\ Workout._id d = nextId s
       /\ workouts s' = workouts s ++ [d] /\ users s' = users s
       /\ nextId s' = S (nextId s).
Proof.
  destruct (createWorkout_ends now body s)
    as (Hus & [(_ & u & d & Hu & _ & _ & Hws & Hn & Hid & Huid & _)
              | (_ & Hs)]);
    [right; exists u, d; repeat split; auto | now left].
Qed.

Lemma updateWorkout_step (now : Date) (id : ObjectId) (body : Workout.fields)
    (otherKeys : bool) (s : Store) :
  let s' := snd (asyncHandler (updateWorkout now id body otherKeys) s) in
  s' = s
  \/ exists w d',
       In w (workouts s) /\ Workout._id d' = Workout._id w
       /\ workouts s' = Workout.replace d' (workouts s)
       /\ users s' = users s /\ nextId s' = nextId s
       /\ (Workout.userId d' = Workout.userId w
           \/ exists u, In u (users s)
                        /\ Workout.userId d' = Some (User._id u)).
Proof.
  rewrite updateWorkout_cases.
  destruct (no_key body otherKeys); [now left |].
  destruct (Workout.findById (workouts s) id) as [w |] eqn:Ew; [| now left].
  destruct (workout_findById_some _ _ _ Ew) as [Hin Hid].
  destruct (reassignCheck body w (users s)) eqn:Ec; [now left |].
  destruct (Workout.save _ _ _ _) as [e | [d' ws]] eqn:Es; [now left |].
  destruct (save_written _ _ _ _ _ _ Es) as (_ & Ed' & ->).
  right. exists w, d'. simpl.
  assert (Euid : Workout.userId d' = Workout.userId (Workout.assign body w)).
  { rewrite Ed'. destruct (isModified _ _); reflexivity. }
  assert (Eid : Workout._id d' = Workout._id w).
  { rewrite Ed'. destruct (isModified _ _); reflexivity. }
  repeat split; auto.
  rewrite Euid. simpl. unfold reassignCheck in Ec.
  destruct (Workout.f_userId body) as [new |]; [| now left].
  destruct (Workout.userId w) as [old |]; [| discriminate].
  destruct (Nat.eqb_spec new old) as [-> | Hne]; [now left |].
  simpl in Ec.
  destruct (User.findById (users s) new) as [u |] eqn:Eu; [| discriminate].
  unfold User.findById in Eu. apply find_some in Eu.
  destruct Eu as [Hu E]. apply Nat.eqb_eq in E. subst new.
  right. exists u. auto.
Qed.

Lemma deleteWorkout_step (id : ObjectId) (s : Store) :
  let s' := snd (replyHandler (deleteWorkout id) s) in
  s' = s
  \/ (workouts s' = Workout.findByIdAndDelete id (workouts s)
      /\ users s' = users s /\ nextId s' = nextId s).
Proof.
  rewrite deleteWorkout_cases.
  destruct (Workout.findById (workouts s) id); [right | left];
    simpl; auto.
Qed.

Lemma in_ids (us us' : list User.doc) (u : User.doc) :
  map User._id us' = map User._id us -> In u us ->
  exists u', In u' us' /\ User._id u' = User._id u.
Proof.
  intros E Hu. apply (in_map User._id) in Hu. rewrite <- E in Hu.
  apply in_map_iff in Hu. destruct Hu as (u' & Eid & Hu'). eauto.
Qed.

(** X16. Referential integrity is an invariant of the handlers that
    write: on a store where every workout names a stored user, each of
    [createUser], [updateUser], [deleteUser], [createWorkout],
    [updateWorkout] and [deleteWorkout] leaves a store where every
    workout names a stored user. *)
Theorem refs_ok_preserved (now : Date) (id : ObjectId)
    (userBody : User.fields) (workoutBody : Workout.fields)
    (otherKeys : bool) (s : Store) :
  refs_ok s ->
  refs_ok (snd (asyncHandler (createUser now userBody) s))
  /\ refs_ok (snd (asyncHandler (updateUser now id userBody) s))
  /\ refs_ok (snd (asyncHandler (deleteUser id) s))
  /\ refs_ok (snd (asyncHandler (createWorkout now workoutBody) s))
  /\ refs_ok (snd (asyncHandler
                     (updateWorkout now id workoutBody otherKeys) s))
  /\ refs_ok (snd (replyHandler (deleteWorkout id) s)).
Proof.
  intros Hrefs. repeat apply conj.
  - destruct (createUser_step now userBody s)
      as [-> | (u & e & Hus & Hws & _)]; [exact Hrefs |].
    intros w Hw. rewrite Hws in Hw.
    destruct (Hrefs w Hw) as (o & Ho & Eo).
    exists o. rewrite Hus. split; [apply in_or_app; now left | exact Eo].
  - destruct (updateUser_step now id userBody s)
      as [-> | (u & u' & _ & _ & _ & Hus & Hws & _)]; [exact Hrefs |].
    intros w Hw. rewrite Hws in Hw.
    destruct (Hrefs w Hw) as (o & Ho & Eo).
    destruct (in_ids (users s) (User.replace u' (users s)) o
                (replace_ids u' (users s)) Ho) as (o' & Ho' & Eid).
    exists o'. rewrite Hus, Eid. auto.
  - destruct (deleteUser_step id s) as [-> | (Hus & Hws & _ & Hnone)];
      [exact Hrefs |].
    intros w Hw. rewrite Hws in Hw.
    destruct (Hrefs w Hw) as (o & Ho & Eo).
    exists o. rewrite Hus. split; [| exact Eo].
    unfold User.findByIdAndDelete. apply filter_In. split; [exact Ho |].
    apply negb_true_iff, Nat.eqb_neq. intros E.
    apply (Hnone w Hw). now rewrite Eo, E.
  - destruct (createWorkout_step now workoutBody s)
      as [-> | (u & d & Hu & Eu & _ & Hws & Hus & _)]; [exact Hrefs |].
    intros w Hw. rewrite Hws in Hw. rewrite Hus.
    apply in_app_or in Hw. destruct Hw as [Hw | [<- | []]].
    + exact (Hrefs w Hw).
    + exists u. auto.
  - destruct (updateWorkout_step now id workoutBody otherKeys s)
      as [-> | (w0 & d' & Hw0 & _ & Hws & Hus & _ & Hown)];
      [exact Hrefs |].
    intros w Hw. rewrite Hws in Hw. rewrite Hus.
    apply workout_replace_other in Hw. destruct Hw as [-> | Hw].
    + destruct Hown as [E | Hu]; [| exact Hu].
      rewrite E. exact (Hrefs w0 Hw0).
    + exact (Hrefs w Hw).
  - destruct (deleteWorkout_step id s) as [-> | (Hws & Hus & _)];
      [exact Hrefs |].
    intros w Hw. rewrite Hws in Hw. rewrite Hus.
    unfold Workout.findByIdAndDelete in Hw. apply filter_In in Hw.
    exact (Hrefs w (proj1 Hw)).
Qed.

End InvariantFacts.

Lemma refs_ok_preserved_witness :
  refs_ok (snd (asyncHandler (deleteUser 0%nat) janeStore))
  /\ refs_ok (snd (asyncHandler (createWorkout 2000 bodyRun) janeStore))
  /\ refs_ok (snd (replyHandler (deleteWorkout 0%nat) janeStore)).
Proof.
  destruct (@refs_ok_preserved plainTracking 2000 0%nat bodyAl bodyRun false
              janeStore) as (_ & _ & Hdelete & Hcreate & _ & Hdrop).
  - intros w [<- | []]. exists userJane. simpl. auto.
  - split; [exact Hdelete |]. split; [exact Hcreate | exact Hdrop].
Defined.

Section UniquenessFacts.
Context `{ChangeTracking}.

Lemma NoDup_snoc {A} (l : list A) (x : A) :
  NoDup l -> ~ In x l -> NoDup (l ++ [x]).
Proof.
  intros Hl Hx. apply NoDup_app; [exact Hl | repeat constructor; auto |].
  intros a Ha [<- | []]. contradiction.
Qed.

(** Deleting documents keeps a key distinct among those that stay. *)
Lemma delete_keeps_distinct {Doc Key} (key : Doc -> Key)
    (keep : Doc -> bool) (docs : list Doc) :
  NoDup (map key docs) -> NoDup (map key (filter keep docs)).
Proof.
  induction docs as [| d docs IH]; simpl; intros Hnd; [constructor |].
  apply NoDup_cons_iff in Hnd. destruct Hnd as [Hfresh Hrest].
  destruct (keep d); simpl; [| now apply IH].
  apply NoDup_cons; [| now apply IH].
  intros Hin. apply Hfresh. apply in_map_iff in Hin.
  destruct Hin as (b & Eb & Hb). apply filter_In in Hb.
  apply in_map_iff. exists b. tauto.
Qed.

(** Two stored documents with the same value of a distinct key are one. *)
Lemma distinct_key_inj {Doc Key} (key : Doc -> Key) (docs : list Doc)
    (a b : Doc) :
  NoDup (map key docs) -> In a docs -> In b docs -> key a = key b -> a = b.
Proof.
  induction docs as [| d docs IH]; simpl; intros Hnd Ha Hb E;
    [contradiction |].
  apply NoDup_cons_iff in Hnd. destruct Hnd as [Hfresh Hrest].
  destruct Ha as [-> | Ha], Hb as [-> | Hb]; auto.
  - exfalso. apply Hfresh. rewrite E. now apply in_map.
  - exfalso. apply Hfresh. rewrite <- E. now apply in_map.
Qed.

Lemma email_taken_false (us : list User.doc) (id : ObjectId) (e : string)
    (u : User.doc) :
  User.email_taken us id (Some e) = false ->
  In u us -> User._id u <> id -> User.email u <> Some e.
Proof.
  simpl. intros Ht Hu Hne Ee.
  assert (X : existsb
                (fun x => negb (User._id x =? id)%nat
                          && Str.opt_eqb (User.email x) (Some e)) us = true).
  { apply existsb_exists. exists u. split; [exact Hu |].
    rewrite Ee. simpl. rewrite String.eqb_refl, andb_true_r.
    now apply negb_true_iff, Nat.eqb_neq. }
  congruence.
Qed.

Lemma replace_absent (d' : User.doc) (us : list User.doc) :
  ~ In (User._id d') (map User._id us) -> User.replace d' us = us.
Proof.
  induction us as [| x us IH]; simpl; intros Hno; [reflexivity |].
  destruct (Nat.eqb_spec (User._id x) (User._id d')) as [E | _].
  - exfalso. apply Hno. now left.
  - f_equal. apply IH. tauto.
Qed.

(** Replacing the user of an id by one whose e-mail no user of another id
    has keeps the e-mails distinct. *)
Lemma replace_emails (d' : User.doc) (us : list User.doc) :
  NoDup (map User._id us) -> NoDup (map User.email us) ->
  (forall v, In v us -> User._id v <> User._id d' ->
             User.email v <> User.email d') ->
  NoDup (map User.email (User.replace d' us)).
Proof.
  induction us as [| x us IH]; simpl; intros Hids Hem Hother;
    [constructor |].
  inversion Hids as [| ? ? Hid_notin Hids']; subst.
  inversion Hem as [| ? ? Hem_notin Hem']; subst.
  destruct (Nat.eqb_spec (User._id x) (User._id d')) as [E | Hne].
  - rewrite replace_absent by (rewrite <- E; exact Hid_notin).
    constructor; [| exact Hem'].
    intros Hin. apply in_map_iff in Hin. destruct Hin as (v & Ev & Hv).
    apply (Hother v (or_intror Hv)); [| exact Ev].
    intros Eid. apply Hid_notin. rewrite E, <- Eid. now apply in_map.
  - constructor; [| apply IH; auto].
    intros Hin. apply in_map_iff in Hin. destruct Hin as (v & Ev & Hv).
    unfold User.replace in Hv. apply in_map_iff in Hv.
    destruct Hv as (y & Ey & Hy).
    destruct (Nat.eqb_spec (User._id y) (User._id d')); subst v.
    + apply (Hother x (or_introl eq_refl) Hne). now symmetry.
    + apply Hem_notin. rewrite <- Ev. now apply in_map.
Qed.

Lemma ids_below (us us' : list User.doc) (n : nat) :
  map User._id us' = map User._id us ->
  (forall u, In u us -> (User._id u < n)%nat) ->
  forall u, In u us' -> (User._id u < n)%nat.
Proof.
  intros E Hlt u Hu.
  destruct (in_ids us' us u (eq_sym E) Hu) as (u0 & Hu0 & <-). auto.
Qed.

Lemma workout_ids_below (ws ws' : list Workout.doc) (n : nat) :
  map Workout._id ws' = map Workout._id ws ->
  (forall w, In w ws -> (Workout._id w < n)%nat) ->
  forall w, In w ws' -> (Workout._id w < n)%nat.
Proof.
  intros E Hlt w Hw. apply (in_map Workout._id) in Hw. rewrite E in Hw.
  apply in_map_iff in Hw. destruct Hw as (w0 & <- & Hw0). auto.
Qed.

Lemma fresh_id {A} (f : A -> nat) (l : list A) (n : nat) :
  (forall x, In x l -> (f x < n)%nat) -> ~ In n (map f l).
Proof.
  intros Hlt Hin. apply in_map_iff in Hin. destruct Hin as (x & E & Hx).
  specialize (Hlt x Hx). lia.
Qed.

Lemma createUser_unique (now : Date) (body : User.fields) (s : Store) :
  unique s -> unique (snd (asyncHandler (createUser now body) s)).
Proof.
  intros [(Hu & Hw & Hnu & Hnw) Hem].
  destruct (createUser_step now body s)
    as [-> | (u & e & Hus & Hws & Hn & Hid & Ee & Ht)];
    [split; [repeat split |]; assumption |].
  unfold unique, ids_ok, emails_ok. rewrite Hus, Hws, Hn, !map_app. simpl.
  repeat split.
  - intros x Hx. apply in_app_or in Hx. destruct Hx as [Hx | [<- | []]];
      [specialize (Hu x Hx) |]; lia.
  - intros x Hx. specialize (Hw x Hx). lia.
  - apply NoDup_snoc; [exact Hnu |]. rewrite Hid. now apply fresh_id.
  - exact Hnw.
  - apply NoDup_snoc; [exact Hem |]. rewrite Ee.
    intros Hin. apply in_map_iff in Hin. destruct Hin as (x & Ex & Hx).
    apply (email_taken_false _ _ _ x Ht Hx); [| exact Ex].
    specialize (Hu x Hx). lia.
Qed.

Lemma updateUser_unique (now : Date) (id : ObjectId) (body : User.fields)
    (s : Store) :
  unique s -> unique (snd (asyncHandler (updateUser now id body) s)).
Proof.
  intros [(Hu & Hw & Hnu & Hnw) Hem].
  destruct (updateUser_step now id body s)
    as [-> | (u & u' & Hin & Hid & Hid' & Hus & Hws & Hn & Hemail)];
    [split; [repeat split |]; assumption |].
  unfold unique, ids_ok, emails_ok. rewrite Hus, Hws, Hn.
  repeat split.
  - apply (ids_below (users s)); [apply replace_ids | exact Hu].
  - exact Hw.
  - now rewrite replace_ids.
  - exact Hnw.
  - apply replace_emails; [exact Hnu | exact Hem |].
    intros v Hv Hne. rewrite Hid' in Hne.
    destruct Hemail as [E | (e & Ee & Ht)].
    + rewrite E. intros Ev. apply Hne. rewrite <- Hid. f_equal.
      exact (distinct_key_inj User.email (users s) v u Hem Hv Hin Ev).
    + rewrite Ee. exact (email_taken_false _ _ _ v Ht Hv Hne).
Qed.

Lemma deleteUser_unique (id : ObjectId) (s : Store) :
  unique s -> unique (snd (asyncHandler (deleteUser id) s)).
Proof.
  intros [(Hu & Hw & Hnu & Hnw) Hem].
  destruct (deleteUser_step id s) as [-> | (Hus & Hws & Hn & _)];
    [split; [repeat split |]; assumption |].
  unfold unique, ids_ok, emails_ok. rewrite Hus, Hws, Hn.
  unfold User.findByIdAndDelete. repeat split.
  - intros x Hx. apply filter_In in Hx. exact (Hu x (proj1 Hx)).
  - exact Hw.
  - now apply delete_keeps_distinct.
  - exact Hnw.
  - now apply delete_keeps_distinct.
Qed.

Lemma createWorkout_unique (now : Date) (body : Workout.fields) (s : Store) :
  unique s -> unique (snd (asyncHandler (createWorkout now body) s)).
Proof.
  intros [(Hu & Hw & Hnu & Hnw) Hem].
  destruct (createWorkout_step now body s)
    as [-> | (u & d & _ & _ & Hid & Hws & Hus & Hn)];
    [split; [repeat split |]; assumption |].
  unfold unique, ids_ok, emails_ok. rewrite Hus, Hws, Hn, !map_app. simpl.
  repeat split.
  - intros x Hx. specialize (Hu x Hx). lia.
  - intros x Hx. apply in_app_or in Hx. destruct Hx as [Hx | [<- | []]];
      [specialize (Hw x Hx) |]; lia.
  - exact Hnu.
  - apply NoDup_snoc; [exact Hnw |]. rewrite Hid. now apply fresh_id.
  - exact Hem.
Qed.

Lemma updateWorkout_unique (now : Date) (id : ObjectId)
    (body : Workout.fields) (otherKeys : bool) (s : Store) :
  unique s ->
  unique (snd (asyncHandler (updateWorkout now id body otherKeys) s)).
Proof.
  intros [(Hu & Hw & Hnu & Hnw) Hem].
  destruct (updateWorkout_step now id body otherKeys s)
    as [-> | (w & d' & _ & _ & Hws & Hus & Hn & _)];
    [split; [repeat split |]; assumption |].
  unfold unique, ids_ok, emails_ok. rewrite Hus, Hws, Hn.
  repeat split.
  - exact Hu.
  - apply (workout_ids_below (workouts s));
      [apply workout_replace_ids | exact Hw].
  - exact Hnu.
  - now rewrite workout_replace_ids.
  - exact Hem.
Qed.

Lemma deleteWorkout_unique (id : ObjectId) (s : Store) :
  unique s -> unique (snd (replyHandler (deleteWorkout id) s)).
Proof.
  intros [(Hu & Hw & Hnu & Hnw) Hem].
  destruct (deleteWorkout_step id s) as [-> | (Hws & Hus & Hn)];
    [split; [repeat split |]; assumption |].
  unfold unique, ids_ok, emails_ok. rewrite Hus, Hws, Hn.
  unfold Workout.findByIdAndDelete. repeat split.
  - exact Hu.
  - intros x Hx. apply filter_In in Hx. exact (Hw x (proj1 Hx)).
  - exact Hnu.
  - now apply delete_keeps_distinct.
  - exact Hem.
Qed.

(** X17. Uniqueness is an invariant of the handlers that write: on a
    store where no two users have the same id or the same e-mail, no two
    workouts the same id, and every id is below the next id, each of
    [createUser], [updateUser], [deleteUser], [createWorkout],
    [updateWorkout] and [deleteWorkout] leaves such a store. *)
Theorem unique_preserved (now : Date) (id : ObjectId)
    (userBody : User.fields) (workoutBody : Workout.fields)
    (otherKeys : bool) (s : Store) :
  ids_ok s -> emails_ok s ->
  (ids_ok (snd (asyncHandler (createUser now userBody) s))
   /\ emails_ok (snd (asyncHandler (createUser now userBody) s)))
  /\ (ids_ok (snd (asyncHandler (updateUser now id userBody) s))
      /\ emails_ok (snd (asyncHandler (updateUser now id userBody) s)))
  /\ (ids_ok (snd (asyncHandler (deleteUser id) s))
      /\ emails_ok (snd (asyncHandler (deleteUser id) s)))
  /\ (ids_ok (snd (asyncHandler (createWorkout now workoutBody) s))
      /\ emails_ok (snd (asyncHandler (createWorkout now workoutBody) s)))
  /\ (ids_ok (snd (asyncHandler
                     (updateWorkout now id workoutBody otherKeys) s))
      /\ emails_ok (snd (asyncHandler
                           (updateWorkout now id workoutBody otherKeys) s)))
  /\ (ids_ok (snd (replyHandler (deleteWorkout id) s))
      /\ emails_ok (snd (replyHandler (deleteWorkout id) s))).
Proof.
  intros Hi He. assert (Hu : unique s) by (split; assumption).
  repeat apply conj;
    first [ apply (createUser_unique now userBody s Hu)
          | apply (updateUser_unique now id userBody s Hu)
          | apply (deleteUser_unique id s Hu)
          | apply (createWorkout_unique now workoutBody s Hu)
          | apply (updateWorkout_unique now id workoutBody otherKeys s Hu)
          | apply (deleteWorkout_unique id s Hu) ].
Qed.

End UniquenessFacts.

Lemma unique_preserved_witness :
  ids_ok (snd (asyncHandler (createUser 2000 bodyAl) janeStore))
  /\ emails_ok (snd (asyncHandler (createUser 2000 bodyAl) janeStore)).
Proof.
  refine (proj1 (@unique_preserved plainTracking 2000 0%nat bodyAl bodyRun
                   false janeStore _ _)).
  - unfold ids_ok. simpl. repeat split.
    + intros u [<- | []]. simpl. lia.
    + intros w [<- | []]. simpl. lia.
    + repeat constructor. simpl. tauto.
    + repeat constructor. simpl. tauto.
  - unfold emails_ok. simpl. repeat constructor. simpl. tauto.
Defined.

(* ===================================================================== *)
(** * The pattern of the e-mail address *)
(* ===================================================================== *)

Section EmailFacts.

Lemma split_first_found (sep : ascii) (l a b : list ascii) :
  Str.split_first sep l = Some (a, b) ->
  l = a ++ sep :: b /\ ~ In sep a.
Proof.
  revert a b. induction l as [| c r IH]; simpl; intros a b E; [discriminate |].
  destruct (Ascii.eqb_spec c sep) as [-> | Hne].
  - injection E as <- <-. simpl. tauto.
  - destruct (Str.split_first sep r) as [[a' b'] |]; [| discriminate].
    injection E as <- <-. destruct (IH a' b' eq_refl) as [-> Hno].
    split; [reflexivity |]. intros [Hc | Hin]; [now apply Hne | now apply Hno].
Qed.

Lemma split_first_at (sep : ascii) (a b : list ascii) :
  ~ In sep a -> Str.split_first sep (a ++ sep :: b) = Some (a, b).
Proof.
  induction a as [| c a IH]; simpl; intros Hno.
  - now rewrite Ascii.eqb_refl.
  - destruct (Ascii.eqb_spec c sep) as [-> | _]; [tauto |].
    rewrite IH by tauto. reflexivity.
Qed.

Lemma nonempty_all_spec (p : ascii -> bool) (l : list ascii) :
  Str.nonempty_all p l = true <-> l <> [] /\ Forall (holds1 p) l.
Proof.
  unfold Str.nonempty_all, holds1. destruct l as [| c r].
  - split; [discriminate | intros [Hne _]; now elim Hne].
  - rewrite forallb_forall, Forall_forall. split.
    + intros Hall. split; [discriminate | exact Hall].
    + tauto.
Qed.

Lemma class_excludes (p : ascii -> bool) (sep : ascii) (l : list ascii) :
  p sep = false -> Forall (holds1 p) l -> ~ In sep l.
Proof.
  intros Hsep Hall Hin. rewrite Forall_forall in Hall.
  specialize (Hall sep Hin). unfold holds1 in Hall. congruence.
Qed.

(** The strings that the test of the e-mail pattern accepts. *)
Lemma email_match_spec (s : string) :
  Str.email_match s = true <->
  exists loc dom tld : list ascii,
    list_ascii_of_string s = loc ++ "@"%char :: dom ++ "."%char :: tld
    /\ loc <> [] /\ Forall (holds1 Str.local_char) loc
    /\ dom <> [] /\ Forall (holds1 Str.domain_char) dom
    /\ (2 <= List.length tld)%nat /\ Forall (holds1 Str.is_letter) tld.
Proof.
  unfold Str.email_match. split.
  - destruct (Str.split_first "@" (list_ascii_of_string s))
      as [[loc rest] |] eqn:Eat; [| discriminate].
    destruct (split_first_found _ _ _ _ Eat) as [Es _].
    rewrite andb_true_iff. intros [Hloc Hrest].
    destruct (Str.split_first "." (rev rest)) as [[tld_rev dom_rev] |] eqn:Edot;
      [| discriminate].
    destruct (split_first_found _ _ _ _ Edot) as [Er _].
    rewrite !andb_true_iff in Hrest. destruct Hrest as [[Hdom Htld] Hlen].
    apply nonempty_all_spec in Hloc, Hdom.
    exists loc, (rev dom_rev), (rev tld_rev).
    assert (Erest : rest = rev dom_rev ++ "."%char :: rev tld_rev).
    { rewrite <- (rev_involutive rest), Er, rev_app_distr. simpl.
      now rewrite <- app_assoc. }
    rewrite Es, Erest. split; [reflexivity |].
    split; [tauto |]. split; [tauto |].
    split; [intros E; apply (proj1 Hdom); apply (f_equal (@rev ascii)) in E;
            now rewrite rev_involutive in E |].
    split; [apply Forall_rev; tauto |].
    split; [rewrite length_rev; now apply Nat.leb_le |].
    apply Forall_rev. apply Forall_forall. rewrite forallb_forall in Htld.
    exact Htld.
  - intros (loc & dom & tld & Es & Hloc & Hlocs & Hdom & Hdoms & Hlen & Htld).
    rewrite Es, split_first_at
      by (apply (class_excludes Str.local_char); [reflexivity | exact Hlocs]).
    replace (rev (dom ++ "."%char :: tld))
      with (rev tld ++ "."%char :: rev dom)
      by (rewrite rev_app_distr; simpl; now rewrite <- app_assoc).
    rewrite split_first_at
      by (apply (class_excludes Str.is_letter);
          [reflexivity | now apply Forall_rev]).
    rewrite !andb_true_iff. split; [now apply nonempty_all_spec |].
    split; [split |].
    + apply nonempty_all_spec. split; [| now apply Forall_rev].
      intros E. apply Hdom. apply (f_equal (@rev ascii)) in E.
      now rewrite rev_involutive in E.
    + apply forallb_forall. apply Forall_forall. now apply Forall_rev.
    + rewrite length_rev. now apply Nat.leb_le.
Qed.

(** X18. The test of the e-mail pattern accepts exactly the strings made
    of one or more characters of [[a-zA-Z0-9._%+-]], an [@], one or more
    characters of [[a-zA-Z0-9.-]], a dot, and two or more letters. *)
Theorem email_match_language (s : string) :
  Str.email_match s = true <->
  exists loc dom tld : list ascii,
    list_ascii_of_string s = loc ++ "@"%char :: dom ++ "."%char :: tld
    /\ loc <> [] /\ Forall (holds1 Str.local_char) loc
    /\ dom <> [] /\ Forall (holds1 Str.domain_char) dom
    /\ (2 <= List.length tld)%nat /\ Forall (holds1 Str.is_letter) tld.
Proof. exact (email_match_spec s). Qed.

End EmailFacts.

(* ===================================================================== *)
(** * The derived figures of a user and of a workout *)
(* ===================================================================== *)

Section MetricFacts.

Lemma Math_max_spec (a b : Q) :
  (a <= JS.Math_max a b /\ b <= JS.Math_max a b
   /\ (JS.Math_max a b = a \/ JS.Math_max a b = b))%Q.
Proof.
  unfold JS.Math_max. destruct (Qle_bool a b) eqn:E.
  - apply Qle_bool_iff in E. repeat split; auto; lra.
  - assert (~ (a <= b)%Q) by (rewrite <- Qle_bool_iff; congruence).
    repeat split; auto; lra.
Qed.

Lemma in_bounds_Some (lo hi q : Q) :
  User.in_bounds lo hi (Some q) = true -> (lo <= q /\ q <= hi)%Q.
Proof.
  unfold User.in_bounds. rewrite andb_true_iff, !Qle_bool_iff. tauto.
Qed.

(** X19. The recommendation of calories exists exactly for a user whose
    daily calorie needs are known and not 0.  With a target of weight loss
    that is not negative, the maintenance figure is the daily needs, the
    deficit is 1100 calories a day for each kilogram a week, and the figure
    for weight loss is the maintenance less the deficit where that is at
    least 1200, and 1200 otherwise: it is never under 1200, and never over
    a maintenance of 1200 or more. *)
Theorem getRecommendedCalories_floor (d : User.doc) (target : Q) :
  (0 <= target)%Q ->
  (User.getRecommendedCalories d target = None <->
   User.dailyCalorieNeeds d = None \/ User.dailyCalorieNeeds d = Some 0)
  /\ forall r, User.getRecommendedCalories d target = Some r ->
       User.dailyCalorieNeeds d = Some (User.maintenance r)
       /\ (User.targetDeficit r == 1100 * target)%Q
       /\ (1200 <= User.weightLoss r)%Q
       /\ (1200 <= inject_Z (User.maintenance r) ->
           User.weightLoss r <= inject_Z (User.maintenance r))%Q
       /\ (1200 <= inject_Z (User.maintenance r) - 1100 * target ->
           User.weightLoss r
           == inject_Z (User.maintenance r) - 1100 * target)%Q
       /\ (inject_Z (User.maintenance r) - 1100 * target <= 1200 ->
           User.weightLoss r == 1200)%Q.
Proof.
  intros Ht. unfold User.getRecommendedCalories.
  destruct (User.dailyCalorieNeeds d) as [n |]; [| split; [tauto | discriminate]].
  destruct (Z.eqb_spec n 0) as [-> | Hn].
  - split; [tauto | discriminate].
  - split.
    + split; [discriminate |]. intros [E | E]; [discriminate |].
      injection E as ->. now elim Hn.
    + intros r E. injection E as <-. simpl.
      assert (Ed : (target * 7700 / 7 == 1100 * target)%Q) by field.
      revert Ed. generalize (target * 7700 / 7)%Q. intros deficit Ed.
      destruct (Math_max_spec (inject_Z n - deficit) 1200)
        as (Ha & Hb & Hc).
      split; [reflexivity |]. split; [exact Ed |]. split; [exact Hb |].
      split; [intros Hm; destruct Hc as [E | E]; rewrite E in *; lra |].
      split; intros Hm; destruct Hc as [E | E]; rewrite E in *; lra.
Qed.

(** X20. For a workout that passes the validation of the schema, the
    calories per minute are a number of tenths between 0 and 5000, at most
    a twentieth away from the calories burned divided by the duration. *)
Theorem caloriesPerMinute_valid (now : Date) (w : Workout.doc) :
  Workout.validate now w = true ->
  exists (c m : Q) (tenths : Z),
    Workout.caloriesBurned w = Some c /\ Workout.duration w = Some m
    /\ (Workout.caloriesPerMinute w == inject_Z tenths / 10)%Q
    /\ 0 <= tenths <= 50000
    /\ (c / m - (1 # 20) <= Workout.caloriesPerMinute w)%Q
    /\ (Workout.caloriesPerMinute w <= c / m + (1 # 20))%Q.
Proof.
  unfold Workout.validate. rewrite !andb_true_iff.
  intros ((((((((((((_ & _) & _) & _) & Hm) & Hmb) & Hc) & Hcb) & _) & _)
            & _) & _) & _).
  destruct (Workout.duration w) as [m |] eqn:Em; [| discriminate].
  destruct (Workout.caloriesBurned w) as [c |] eqn:Ec; [| discriminate].
  apply in_bounds_Some in Hmb, Hcb.
  exists c, m, (JS.Math_round (c / m * 10)).
  unfold Workout.caloriesPerMinute. rewrite Em, Ec.
  rewrite !truthy_num_Some by lra. simpl.
  pose proof (Math_round_spec (c / m * 10)) as [Hlo Hhi].
  assert (Hq : (0 < c / m /\ c / m <= 5000)%Q).
  { split.
    - apply Qlt_shift_div_l; lra.
    - apply Qle_shift_div_r; [lra |]. nra. }
  assert (Hk : 0 <= JS.Math_round (c / m * 10) <= 50000).
  { split.
    - assert (X : (inject_Z (-1) < inject_Z (JS.Math_round (c / m * 10)))%Q)
        by (change (inject_Z (-1)) with (-1)%Q; lra).
      rewrite <- Zlt_Qlt in X. lia.
    - assert (X : (inject_Z (JS.Math_round (c / m * 10)) < inject_Z 50001)%Q)
        by (change (inject_Z 50001) with 50001%Q; lra).
      rewrite <- Zlt_Qlt in X. lia. }
  split; [reflexivity |]. split; [reflexivity |].
  split; [reflexivity |]. split; [exact Hk |].
  split.
  - apply Qle_shift_div_l; [lra |]. lra.
  - apply Qle_shift_div_r; [lra |]. lra.
Qed.

End MetricFacts.

Lemma getRecommendedCalories_floor_witness :
  (0 <= 1 # 2)%Q
  /\ exists r, User.getRecommendedCalories userAda (1 # 2) = Some r
       /\ User.maintenance r = 1979
       /\ (1200 <= User.weightLoss r)%Q.
Proof.
  split; [vm_compute; discriminate |].
  destruct (User.getRecommendedCalories userAda (1 # 2)) as [r |] eqn:E;
    [| vm_compute in E; discriminate].
  exists r. split; [reflexivity |].
  split; [vm_compute in E; injection E as <-; reflexivity |].
  destruct (getRecommendedCalories_floor userAda (1 # 2)) as [_ Hr];
    [vm_compute; discriminate |].
  exact (proj1 (proj2 (proj2 (Hr r E)))).
Defined.

Lemma caloriesPerMinute_valid_witness :
  Workout.validate 6000 plannedRun = true
  /\ exists tenths : Z,
       (Workout.caloriesPerMinute plannedRun == inject_Z tenths / 10)%Q
       /\ 0 <= tenths <= 50000.
Proof.
  split; [vm_compute; reflexivity |].
  destruct (caloriesPerMinute_valid 6000 plannedRun)
    as (c & m & tenths & _ & _ & Ek & Hk & _);
    [vm_compute; reflexivity |].
  exists tenths. split; assumption.
Defined.

(* ===================================================================== *)
(** * The figures of the statistics *)
(* ===================================================================== *)

Section UserStatsFacts.
Context `{Runtime}.






End UserStatsFacts.

Section GroupingFacts.
Context {K : Type} (eqb : K -> K -> bool) (key : Workout.doc -> K).
Hypothesis eqb_eq : forall a b, eqb a b = true <-> a = b.

Lemma group_by_snoc (l : list Workout.doc) (x : Workout.doc) :
  group_by eqb key (l ++ [x])
  = add_to_group eqb (key x) x (group_by eqb key l).
Proof. unfold group_by. now rewrite fold_left_app. Qed.

Lemma eqb_refl (k : K) : eqb k k = true.
Proof. now apply eqb_eq. Qed.

Lemma eqb_neq (a b : K) : a <> b -> eqb a b = false.
Proof.
  intros Hne. destruct (eqb a b) eqn:E; [| reflexivity].
  apply eqb_eq in E. contradiction.
Qed.

Lemma add_to_group_keys (k : K) (x : Workout.doc)
    (groups : list (K * list Workout.doc)) :
  (In k (map fst groups)
   /\ map fst (add_to_group eqb k x groups) = map fst groups)
  \/ (~ In k (map fst groups)
      /\ map fst (add_to_group eqb k x groups) = map fst groups ++ [k]).
Proof.
  induction groups as [| [k' xs] r IH]; simpl; [right; tauto |].
  destruct (eqb k k') eqn:E.
  - apply eqb_eq in E. subst k'. left. simpl. tauto.
  - assert (Hne : k' <> k)
      by (intros ->; rewrite eqb_refl in E; discriminate).
    simpl. destruct IH as [[Hin ->] | [Hno ->]]; [left | right]; tauto.
Qed.

Lemma add_to_group_in (k : K) (x : Workout.doc)
    (groups : list (K * list Workout.doc)) (k' : K)
    (xs' : list Workout.doc) :
  NoDup (map fst groups) ->
  In (k', xs') (add_to_group eqb k x groups) ->
  (k' <> k /\ In (k', xs') groups)
  \/ (k' = k /\ exists xs, In (k, xs) groups /\ xs' = xs ++ [x])
  \/ (k' = k /\ ~ In k (map fst groups) /\ xs' = [x]).
Proof.
  induction groups as [| [k1 xs1] r IH]; simpl; intros Hnd Hin.
  - destruct Hin as [E | []]. injection E as <- <-. right. right. tauto.
  - apply NoDup_cons_iff in Hnd. destruct Hnd as [Hfresh Hrest].
    destruct (eqb k k1) eqn:E.
    + apply eqb_eq in E. subst k1.
      destruct Hin as [E' | Hin].
      * injection E' as <- <-. right. left. split; [reflexivity |].
        exists xs1. tauto.
      * left. split; [| tauto]. intros ->. apply Hfresh.
        apply in_map_iff. exists (k, xs'). tauto.
    + assert (Hne : k1 <> k)
        by (intros ->; rewrite eqb_refl in E; discriminate).
      destruct Hin as [E' | Hin].
      * injection E' as <- <-. left. tauto.
      * destruct (IH Hrest Hin)
          as [[Hk Hg] | [[-> (xs & Hg & ->)] | [-> [Hno ->]]]].
        -- left. tauto.
        -- right. left. split; [reflexivity |]. exists xs. tauto.
        -- right. right. tauto.
Qed.

(** [$group] gives one group for each value of the key, with all the
    documents of that value, in their order. *)
Lemma group_by_spec (l : list Workout.doc) :
  NoDup (map fst (group_by eqb key l))
  /\ (forall k xs, In (k, xs) (group_by eqb key l) ->
        xs = filter (fun x => eqb (key x) k) l /\ xs <> [])
  /\ (forall x, In x l -> In (key x) (map fst (group_by eqb key l))).
Proof.
  induction l as [| x l IH] using rev_ind.
  - simpl. split; [constructor |]. split; [intros k xs [] | intros x []].
  - destruct IH as (Hnd & Hgroups & Hkeys).
    rewrite group_by_snoc.
    split; [| split].
    + destruct (add_to_group_keys (key x) x (group_by eqb key l))
        as [[_ ->] | [Hno ->]]; [exact Hnd |].
      apply NoDup_app; [exact Hnd | repeat constructor; auto |].
      intros a Ha [<- | []]. contradiction.
    + intros k xs Hin. rewrite filter_app. simpl.
      destruct (add_to_group_in _ _ _ _ _ Hnd Hin)
        as [[Hk Hg] | [[-> (xs0 & Hg & ->)] | [-> [Hno ->]]]].
      * rewrite (eqb_neq (key x) k) by congruence.
        rewrite app_nil_r. now apply Hgroups.
      * rewrite eqb_refl. destruct (Hgroups _ _ Hg) as [<- _].
        split; [reflexivity |]. intros E. now apply app_eq_nil in E.
      * rewrite eqb_refl. split; [| discriminate].
        replace (filter (fun y => eqb (key y) (key x)) l) with
          (@nil Workout.doc); [reflexivity |].
        symmetry. apply filter_none. intros y Hy.
        apply eqb_neq. intros E. apply Hno. rewrite <- E. now apply Hkeys.
    + intros y Hy.
      assert (Hsub : forall k, In k (map fst (group_by eqb key l)) ->
                In k (map fst (add_to_group eqb (key x) x
                                 (group_by eqb key l)))).
      { intros k Hk.
        destruct (add_to_group_keys (key x) x (group_by eqb key l))
          as [[_ ->] | [_ ->]]; [exact Hk |].
        apply in_or_app. now left. }
      apply in_app_or in Hy. destruct Hy as [Hy | [<- | []]].
      * apply Hsub. now apply Hkeys.
      * destruct (add_to_group_keys (key x) x (group_by eqb key l))
          as [[Hin ->] | [_ ->]]; [exact Hin |].
        apply in_or_app. right. now left.
Qed.

End GroupingFacts.

Section GlobalStatsFacts.

Lemma opt_eqb_eq (a b : option string) : Str.opt_eqb a b = true <-> a = b.
Proof.
  destruct a as [x |], b as [y |]; simpl; try (split; congruence).
  rewrite String.eqb_eq. split; congruence.
Qed.

Lemma opt_id_eqb_eq (a b : option ObjectId) :
  opt_id_eqb a b = true <-> a = b.
Proof.
  destruct a as [x |], b as [y |]; simpl; try (split; congruence).
  rewrite Nat.eqb_eq. split; congruence.
Qed.

Lemma count_of_pos {A} (l : list A) : l <> [] -> 1 <= count_of l.
Proof. unfold count_of. destruct l; [congruence | simpl; lia]. Qed.

Lemma filter_filter {A} (p q : A -> bool) (l : list A) :
  filter p (filter q l) = filter (fun x => q x && p x) l.
Proof.
  induction l as [| a l IH]; simpl; [reflexivity |].
  destruct (q a); simpl; [destruct (p a) |]; now rewrite IH.
Qed.

Lemma count_desc_total {A} (count : A -> Z) (a b : A) :
  (count b <=? count a) = true \/ (count a <=? count b) = true.
Proof. rewrite !Z.leb_le. lia. Qed.

Lemma count_desc_trans {A} (count : A -> Z) (a b c : A) :
  (count b <=? count a) = true -> (count c <=? count b) = true ->
  (count c <=? count a) = true.
Proof. rewrite !Z.leb_le. lia. Qed.

(** The rows of a pipeline [$match completed], [$group] on a key, [$sort]
    on the count: one row for each value of the key among the completed
    workouts, with their number, the larger numbers first. *)
Lemma grouped_rows {K Row : Type} (eqb : K -> K -> bool)
    (key : Workout.doc -> K) (mk : K * list Workout.doc -> Row)
    (row_key : Row -> K) (row_count : Row -> Z) (ws : list Workout.doc) :
  (forall a b, eqb a b = true <-> a = b) ->
  (forall g, row_key (mk g) = fst g) ->
  (forall g, row_count (mk g) = count_of (snd g)) ->
  let rows :=
    sort_by (fun a b => row_count b <=? row_count a)
      (map mk (group_by eqb key (filter Workout.completed ws))) in
  NoDup (map row_key rows)
  /\ (forall row, In row rows ->
        1 <= row_count row
        /\ row_count row
           = count_of (filter (fun w => Workout.completed w
                                        && eqb (key w) (row_key row)) ws))
  /\ (forall w, In w ws -> Workout.completed w = true ->
        In (key w) (map row_key rows))
  /\ StronglySorted (fun a b => row_count b <= row_count a) rows.
Proof.
  intros Heq Hkey Hcount rows.
  destruct (group_by_spec eqb key Heq (filter Workout.completed ws))
    as (Hnd & Hgroups & Hkeys).
  assert (Hperm : Permutation rows
            (map mk (group_by eqb key (filter Workout.completed ws))))
    by apply sort_by_perm.
  assert (Hmap : map row_key
                   (map mk (group_by eqb key (filter Workout.completed ws)))
                 = map fst (group_by eqb key (filter Workout.completed ws))).
  { rewrite map_map. apply map_ext. intros g. apply Hkey. }
  split; [| split; [| split]].
  - apply (Permutation_NoDup (l := map fst
             (group_by eqb key (filter Workout.completed ws))));
      [| exact Hnd].
    rewrite <- Hmap. symmetry. now apply Permutation_map.
  - intros row Hrow. apply (Permutation_in _ Hperm) in Hrow.
    apply in_map_iff in Hrow. destruct Hrow as ([k xs] & <- & Hg).
    rewrite Hcount, Hkey. simpl.
    destruct (Hgroups k xs Hg) as [E Hne].
    split; [now apply count_of_pos |].
    rewrite E. now rewrite filter_filter.
  - intros w Hw Hc.
    apply (Permutation_in (l := map fst
             (group_by eqb key (filter Workout.completed ws)))).
    + rewrite <- Hmap. symmetry. now apply Permutation_map.
    + apply Hkeys. apply filter_In. tauto.
  - pose proof (sort_by_sorted (fun a b => row_count b <=? row_count a)
                  (count_desc_total row_count)
                  (count_desc_trans row_count)
                  (map mk (group_by eqb key (filter Workout.completed ws))))
      as Hs.
    fold rows in Hs. clear Hperm. clearbody rows.
    induction Hs as [| a l Hs IH Ha]; constructor; auto.
    eapply Forall_impl; [| exact Ha].
    intros b Hb. unfold holds in Hb. now apply Z.leb_le.
Qed.

Lemma completionRate_bounds (c t : Z) :
  0 <= c <= t -> 0 < t ->
  0 <= JS.Math_round ((inject_Z c / inject_Z t) * 100)%Q <= 100.
Proof.
  intros Hc Ht.
  pose proof (Math_round_spec (inject_Z c / inject_Z t * 100)) as [Hlo Hhi].
  assert (Hq : (0 <= inject_Z c / inject_Z t /\ inject_Z c / inject_Z t <= 1)%Q).
  { assert (Ht' : (0 < inject_Z t)%Q)
      by (change 0%Q with (inject_Z 0); now rewrite <- Zlt_Qlt).
    assert (Hc0 : (0 <= inject_Z c)%Q)
      by (change 0%Q with (inject_Z 0); rewrite <- Zle_Qle; lia).
    assert (Hct : (inject_Z c <= inject_Z t)%Q) by (rewrite <- Zle_Qle; lia).
    split.
    - apply Qle_shift_div_l; [exact Ht' | lra].
    - apply Qle_shift_div_r; [exact Ht' | lra]. }
  split.
  - assert (X : (inject_Z (-1)
                 < inject_Z (JS.Math_round (inject_Z c / inject_Z t * 100)))%Q)
      by (change (inject_Z (-1)) with (-1)%Q; lra).
    rewrite <- Zlt_Qlt in X. lia.
  - assert (X : (inject_Z (JS.Math_round (inject_Z c / inject_Z t * 100))
                 < inject_Z 101)%Q)
      by (change (inject_Z 101) with 101%Q; lra).
    rewrite <- Zlt_Qlt in X. lia.
Qed.

(** X22. The global statistics are always answered with 200 and never
    write to the store.  Overall, the number of workouts and of completed
    workouts are those of the collection, the completion rate is between
    0 and 100, and the number of users is that of the active users.  By
    exercise type and by intensity there is one row for each value that a
    completed workout has, with the number of completed workouts of that
    value, which is at least 1, the larger numbers first. *)
Theorem getWorkoutStats_outcomes (s : Store) :
  exists st,
    replyHandler getWorkoutStats s
    = ({| r_status := 200; r_data := Some (GlobalStatsData st) |}, s)
    /\ ov_totalWorkouts (overall st) = count_of (workouts s)
    /\ ov_completedWorkouts (overall st)
       = count_of (filter Workout.completed (workouts s))
    /\ 0 <= ov_completedWorkouts (overall st) <= ov_totalWorkouts (overall st)
    /\ 0 <= ov_completionRate (overall st) <= 100
    /\ ov_totalUsers (overall st) = count_of (filter User.isActive (users s))
    /\ (NoDup (map ts_type (byExerciseType st))
        /\ (forall row, In row (byExerciseType st) ->
              1 <= ts_count row
              /\ ts_count row
                 = count_of (filter
                     (fun w => Workout.completed w
                               && Str.opt_eqb (Workout.exerciseType w)
                                    (ts_type row)) (workouts s)))
        /\ (forall w, In w (workouts s) -> Workout.completed w = true ->
              In (Workout.exerciseType w) (map ts_type (byExerciseType st)))
        /\ StronglySorted (fun a b => ts_count b <= ts_count a)
             (byExerciseType st))
    /\ (NoDup (map is_intensity (byIntensity st))
        /\ (forall row, In row (byIntensity st) ->
              1 <= is_count row
              /\ is_count row
                 = count_of (filter
                     (fun w => Workout.completed w
                               && Str.opt_eqb (Workout.intensity w)
                                    (is_intensity row)) (workouts s)))
        /\ (forall w, In w (workouts s) -> Workout.completed w = true ->
              In (Workout.intensity w) (map is_intensity (byIntensity st)))
        /\ StronglySorted (fun a b => is_count b <= is_count a)
             (byIntensity st)).
Proof.
  exists (globalStats (users s) (workouts s)).
  split; [reflexivity |].
  assert (Hc : 0 <= count_of (filter Workout.completed (workouts s))
               <= count_of (workouts s)).
  { unfold count_of. pose proof (filter_length_le Workout.completed (workouts s)).
    lia. }
  assert (Et : ov_totalWorkouts (overall (globalStats (users s) (workouts s)))
               = count_of (workouts s)).
  { unfold globalStats, overallStats. simpl.
    destruct (workouts s); reflexivity. }
  assert (Ec : ov_completedWorkouts
                 (overall (globalStats (users s) (workouts s)))
               = count_of (filter Workout.completed (workouts s))).
  { unfold globalStats, overallStats. simpl.
    destruct (workouts s); reflexivity. }
  split; [exact Et |]. split; [exact Ec |].
  split; [rewrite Et, Ec; exact Hc |].
  split.
  { unfold globalStats, overallStats. simpl.
    destruct (workouts s) as [| w ws] eqn:Ews; simpl; [lia |].
    assert (Hpos : 0 < count_of (w :: ws)) by (unfold count_of; simpl; lia).
    destruct (Z.ltb_spec 0 (count_of (w :: ws))); [| lia].
    apply completionRate_bounds; [exact Hc | exact Hpos]. }
  split; [reflexivity |].
  split.
  - exact (grouped_rows Str.opt_eqb Workout.exerciseType
             (fun g =>
                {| ts_type := fst g;
                   ts_count := count_of (snd g);
                   ts_totalCalories :=
                     Workout.sum_of Workout.caloriesBurned (snd g);
                   ts_avgCalories := avg_of Workout.caloriesBurned (snd g);
                   ts_avgDuration := avg_of Workout.duration (snd g) |})
             ts_type ts_count
             (workouts s) opt_eqb_eq (fun g => eq_refl) (fun g => eq_refl)).
  - exact (grouped_rows Str.opt_eqb Workout.intensity
             (fun g =>
                {| is_intensity := fst g;
                   is_count := count_of (snd g);
                   is_avgCalories := avg_of Workout.caloriesBurned (snd g);
                   is_avgDuration := avg_of Workout.duration (snd g) |})
             is_intensity is_count
             (workouts s) opt_eqb_eq (fun g => eq_refl) (fun g => eq_refl)).
Qed.

End GlobalStatsFacts.

Section ActiveUsersFacts.

Lemma first_rows_distinct {A} (n : nat) (l : list A) :
  NoDup l -> NoDup (firstn n l).
Proof.
  intros Hnd. rewrite <- (firstn_skipn n l) in Hnd.
  now apply NoDup_app_remove_r in Hnd.
Qed.

Lemma first_rows_in {A} (n : nat) (l : list A) (x : A) :
  In x (firstn n l) -> In x l.
Proof.
  intros Hx. rewrite <- (firstn_skipn n l). apply in_or_app. now left.
Qed.

(** With distinct ids, at most one user has a given id. *)
Lemma user_of_id (us : list User.doc) (id : ObjectId) :
  NoDup (map User._id us) ->
  filter (fun u => (User._id u =? id)%nat) us = []
  \/ exists u, In u us /\ User._id u = id
               /\ filter (fun u => (User._id u =? id)%nat) us = [u].
Proof.
  induction us as [| x us IH]; simpl; intros Hnd; [now left |].
  apply NoDup_cons_iff in Hnd. destruct Hnd as [Hfresh Hrest].
  destruct (Nat.eqb_spec (User._id x) id) as [E | Hne].
  - right. exists x. split; [now left |]. split; [exact E |].
    f_equal. apply filter_none. intros y Hy. apply Nat.eqb_neq.
    intros Ey. apply Hfresh. rewrite E, <- Ey. now apply in_map.
  - destruct (IH Hrest) as [-> | (u & Hu & Eu & ->)]; [now left |].
    right. exists u. tauto.
Qed.

Lemma lookup_unwind_rows (us : list User.doc)
    (g : option ObjectId * list Workout.doc) :
  NoDup (map User._id us) ->
  lookup_unwind us g = []
  \/ exists row u,
       lookup_unwind us g = [row]
       /\ fst g = Some (au_userId row)
       /\ In u us /\ User._id u = au_userId row
       /\ au_name row = User.name u /\ au_email row = User.email u
       /\ au_workoutCount row = count_of (snd g).
Proof.
  intros Hnd. unfold lookup_unwind. destruct (fst g) as [id |]; [| now left].
  destruct (user_of_id us id Hnd) as [-> | (u & Hu & Eu & ->)]; [now left |].
  right. eexists. exists u. simpl. repeat split; auto.
Qed.

Lemma active_rows (us : list User.doc)
    (top : list (option ObjectId * list Workout.doc)) :
  NoDup (map User._id us) -> NoDup (map fst top) ->
  StronglySorted
    (holds (fun a b => count_of (snd b) <=? count_of (snd a))) top ->
  (List.length (flat_map (lookup_unwind us) top) <= List.length top)%nat
  /\ NoDup (map au_userId (flat_map (lookup_unwind us) top))
  /\ (forall row, In row (flat_map (lookup_unwind us) top) ->
        exists g u,
          In g top /\ fst g = Some (au_userId row)
          /\ In u us /\ User._id u = au_userId row
          /\ au_name row = User.name u /\ au_email row = User.email u
          /\ au_workoutCount row = count_of (snd g))
  /\ StronglySorted (fun a b => au_workoutCount b <= au_workoutCount a)
       (flat_map (lookup_unwind us) top).
Proof.
  intros Hus Hnd Hs. induction Hs as [| g top Hs IH Hg]; simpl.
  - split; [lia |]. split; [constructor |].
    split; [intros row [] | constructor].
  - simpl in Hnd. apply NoDup_cons_iff in Hnd. destruct Hnd as [Hfresh Hrest].
    destruct (IH Hrest) as (Hlen & Hids & Hrows & Hsorted).
    destruct (lookup_unwind_rows us g Hus)
      as [-> | (row & u & -> & Ek & Hu & Eu & En & Ee & Ec)]; simpl.
    + split; [lia |]. split; [exact Hids |]. split; [| exact Hsorted].
      intros row Hrow. destruct (Hrows row Hrow) as (g' & u & Hg' & Hrest').
      exists g', u. tauto.
    + split; [lia |]. split; [| split].
      * constructor; [| exact Hids]. intros Hin.
        apply in_map_iff in Hin. destruct Hin as (row' & Eid & Hrow').
        destruct (Hrows row' Hrow') as (g' & u' & Hg' & Ek' & _).
        apply Hfresh. rewrite Ek, <- Eid, <- Ek'. now apply in_map.
      * intros row' [<- | Hrow'].
        -- exists g, u. tauto.
        -- destruct (Hrows row' Hrow') as (g' & u' & Hg' & Hrest').
           exists g', u'. tauto.
      * constructor; [exact Hsorted |].
        apply Forall_forall. intros row' Hrow'.
        destruct (Hrows row' Hrow') as (g' & u' & Hg' & _ & _ & _ & _ & _ & Ec').
        rewrite Forall_forall in Hg. specialize (Hg g' Hg').
        unfold holds in Hg. apply Z.leb_le in Hg. rewrite Ec, Ec'. exact Hg.
Qed.

Lemma lookup_unwind_user (us : list User.doc) (u : User.doc)
    (g : option ObjectId * list Workout.doc) :
  In u us -> fst g = Some (User._id u) ->
  In (User._id u) (map au_userId (lookup_unwind us g)).
Proof.
  intros Hu Ek. unfold lookup_unwind. rewrite Ek.
  rewrite map_map. simpl. apply in_map_iff. exists u.
  split; [reflexivity |]. apply filter_In. split; [exact Hu |].
  apply Nat.eqb_refl.
Qed.

(** X23. Where no two users have the same id, the most active users of
    the global statistics are at most 5 rows, of distinct ids, each of a
    stored user, with the name and the e-mail of that user and the number
    of the completed workouts of that user, which is at least 1, the larger
    numbers first.  Where the completed workouts have at most 5 owners,
    stored or not, every stored user with a completed workout has a
    row. *)
Theorem mostActiveUsers_rows (us : list User.doc) (ws : list Workout.doc) :
  NoDup (map User._id us) ->
  (List.length (mostActiveUsers (globalStats us ws)) <= 5)%nat
  /\ NoDup (map au_userId (mostActiveUsers (globalStats us ws)))
  /\ (forall row, In row (mostActiveUsers (globalStats us ws)) ->
        (exists u, In u us /\ User._id u = au_userId row
                   /\ au_name row = User.name u
                   /\ au_email row = User.email u)
        /\ 1 <= au_workoutCount row
        /\ au_workoutCount row
           = count_of (filter (fun w => Workout.completed w
                                        && Workout.of_user (au_userId row) w)
                         ws))
  /\ StronglySorted (fun a b => au_workoutCount b <= au_workoutCount a)
       (mostActiveUsers (globalStats us ws))
  /\ (forall owners : list (option ObjectId),
        (List.length owners <= 5)%nat ->
        (forall w, In w ws -> Workout.completed w = true ->
                   In (Workout.userId w) owners) ->
        forall u w,
          In u us -> In w ws -> Workout.completed w = true ->
          Workout.userId w = Some (User._id u) ->
          In (User._id u)
             (map au_userId (mostActiveUsers (globalStats us ws)))).
Proof.
  intros Hus. cbn [globalStats mostActiveUsers]. unfold activeUsers.
  destruct (group_by_spec opt_id_eqb Workout.userId opt_id_eqb_eq
              (filter Workout.completed ws)) as (Hnd & Hgroups & Hkeys).
  set (groups := group_by opt_id_eqb Workout.userId
                   (filter Workout.completed ws)) in *.
  set (le := fun a b : option ObjectId * list Workout.doc =>
               count_of (snd b) <=? count_of (snd a)).
  assert (Hperm : Permutation (sort_by le groups) groups)
    by apply sort_by_perm.
  assert (Hsorted : StronglySorted (holds le) (sort_by le groups))
    by (apply sort_by_sorted;
        [apply (count_desc_total (fun g => count_of (snd g)))
        | apply (count_desc_trans (fun g => count_of (snd g)))]).
  assert (Hnd' : NoDup (map fst (firstn 5 (sort_by le groups)))).
  { rewrite <- firstn_map. apply first_rows_distinct.
    apply (Permutation_NoDup (l := map fst groups)); [| exact Hnd].
    symmetry. now apply Permutation_map. }
  destruct (active_rows us (firstn 5 (sort_by le groups)) Hus Hnd'
              (sorted_firstn le 5 _ Hsorted))
    as (Hlen & Hids & Hrows & Hdesc).
  split; [| split; [exact Hids | split; [| split; [exact Hdesc |]]]].
  - pose proof (firstn_le_length 5 (sort_by le groups)). lia.
  - intros row Hrow.
    destruct (Hrows row Hrow) as ([k xs] & u & Hg & Ek & Hu & Eu & En & Ee & Ec).
    simpl in Ek, Ec. subst k.
    apply first_rows_in in Hg. apply (Permutation_in _ Hperm) in Hg.
    destruct (Hgroups _ _ Hg) as [E Hne].
    split; [exists u; tauto |].
    rewrite Ec. split; [now apply count_of_pos |].
    rewrite E, filter_filter. reflexivity.
  - intros owners Hfew Hown u w Hu Hw Hc Ew.
    assert (Hincl : incl (map fst groups) owners).
    { intros k Hk. apply in_map_iff in Hk. destruct Hk as ([k' xs] & <- & Hg).
      destruct (Hgroups _ _ Hg) as [E Hne]. simpl.
      destruct xs as [| x xs']; [congruence |].
      assert (Hx : In x (filter (fun y => opt_id_eqb (Workout.userId y) k')
                           (filter Workout.completed ws)))
        by (rewrite <- E; now left).
      apply filter_In in Hx. destruct Hx as [Hx Ek].
      apply opt_id_eqb_eq in Ek. rewrite <- Ek.
      apply filter_In in Hx. now apply Hown. }
    assert (Hall : firstn 5 (sort_by le groups) = sort_by le groups).
    { apply firstn_all2. rewrite (Permutation_length Hperm).
      rewrite <- (length_map fst groups).
      pose proof (NoDup_incl_length Hnd Hincl). lia. }
    rewrite Hall.
    assert (Hk : In (Workout.userId w) (map fst groups))
      by (apply Hkeys; apply filter_In; tauto).
    apply in_map_iff in Hk. destruct Hk as (g & Eg & Hg).
    assert (Hin : In (User._id u) (map au_userId (lookup_unwind us g)))
      by (apply lookup_unwind_user; [exact Hu | congruence]).
    apply in_map_iff in Hin. destruct Hin as (row & Er & Hr).
    apply in_map_iff. exists row. split; [exact Er |].
    apply in_flat_map. exists g.
    split; [apply (Permutation_in g (Permutation_sym Hperm) Hg) | exact Hr].
Qed.

End ActiveUsersFacts.

Lemma mostActiveUsers_rows_witness :
  NoDup (map User._id gymUsers)
  /\ map (fun row => (au_userId row, au_workoutCount row))
       (mostActiveUsers (globalStats gymUsers gymWorkouts))
     = [(0%nat, 2); (2%nat, 1)]
  /\ (forall row,
        In row (mostActiveUsers (globalStats gymUsers gymWorkouts)) ->
        au_workoutCount row
        = count_of (filter (fun w => Workout.completed w
                                     && Workout.of_user (au_userId row) w)
                      gymWorkouts))
  /\ In 2%nat
       (map au_userId (mostActiveUsers (globalStats gymUsers gymWorkouts))).
Proof.
  assert (Hnd : NoDup (map User._id gymUsers)).
  { simpl. apply NoDup_cons; [simpl; intros [E | []]; discriminate |].
    apply NoDup_cons; [intros [] | apply NoDup_nil]. }
  destruct (mostActiveUsers_rows gymUsers gymWorkouts Hnd)
    as (_ & _ & Hrows & _ & Hall).
  split; [exact Hnd |]. split; [reflexivity |]. split.
  - intros row Hrow. exact (proj2 (proj2 (Hrows row Hrow))).
  - apply (Hall [Some 0%nat; Some 2%nat]) with (u := userAda)
      (w := doneRun 4%nat 2%nat 5200).
    + simpl. lia.
    + intros w Hw Hc. simpl in Hw.
      destruct Hw as [<- | [<- | [<- | [<- | []]]]];
        simpl in *; auto; discriminate.
    + simpl. auto.
    + simpl. auto.
    + reflexivity.
    + reflexivity.
Defined.

(* ===================================================================== *)
(** * The validation of a body and the validation of the schema *)
(* ===================================================================== *)

Section TrimFacts.

Lemma skip_spaces_length (s : string) :
  (String.length (JS.skip_spaces s) <= String.length s)%nat.
Proof.
  induction s as [| c r IH]; simpl; [lia |].
  destruct (JS.is_space c); simpl; lia.
Qed.

(** What [skip_spaces] leaves does not start with a space. *)
Lemma skip_spaces_first (s : string) :
  match JS.skip_spaces s with
  | String c _ => JS.is_space c = false
  | EmptyString => True
  end.
Proof.
  induction s as [| c r IH]; simpl; [exact I |].
  destruct (JS.is_space c) eqn:E; [exact IH | exact E].
Qed.

Lemma skip_spaces_fixed (s : string) :
  JS.skip_spaces s = s <->
  match s with
  | String c _ => JS.is_space c = false
  | EmptyString => True
  end.
Proof.
  destruct s as [| c r]; simpl; [tauto |].
  destruct (JS.is_space c) eqn:E; [| tauto].
  split; [| discriminate]. intros Es.
  pose proof (skip_spaces_length r) as L. rewrite Es in L. simpl in L. lia.
Qed.

Lemma skip_spaces_idem (s : string) :
  JS.skip_spaces (JS.skip_spaces s) = JS.skip_spaces s.
Proof. apply skip_spaces_fixed. apply skip_spaces_first. Qed.

Lemma skip_spaces_suffix (s : string) :
  exists spaces,
    list_ascii_of_string s
    = spaces ++ list_ascii_of_string (JS.skip_spaces s).
Proof.
  induction s as [| c r IH]; simpl; [now exists [] |].
  destruct (JS.is_space c).
  - destruct IH as (sp & E). exists (c :: sp). simpl. now rewrite E.
  - now exists [].
Qed.

Lemma rev_string_involutive (s : string) :
  Str.rev_string (Str.rev_string s) = s.
Proof.
  unfold Str.rev_string.
  now rewrite list_ascii_of_string_of_list_ascii, rev_involutive,
    string_of_list_ascii_of_string.
Qed.

(** No space at the end of a list of characters. *)
Lemma rev_string_fixed (s : string) :
  JS.skip_spaces (Str.rev_string s) = Str.rev_string s <->
  forall l c, list_ascii_of_string s = l ++ [c] -> JS.is_space c = false.
Proof.
  rewrite skip_spaces_fixed. unfold Str.rev_string.
  destruct (list_ascii_of_string s) as [| a l] using rev_ind.
  - simpl. split; [| tauto]. intros _ l c E. now destruct l.
  - rewrite rev_app_distr. simpl. split.
    + intros Ha l' c E. apply app_inj_tail in E. destruct E as [_ <-].
      exact Ha.
    + intros Hl. now apply (Hl l a).
Qed.

Lemma trim_idem (s : string) : Str.trim (Str.trim s) = Str.trim s.
Proof.
  unfold Str.trim.
  set (a := JS.skip_spaces s).
  set (b := JS.skip_spaces (Str.rev_string a)).
  assert (Hb : JS.skip_spaces (Str.rev_string b) = Str.rev_string b).
  { apply rev_string_fixed. intros l c E.
    destruct (skip_spaces_suffix (Str.rev_string a)) as (sp & Esp).
    fold b in Esp. rewrite E in Esp.
    unfold Str.rev_string in Esp.
    rewrite list_ascii_of_string_of_list_ascii in Esp.
    apply (f_equal (@rev ascii)) in Esp.
    rewrite rev_involutive, app_assoc, rev_app_distr in Esp. simpl in Esp.
    pose proof (skip_spaces_first s) as Hfirst. fold a in Hfirst.
    destruct a as [| c' r]; simpl in Esp; [discriminate |].
    injection Esp as -> _. exact Hfirst. }
  rewrite Hb, rev_string_involutive.
  unfold b. now rewrite skip_spaces_idem.
Qed.

Lemma lower_char_space (c : ascii) :
  JS.is_space (Str.lower_char c) = JS.is_space c.
Proof. destruct c as [[] [] [] [] [] [] [] []]; reflexivity. Qed.

Lemma lower_char_idem (c : ascii) :
  Str.lower_char (Str.lower_char c) = Str.lower_char c.
Proof. destruct c as [[] [] [] [] [] [] [] []]; reflexivity. Qed.

Lemma toLowerCase_idem (s : string) :
  Str.toLowerCase (Str.toLowerCase s) = Str.toLowerCase s.
Proof.
  induction s as [| c r IH]; simpl; [reflexivity |].
  now rewrite lower_char_idem, IH.
Qed.

Lemma toLowerCase_skip_spaces (s : string) :
  Str.toLowerCase (JS.skip_spaces s) = JS.skip_spaces (Str.toLowerCase s).
Proof.
  induction s as [| c r IH]; simpl; [reflexivity |].
  rewrite lower_char_space. destruct (JS.is_space c); [exact IH | reflexivity].
Qed.

Lemma toLowerCase_chars (s : string) :
  list_ascii_of_string (Str.toLowerCase s)
  = map Str.lower_char (list_ascii_of_string s).
Proof.
  induction s as [| c r IH]; simpl; [reflexivity |]. now rewrite IH.
Qed.

Lemma toLowerCase_of_chars (l : list ascii) :
  Str.toLowerCase (string_of_list_ascii l)
  = string_of_list_ascii (map Str.lower_char l).
Proof.
  induction l as [| c r IH]; simpl; [reflexivity |]. now rewrite IH.
Qed.

Lemma toLowerCase_rev_string (s : string) :
  Str.toLowerCase (Str.rev_string s) = Str.rev_string (Str.toLowerCase s).
Proof.
  unfold Str.rev_string.
  now rewrite toLowerCase_of_chars, toLowerCase_chars, map_rev.
Qed.

Lemma toLowerCase_trim (s : string) :
  Str.toLowerCase (Str.trim s) = Str.trim (Str.toLowerCase s).
Proof.
  unfold Str.trim.
  now rewrite toLowerCase_rev_string, toLowerCase_skip_spaces,
    toLowerCase_rev_string, toLowerCase_skip_spaces.
Qed.

(** The e-mail that [createUser] and the setters of the schema store. *)
Lemma stored_email (e : string) :
  Str.trim (Str.toLowerCase (Str.trim (Str.toLowerCase e)))
  = Str.toLowerCase (Str.trim e).
Proof.
  now rewrite <- !toLowerCase_trim, trim_idem, toLowerCase_idem.
Qed.

End TrimFacts.

Section CreateRouteFacts.

Lemma lower_char_local (c : ascii) :
  Str.local_char c = true -> Str.local_char (Str.lower_char c) = true.
Proof. destruct c as [[] [] [] [] [] [] [] []]; vm_compute; congruence. Qed.

Lemma lower_char_domain (c : ascii) :
  Str.domain_char c = true -> Str.domain_char (Str.lower_char c) = true.
Proof. destruct c as [[] [] [] [] [] [] [] []]; vm_compute; congruence. Qed.

Lemma lower_char_letter (c : ascii) :
  Str.is_letter c = true -> Str.is_letter (Str.lower_char c) = true.
Proof. destruct c as [[] [] [] [] [] [] [] []]; vm_compute; congruence. Qed.

Lemma Forall_lower (p : ascii -> bool) (l : list ascii) :
  (forall c, p c = true -> p (Str.lower_char c) = true) ->
  Forall (holds1 p) l -> Forall (holds1 p) (map Str.lower_char l).
Proof.
  intros Hp Hl. apply Forall_map. eapply Forall_impl; [| exact Hl].
  intros c. apply Hp.
Qed.

(** The pattern accepts the lower case of what it accepts. *)
Lemma email_match_lower (s : string) :
  Str.email_match s = true -> Str.email_match (Str.toLowerCase s) = true.
Proof.
  rewrite !email_match_spec.
  intros (loc & dom & tld & Es & Hloc & Hlocs & Hdom & Hdoms & Hlen & Htld).
  exists (map Str.lower_char loc), (map Str.lower_char dom),
    (map Str.lower_char tld).
  split.
  { rewrite toLowerCase_chars, Es, map_app. simpl. now rewrite map_app. }
  split; [destruct loc; [congruence | discriminate] |].
  split; [apply Forall_lower; [apply lower_char_local | exact Hlocs] |].
  split; [destruct dom; [congruence | discriminate] |].
  split; [apply Forall_lower; [apply lower_char_domain | exact Hdoms] |].
  split; [now rewrite length_map |].
  apply Forall_lower; [apply lower_char_letter | exact Htld].
Qed.

Lemma email_match_nonempty (s : string) :
  Str.email_match s = true -> s <> EmptyString.
Proof. intros E ->. discriminate E. Qed.

Lemma Number_lt_false (a b : Q) : Number_lt a b = false -> (b <= a)%Q.
Proof.
  unfold Number_lt. rewrite negb_false_iff. apply Qle_bool_imp_le.
Qed.

Lemma check_user_number_ok (field : string) (lo hi : Q) (x : option Q) :
  check_user_number field lo hi x = [] -> User.in_bounds lo hi x = true.
Proof.
  unfold check_user_number, User.in_bounds. destruct x as [v |]; [| reflexivity].
  destruct (Number_lt v lo) eqn:E1; [discriminate |].
  destruct (Number_lt hi v) eqn:E2; [discriminate |]. intros _.
  apply Number_lt_false in E1, E2.
  apply andb_true_iff. split; now apply Qle_bool_iff.
Qed.

Lemma check_user_age_ok (x : option Q) :
  check_user_age x = [] -> User.in_bounds 13 120 x = true.
Proof.
  unfold check_user_age, User.in_bounds. destruct x as [v |]; [| reflexivity].
  destruct (negb (Number_isInteger v)); [discriminate |].
  destruct (Number_lt v 13) eqn:E1; [discriminate |].
  destruct (Number_lt 120 v) eqn:E2; [discriminate |]. intros _.
  apply Number_lt_false in E1, E2.
  apply andb_true_iff. split; now apply Qle_bool_iff.
Qed.

Lemma check_enum_ok (field : string) (valid : list string)
    (x : option string) :
  check_enum field valid x = [] -> User.in_enum valid x = true.
Proof.
  unfold check_enum, User.in_enum. destruct x as [v |]; [| reflexivity].
  destruct (Str.mem v valid); [reflexivity | discriminate].
Qed.

Lemma check_user_name_ok (x : option string) :
  check_user_name false x = [] ->
  exists n, x = Some n
            /\ JS.truthy_str (Some (Str.trim n)) = true
            /\ User.valid_name (Some (Str.trim n)) = true.
Proof.
  unfold check_user_name. cbn [negb andb].
  destruct (JS.truthy_str x) eqn:Et; [| discriminate]. cbn [negb].
  destruct x as [n |]; [| discriminate].
  destruct (Z.ltb_spec (Str.length (Str.trim n)) 2) as [| Hlo]; [discriminate |].
  destruct (Z.ltb_spec 50 (Str.length (Str.trim n))) as [| Hhi];
    [discriminate |].
  intros _. exists n. split; [reflexivity |].
  assert (Hne : Str.trim n <> EmptyString).
  { intros E. rewrite E in Hlo. unfold Str.length in Hlo. simpl in Hlo. lia. }
  split.
  - simpl. destruct (Str.trim n); [congruence | reflexivity].
  - unfold User.valid_name. rewrite !andb_true_iff. repeat split.
    + apply negb_true_iff. now apply String.eqb_neq.
    + now apply Z.leb_le.
    + now apply Z.leb_le.
Qed.

Lemma check_user_email_ok (x : option string) :
  check_user_email false x = [] ->
  exists e, x = Some e
            /\ JS.truthy_str (Some (Str.toLowerCase (Str.trim e))) = true
            /\ User.valid_email (Some (Str.toLowerCase (Str.trim e))) = true.
Proof.
  unfold check_user_email. cbn [negb andb].
  destruct (JS.truthy_str x) eqn:Et; [| discriminate]. cbn [negb].
  destruct x as [e |]; [| discriminate].
  destruct (Str.email_match (Str.trim e)) eqn:Em; [| discriminate].
  intros _. exists e. split; [reflexivity |].
  apply email_match_lower in Em.
  pose proof (email_match_nonempty _ Em) as Hne.
  split.
  - simpl. destruct (Str.toLowerCase (Str.trim e)); [congruence | reflexivity].
  - unfold User.valid_email. rewrite Em, andb_true_r.
    apply negb_true_iff. now apply String.eqb_neq.
Qed.

(** A body that [validateUser(false)] lets through gives a document that
    passes the validation of the schema. *)
Lemma validateUser_validate (now : Date) (id : ObjectId)
    (body : User.fields) :
  validateUser_errors false body = [] ->
  exists name email,
    User.f_name body = Some name /\ User.f_email body = Some email
    /\ User.validate (User.new id now (createFields name email body)) = true
    /\ User.email (User.new id now (createFields name email body))
       = Some (Str.toLowerCase (Str.trim email)).
Proof.
  unfold validateUser_errors. intros E.
  repeat (apply app_eq_nil in E; destruct E as [? E]).
  destruct (check_user_name_ok _ H) as (name & En & Hnt & Hnv).
  destruct (check_user_email_ok _ H0) as (email & Ee & Het & Hev).
  exists name, email. split; [exact En |]. split; [exact Ee |].
  unfold User.validate, User.new, createFields.
  cbn [User.name User.email User.age User.weight User.height
       User.fitnessGoal User.activityLevel User.profileCompletion
       User.f_name User.f_email User.f_age User.f_weight User.f_height
       User.f_fitnessGoal User.f_activityLevel User.f_profileCompletion
       option_map].
  rewrite trim_idem, stored_email.
  split; [| reflexivity].
  rewrite Hnt, Hnv, Het, Hev.
  rewrite (check_user_age_ok _ H1).
  rewrite (check_user_number_ok _ _ _ _ H2).
  rewrite (check_user_number_ok _ _ _ _ H3).
  rewrite (check_enum_ok _ _ _ H4).
  cbn [andb].
  pose proof (check_enum_ok _ _ _ E) as Hl.
  destruct (User.f_activityLevel body) as [l |];
    cbn [User.or_else]; [| reflexivity].
  rewrite Hl. reflexivity.
Qed.

End CreateRouteFacts.

Section CreateRouteOutcomes.

Lemma email_taken_user (us : list User.doc) (id : ObjectId) (e : string) :
  User.email_taken us id (Some e) = true ->
  exists u, In u us /\ User.email u = Some e.
Proof.
  simpl. intros Ht. apply existsb_exists in Ht.
  destruct Ht as (u & Hu & Hb). apply andb_true_iff in Hb.
  exists u. split; [exact Hu |].
  destruct (User.email u) as [x |]; simpl in Hb; [| easy].
  destruct Hb as [_ Hb]. apply String.eqb_eq in Hb. now subst x.
Qed.

(** X24. The route that creates a user never answers 500.  It answers
    400, with the errors of [validateUser], exactly when [validateUser]
    finds an error, and then the store is as it was.  A body that
    [validateUser] lets through passes the validation of the schema: the
    answer is 409, with the store as it was and a stored user of the
    e-mail of the body in lower case, trimmed or not; or it is 201, the
    new user is added at the end with the e-mail of the body trimmed and
    in lower case, and no user of another id has that e-mail. *)
Theorem createUserRoute_outcomes (now : Date) (body : User.fields)
    (s : Store) :
  let r := fst (createUserRoute now body s) in
  let s' := snd (createUserRoute now body s) in
  (validateUser_errors false body <> []
   /\ r = sendValidationError (validateUser_errors false body)
   /\ status r = 400 /\ s' = s)
  \/ (validateUser_errors false body = []
      /\ exists name email,
           User.f_name body = Some name /\ User.f_email body = Some email
           /\ ((status r = 409 /\ s' = s
                /\ exists u, In u (users s)
                     /\ (User.email u = Some (Str.toLowerCase email)
                         \/ User.email u
                            = Some (Str.toLowerCase (Str.trim email))))
               \/ (status r = 201
                   /\ exists u,
                        data_of r = UserData u
                        /\ users s' = users s ++ [u]
                        /\ User.validate u = true
                        /\ User.email u
                           = Some (Str.toLowerCase (Str.trim email))
                        /\ forall v, In v (users s) ->
                             User._id v <> User._id u ->
                             User.email v <> User.email u))).
Proof.
  unfold createUserRoute, validateUser.
  destruct (validateUser_errors false body) as [| err errs] eqn:Eerr.
  - right. split; [reflexivity |].
    destruct (validateUser_validate now (nextId s) body Eerr)
      as (name & email & En & Ee & Hv & Hemail).
    exists name, email. split; [exact En |]. split; [exact Ee |].
    rewrite createUser_cases, Ee, En.
    destruct (User.findOneByEmail (users s) (Str.toLowerCase email))
      as [u0 |] eqn:Ef.
    + left. split; [reflexivity |]. split; [reflexivity |].
      unfold User.findOneByEmail in Ef. apply find_some in Ef.
      destruct Ef as [Hu0 Hb]. exists u0. split; [exact Hu0 |]. left.
      destruct (User.email u0) as [x |]; simpl in Hb; [| discriminate].
      apply String.eqb_eq in Hb. now subst x.
    + destruct (User.create (nextId s) now (createFields name email body)
                  (users s)) as [e | [d us]] eqn:Ec.
      * left. unfold User.create in Ec. rewrite Hv in Ec. cbn [negb] in Ec.
        destruct (User.email_taken _ _ _) eqn:Et; [| discriminate].
        injection Ec as <-.
        split; [reflexivity |]. split; [reflexivity |].
        change (User.email (User.preSave
                  (User.new (nextId s) now (createFields name email body))))
          with (User.email
                  (User.new (nextId s) now (createFields name email body)))
          in Et.
        rewrite Hemail in Et.
        destruct (email_taken_user _ _ _ Et) as (u & Hu & Eu).
        exists u. split; [exact Hu |]. now right.
      * right. split; [reflexivity |]. exists d.
        destruct (create_written _ _ _ _ _ _ Ec) as (-> & Eid & Et & _).
        unfold User.create in Ec. rewrite Hv in Ec. cbn [negb] in Ec.
        destruct (User.email_taken _ _ _); [discriminate |].
        injection Ec as <- _.
        split; [reflexivity |]. split; [reflexivity |].
        split; [now apply validate_preSave |].
        split; [exact Hemail |].
        intros v Hv' Hne.
        change (User.email (User.preSave
                  (User.new (nextId s) now (createFields name email body))))
          with (User.email
                  (User.new (nextId s) now (createFields name email body)))
          in *.
        rewrite Hemail in *.
        apply (email_taken_false (users s) (nextId s)); assumption.
  - left. split; [discriminate |]. repeat split.
Qed.

End CreateRouteOutcomes.

Section CreateWorkoutRouteFacts.
















End CreateWorkoutRouteFacts.

(* ===================================================================== *)
(** * The handlers that read *)
(* ===================================================================== *)

Section ReadHandlerFacts.
Context `{Runtime}.

Lemma getAllUsers_store (q : Query) (s : Store) :
  snd (listUsersRoute q s) = s.
Proof.
  unfold listUsersRoute, asyncHandler, getAllUsers, bind, lift, query, ret,
    throw.
  destruct (userFilter q) as [e | f]; [reflexivity |].
  destruct (JS.or_default _ 1) as [page | | |]; try reflexivity.
  destruct (JS.or_default _ 10) as [limit | | |]; try reflexivity.
  destruct (skip_limit _ _ _); reflexivity.
Qed.

Lemma getAllWorkouts_store (q : Query) (s : Store) :
  snd (asyncHandler (getAllWorkouts q) s) = s.
Proof.
  unfold asyncHandler, getAllWorkouts, bind, lift, query, ret, throw.
  destruct (workoutFilter q) as [e | f]; [reflexivity |].
  destruct (JS.or_default _ 1) as [page | | |]; try reflexivity.
  destruct (JS.or_default _ 10) as [limit | | |]; try reflexivity.
  destruct (skip_limit _ _ _); reflexivity.
Qed.

(** X26. The handlers of the GET routes never write: whatever they
    answer, an error included, the users, the workouts and the next id are
    as they were. *)
Theorem read_handlers_keep_store (now : Date) (id : ObjectId) (q : Query)
    (s : Store) :
  snd (listUsersRoute q s) = s
  /\ snd (asyncHandler (getUserById id) s) = s
  /\ snd (asyncHandler (getUserStats now id) s) = s
  /\ snd (listWorkoutsRoute q s) = s
  /\ snd (asyncHandler (getAllWorkouts q) s) = s
  /\ snd (replyHandler (getWorkoutById id) s) = s
  /\ snd (replyHandler (getWorkoutsByUser id) s) = s
  /\ snd (replyHandler getWorkoutStats s) = s.
Proof.
  split; [apply getAllUsers_store |].
  split; [rewrite getUserById_cases;
          destruct (User.findById (users s) id); reflexivity |].
  split.
  { rewrite getUserStats_cases.
    destruct (User.findById (users s) id); [| reflexivity].
    destruct ObjectId_callable; reflexivity. }
  split.
  { unfold listWorkoutsRoute.
    destruct (validateQueryParams q); [reflexivity |].
    apply getAllWorkouts_store. }
  split; [apply getAllWorkouts_store |].
  split.
  { rewrite getWorkoutById_cases.
    destruct (Workout.findById (workouts s) id) as [w |]; [| reflexivity].
    destruct (match Workout.userId w with
              | Some uid => User.findById (users s) uid
              | None => None
              end); reflexivity. }
  split; [| reflexivity].
  unfold replyHandler, getWorkoutsByUser, bind, query, ret, throw.
  destruct (User.findById (users s) id); reflexivity.
Qed.

End ReadHandlerFacts.
